(** * Bybit demo-trade relay: a shallow embedding of [main.py]

    The program relays trading signals received from a Telegram bot into
    limit orders on Bybit, and services a one-time-passcode hand-off for the
    Telegram login.  This development embeds the two pieces of [main.py] that
    carry its logic,

    - the per-message pipeline [handle_bot_response] with its helpers
      [get_step_size] and [format_trade_details], and
    - the login routine [telegram_login] with the Flask view [receive_otp],

    and states the properties of the specification over them, followed by
    further properties of the same code and of the start-up checks on the
    environment.

    Modelling conventions.
    - Python [float] is IEEE-754 binary64.  It is modelled by the Standard
      Library's [spec_float] with [prec = 53] and [emax = 1024]; every
      arithmetic operation of the source is the correctly rounded one.
    - Values that come back from the exchange or from a JSON body are Python
      objects built by a JSON decoder; they are modelled by [pyval].
    - Python [str] is modelled by [string]; a character is its code point,
      restricted to the range 0..255.
    - Exceptions are values of type [exn]; only instances of Python's
      [Exception] are modelled (the class every [except Exception] of the
      source catches).
    - The external clients (pybit's [session], Telethon's [client]) are
      records of answers; every call made to them is recorded in a trace,
      together with every log record and every line printed. *)

From Stdlib Require Import ZArith QArith List String Ascii Bool Lia.
From Stdlib Require Import Floats.SpecFloat.
Import ListNotations.

Local Open Scope Z_scope.

(* ================================================================= *)
(** ** Exceptions and results *)

(** The instances of [Exception] the program can meet.  [ClientError] stands
    for whatever an external client raises (transport failure, provider
    error); the three Telethon errors are those [telegram_login] names. *)
Inductive exn : Type :=
| ValueError (msg : string)
| KeyError (key : string)
| TypeError (msg : string)
| AttributeError (msg : string)
| ZeroDivisionError
| OverflowError
| ClientError (msg : string)
| FloodWaitError (seconds : Z)
| PhoneCodeInvalidError
| SessionPasswordNeededError
| RaisedFrom (e cause : exn).

(** The result of evaluating a Python expression: a value, or a raised
    exception. *)
Definition result (A : Type) : Type := (exn + A)%type.

Definition ok {A} (a : A) : result A := inr a.
Definition raise {A} (e : exn) : result A := inl e.

Definition rbind {A B} (r : result A) (k : A -> result B) : result B :=
  match r with
  | inl e => inl e
  | inr a => k a
  end.

Declare Scope result_scope.
Delimit Scope result_scope with result.
Notation "x <- r ;; k" := (rbind r (fun x => k))
  (at level 61, r at next level, right associativity) : result_scope.

(* ================================================================= *)
(** ** Python floats *)

Module PyFloat.

Definition prec : Z := 53.
Definition emax : Z := 1024.

Definition float : Type := spec_float.

Definition pzero : float := S754_zero false.

(** [float(n)] for a Python [int]: the nearest double, ties to even;
    [OverflowError] when the integer is too large. *)
Definition of_int (n : Z) : result float :=
  match binary_normalize prec emax n 0 false with
  | S754_infinity _ => raise OverflowError
  | f => ok f
  end.

(** [bool(x)]: every float but the two zeros is true (NaN included). *)
Definition truthy (x : float) : bool :=
  match x with
  | S754_zero _ => false
  | _ => true
  end.

(** [x / y]: Python raises on a zero divisor, whatever the dividend. *)
Definition truediv (x y : float) : result float :=
  match y with
  | S754_zero _ => raise ZeroDivisionError
  | _ => ok (SFdiv prec emax x y)
  end.

Definition mul (x y : float) : float := SFmul prec emax x y.

(** [math.floor(x)]: a Python [int]. *)
Definition floor (x : float) : result Z :=
  match x with
  | S754_zero _ => ok 0
  | S754_nan => raise (ValueError "cannot convert float NaN to integer")
  | S754_infinity _ => raise OverflowError
  | S754_finite s m e =>
      if 0 <=? e
      then ok (cond_Zopp s (Zpos m * 2 ^ e))
      else ok (cond_Zopp s (Zpos m) / 2 ^ (- e))
  end.

(** [n * x] for an [int] n and a [float] x: n is converted first. *)
Definition int_mul (n : Z) (x : float) : result float :=
  (fn <- of_int n ;; ok (mul fn x))%result.

(** [x > 0], [x < y], [x <= y] as Python evaluates them (false on NaN). *)
Definition gt_zero (x : float) : bool := SFltb pzero x.
Definition ltb (x y : float) : bool := SFltb x y.
Definition leb (x y : float) : bool := SFleb x y.

(** A float that is neither NaN nor below zero. *)
Definition nonneg (x : float) : bool := SFleb pzero x.

Definition is_finite (x : float) : bool :=
  match x with
  | S754_zero _ | S754_finite _ _ _ => true
  | _ => false
  end.

(** The sign a float carries; NaN carries none. *)
Definition signed_as (sx : bool) (x : float) : Prop :=
  match x with
  | S754_zero s | S754_infinity s | S754_finite s _ _ => s = sx
  | S754_nan => False
  end.

(** The rational number a finite float stands for. *)
Definition to_Q (x : float) : option Q :=
  match x with
  | S754_zero _ => Some 0%Q
  | S754_finite s m e => Some (inject_Z (cond_Zopp s (Zpos m)) * Qpower 2 e)%Q
  | _ => None
  end.

End PyFloat.

(* ================================================================= *)
(** ** Position sizing (main.py, lines 159-160) *)

(** [max_qty = wallet_balance / price]
    [max_qty = math.floor(max_qty / step_size) * step_size] *)
Definition position_size (wallet_balance price step_size : PyFloat.float)
  : result PyFloat.float :=
  (max_qty <- PyFloat.truediv wallet_balance price ;;
   q <- PyFloat.truediv max_qty step_size ;;
   n <- PyFloat.floor q ;;
   PyFloat.int_mul n step_size)%result.

(** The float [max_qty / step_size] that [math.floor] is applied to. *)
Definition position_quotient (wallet_balance price step_size : PyFloat.float)
  : result PyFloat.float :=
  (max_qty <- PyFloat.truediv wallet_balance price ;;
   PyFloat.truediv max_qty step_size)%result.

(** The number of steps [math.floor(max_qty / step_size)] on its own. *)
Definition position_steps (wallet_balance price step_size : PyFloat.float)
  : result Z :=
  (max_qty <- PyFloat.truediv wallet_balance price ;;
   q <- PyFloat.truediv max_qty step_size ;;
   PyFloat.floor q)%result.

(* ================================================================= *)
(** ** Python strings *)

Module PyStr.

Local Open Scope string_scope.

(** [s.startswith(p)] *)
Definition startswith (s p : string) : bool := String.prefix p s.

(** Characters [str.strip()] removes: the code points below 256 for which
    [str.isspace] holds. *)
Definition isspace (c : ascii) : bool :=
  let n := N_of_ascii c in
  ((9 <=? n) && (n <=? 13) || (28 <=? n) && (n <=? 32)
   || (n =? 133) || (n =? 160))%N.

Fixpoint lstrip_by (p : ascii -> bool) (s : string) : string :=
  match s with
  | EmptyString => EmptyString
  | String c r => if p c then lstrip_by p r else s
  end.

Fixpoint rstrip_by (p : ascii -> bool) (s : string) : string :=
  match s with
  | EmptyString => EmptyString
  | String c r =>
      match rstrip_by p r with
      | EmptyString => if p c then EmptyString else String c EmptyString
      | r' => String c r'
      end
  end.

Definition strip_by (p : ascii -> bool) (s : string) : string :=
  rstrip_by p (lstrip_by p s).

(** [s.strip()] and [s.strip(chars)] for a one-character [chars]. *)
Definition strip (s : string) : string := strip_by isspace s.
Definition strip_char (c : ascii) (s : string) : string :=
  strip_by (Ascii.eqb c) s.

(** [s.split(sep)] for a one-character separator: always at least one
    piece, empty pieces kept. *)
Fixpoint split (sep : ascii) (s : string) : list string :=
  match s with
  | EmptyString => [EmptyString]
  | String c r =>
      if Ascii.eqb c sep then EmptyString :: split sep r
      else match split sep r with
           | [] => [String c EmptyString]
           | p :: ps => String c p :: ps
           end
  end.

(** [s.replace(old, new)] for a non-empty [old]: every occurrence, found
    from the left without overlap.  [skip] counts the characters of an
    occurrence already replaced that are still to be passed over. *)
Fixpoint replace_from (skip : nat) (old new s : string) : string :=
  match s with
  | EmptyString => EmptyString
  | String c r =>
      match skip with
      | S k => replace_from k old new r
      | O =>
          if String.prefix old s
          then new ++ replace_from (String.length old - 1) old new r
          else String c (replace_from O old new r)
      end
  end.

Definition replace (s old new : string) : string :=
  replace_from O old new s.

Definition newline : ascii := "010"%char.
Definition dquote : ascii := "034"%char.

End PyStr.

(* ================================================================= *)
(** ** Python objects decoded from JSON *)

#[local] Set Warnings "-register-all".

Inductive pyval : Type :=
| PNone
| PBool (b : bool)
| PInt (n : Z)
| PFloat (f : PyFloat.float)
| PStr (s : string)
| PList (l : list pyval)
| PDict (d : list (string * pyval)).

Module Py.

Local Open Scope string_scope.

(** Lookup of a key in a [dict] (keys are unique in a Python dict; the
    association list is read from the front). *)
Fixpoint lookup (k : string) (d : list (string * pyval)) : option pyval :=
  match d with
  | [] => None
  | (k', v) :: r => if String.eqb k k' then Some v else lookup k r
  end.

(** [bool(v)] *)
Definition truthy (v : pyval) : bool :=
  match v with
  | PNone => false
  | PBool b => b
  | PInt n => negb (n =? 0)%Z
  | PFloat f => PyFloat.truthy f
  | PStr s => negb (String.eqb s "")
  | PList l => match l with [] => false | _ => true end
  | PDict d => match d with [] => false | _ => true end
  end.

(** [v[k]] for a string key [k]. *)
Definition getitem (v : pyval) (k : string) : result pyval :=
  match v with
  | PDict d =>
      match lookup k d with
      | Some x => ok x
      | None => raise (KeyError k)
      end
  | PList _ => raise (TypeError "list indices must be integers or slices, not str")
  | PStr _ => raise (TypeError "string indices must be integers, not 'str'")
  | _ => raise (TypeError "object is not subscriptable")
  end.

(** [v.get(k, default)]: only a dict has the method. *)
Definition get (v : pyval) (k : string) (default : pyval) : result pyval :=
  match v with
  | PDict d =>
      match lookup k d with
      | Some x => ok x
      | None => ok default
      end
  | _ => raise (AttributeError "object has no attribute 'get'")
  end.

(** [v == s] for a string [s]. *)
Definition eq_str (v : pyval) (s : string) : bool :=
  match v with
  | PStr t => String.eqb t s
  | _ => false
  end.

(** [v == 0]: Python compares numbers by value, and [False == 0]. *)
Definition eq_zero (v : pyval) : bool :=
  match v with
  | PInt n => (n =? 0)%Z
  | PBool b => negb b
  | PFloat f => negb (PyFloat.truthy f)
  | _ => false
  end.

Definition isinstance_list (v : pyval) : bool :=
  match v with PList _ => true | _ => false end.

Definition isinstance_dict (v : pyval) : bool :=
  match v with PDict _ => true | _ => false end.

Fixpoint chars (s : string) : list pyval :=
  match s with
  | EmptyString => []
  | String c r => PStr (String c EmptyString) :: chars r
  end.

(** The items a [for] loop or a generator draws from [v]: the elements of
    a list, the keys of a dict, the characters of a string. *)
Definition iter (v : pyval) : result (list pyval) :=
  match v with
  | PList l => ok l
  | PDict d => ok (map (fun kv => PStr (fst kv)) d)
  | PStr s => ok (chars s)
  | _ => raise (TypeError "object is not iterable")
  end.

End Py.

(* ================================================================= *)
(** ** Effects: what the program says and whom it calls *)

(** The keyword arguments of [session.place_order] (lines 163-173). *)
Record order_params : Type := {
  op_category : string;
  op_symbol : string;
  op_side : string;
  op_order_type : string;
  op_qty : PyFloat.float;
  op_price : PyFloat.float;
  op_time_in_force : string;
  op_stopLoss : PyFloat.float;
  op_takeProfit : PyFloat.float
}.

(** The values [format_trade_details] lays out, in the order of its lines.
    The layout itself (padding, thousands separators, digits) is text
    formatting of values that are all floats or printable objects and is not
    modelled. *)
Record trade_report : Type := {
  tr_symbol : string;
  tr_price : PyFloat.float;
  tr_stop_loss : PyFloat.float;
  tr_take_profit : PyFloat.float;
  tr_qty : PyFloat.float;
  tr_order_id : pyval;
  tr_status : pyval;
  tr_timestamp : pyval;
  tr_equity : PyFloat.float;
  tr_wallet_balance : PyFloat.float
}.

(** The texts the program logs or prints, one constructor per format string
    of the source, carrying the values interpolated into it. *)
Inductive message : Type :=
| MsgBotResponse (raw_text : string)
| MsgExtracted (symbol : string) (price stop_loss take_profit : PyFloat.float)
| MsgStepSizeError (e : exn)
| MsgBalanceResponse (r : pyval)
| MsgUsdt (equity wallet_balance : PyFloat.float)
| MsgWalletError (e : exn)
| MsgPlacingOrder (p : order_params)
| MsgTradeDetails (r : trade_report)
| MsgOrderRetMsg (ret_msg : pyval)
| MsgOrderException (e : exn)
| MsgInsufficientBalance
| MsgHandlerError (e : exn)
| MsgOtpRequired
| MsgOtpReceived (otp : pyval)
| MsgOtpError (e : exn)
| MsgConnecting
| MsgCheckingAuthorized
| MsgInitiatingLogin
| MsgCodeRequestSent
| MsgFloodWait (seconds : Z)
| MsgCodeRequestError (e : exn)
| MsgWaitingForOtpEndpoint
| MsgWaitingForOtp
| MsgLoginSuccessful
| MsgInvalidOtp (otp : pyval)
| MsgTwoFactor
| MsgLoginError (e : exn)
| MsgOtpNotReceived
| MsgAlreadyAuthorized
| MsgTelegramLoginError (e : exn)
| MsgLoginCompleted
| MsgListening
| MsgLoginFailedPermanently.

Inductive level : Type := DEBUG | INFO | ERROR.

(** What the [/otp] view answers: the JSON body and the status code. *)
Inductive reply : Type :=
| OtpRequired        (* {"error": "OTP is required"}, 400 *)
| OtpAccepted (otp : pyval)
                     (* {"message": "OTP received successfully", "otp": otp}, 200 *)
| ServerError (e : exn).
                     (* {"error": str(e)}, 500 *)

Definition status_code (r : reply) : Z :=
  match r with
  | OtpRequired => 400
  | OtpAccepted _ => 200
  | ServerError _ => 500
  end.

Inductive event : Type :=
| Log (lv : level) (m : message)
| Print (m : message)
| GetInstrumentsInfo
| GetWalletBalance
| PlaceOrder (p : order_params)
| Connect
| IsUserAuthorized
| SendCodeRequest
| SignIn (code : pyval)
| Respond (r : reply).

Definition trace : Type := list event.

(** A computation: the events it produced, and how it ended. *)
Definition M (A : Type) : Type := (trace * result A)%type.

Definition ret {A} (a : A) : M A := ([], ok a).
Definition throw {A} (e : exn) : M A := ([], raise e).
Definition lift {A} (r : result A) : M A := ([], r).
Definition emit (ev : event) : M unit := ([ev], ok tt).

(** A call to an external client: recorded, then answered. *)
Definition call {A} (ev : event) (answer : result A) : M A := ([ev], answer).

Definition bind {A B} (m : M A) (k : A -> M B) : M B :=
  match m with
  | (t, inl e) => (t, inl e)
  | (t, inr a) => let (t', r) := k a in (t ++ t', r)
  end.

(** [try: m except Exception as e: h e] *)
Definition try_except {A} (m : M A) (h : exn -> M A) : M A :=
  match m with
  | (t, inl e) => let (t', r) := h e in (t ++ t', r)
  | (t, inr a) => (t, inr a)
  end.

Declare Scope M_scope.
Delimit Scope M_scope with M.
Notation "x <- m ;; k" := (bind m (fun x => k))
  (at level 61, m at next level, right associativity) : M_scope.
Notation "m ;; k" := (bind m (fun _ => k))
  (at level 61, right associativity) : M_scope.

(** [logging.x(msg)] followed by [print(msg)], as the source pairs them:
    as a computation, and as the two events it leaves. *)
Definition log_print (lv : level) (m : message) : M unit :=
  (emit (Log lv m) ;; emit (Print m))%M.

Definition say (lv : level) (m : message) : trace := [Log lv m; Print m].

Definition is_exchange_call (ev : event) : bool :=
  match ev with
  | GetInstrumentsInfo | GetWalletBalance | PlaceOrder _ => true
  | _ => false
  end.

Definition is_place_order (ev : event) : bool :=
  match ev with
  | PlaceOrder _ => true
  | _ => false
  end.

Definition is_send_code (ev : event) : bool :=
  match ev with
  | SendCodeRequest => true
  | _ => false
  end.

Definition is_sign_in (ev : event) : bool :=
  match ev with
  | SignIn _ => true
  | _ => false
  end.

(** pybit's [session]: the answer to each of the three calls the program
    makes.  One record describes the exchange as one message finds it. *)
Record session_t : Type := {
  get_instruments_info : result pyval;
  get_wallet_balance : result pyval;
  place_order : order_params -> result pyval
}.

(* ================================================================= *)
(** ** The signal-to-order pipeline *)

Section Pipeline.

Local Open Scope string_scope.

(** Python's builtin [float] on a [str]: [None] where it raises
    [ValueError].  The builtin is not code of the program; the pipeline is
    stated for whatever it does. *)
Variable float_of_str : string -> option PyFloat.float.

Definition str_to_float (s : string) : result PyFloat.float :=
  match float_of_str s with
  | Some f => ok f
  | None => raise (ValueError "could not convert string to float")
  end.

(** [float(v)] for an object [v]. *)
Definition py_float (v : pyval) : result PyFloat.float :=
  match v with
  | PFloat f => ok f
  | PInt n => PyFloat.of_int n
  | PBool b => PyFloat.of_int (if b then 1 else 0)
  | PStr s => str_to_float s
  | _ => raise (TypeError "float() argument must be a string or a real number")
  end.

(** *** [get_step_size] (lines 65-78) *)

(** [next((x for x in linear_list if x["symbol"] == symbol), None)] *)
Fixpoint find_symbol (symbol : string) (linear_list : list pyval)
  : result pyval :=
  match linear_list with
  | [] => ok PNone
  | x :: rest =>
      (s <- Py.getitem x "symbol" ;;
       if Py.eq_str s symbol then ok x else find_symbol symbol rest)%result
  end.

(** Lines 69-75: from the answer of the exchange to the step size. *)
Definition step_size_of (instruments : pyval) (symbol : string)
  : result PyFloat.float :=
  (r <- Py.getitem instruments "result" ;;
   linear_list <- Py.getitem r "list" ;;
   items <- Py.iter linear_list ;;
   symbol_info <- find_symbol symbol items ;;
   if Py.truthy symbol_info
   then lot <- Py.getitem symbol_info "lotSizeFilter" ;;
        step <- Py.getitem lot "qtyStep" ;;
        py_float step
   else raise (ValueError ("Symbol " ++ symbol ++ " not found in instruments")))%result.

Definition get_step_size (session : session_t) (symbol : string)
  : M PyFloat.float :=
  try_except
    (instruments <- call GetInstrumentsInfo (get_instruments_info session) ;;
     lift (step_size_of instruments symbol))%M
    (fun e => (emit (Log ERROR (MsgStepSizeError e)) ;; throw e)%M).

(** *** [format_trade_details] (lines 80-98) *)

Definition format_trade_details
  (symbol : string) (price stop_loss_price take_profit_price qty : PyFloat.float)
  (order_response : pyval) (equity wallet_balance : PyFloat.float)
  : result trade_report :=
  (r <- Py.get order_response "result" (PDict []) ;;
   order_id <- Py.get r "orderId" (PStr "N/A") ;;
   ret_msg <- Py.get order_response "retMsg" (PStr "N/A") ;;
   timestamp <- Py.get order_response "time" (PStr "N/A") ;;
   ok {| tr_symbol := symbol;
         tr_price := price;
         tr_stop_loss := stop_loss_price;
         tr_take_profit := take_profit_price;
         tr_qty := qty;
         tr_order_id := order_id;
         tr_status := ret_msg;
         tr_timestamp := timestamp;
         tr_equity := equity;
         tr_wallet_balance := wallet_balance |})%result.

(** *** Parsing the message (lines 105-119) *)

(** The four variables the loop assigns; [None] is Python's [None]. *)
Record fields : Type := {
  f_symbol : option string;
  f_price : option PyFloat.float;
  f_stop_loss_price : option PyFloat.float;
  f_take_profit_price : option PyFloat.float
}.

Definition no_fields : fields :=
  {| f_symbol := None; f_price := None;
     f_stop_loss_price := None; f_take_profit_price := None |}.

(** The text that follows a label: [part.replace(label, "").strip()]. *)
Definition field_text (part label : string) : string :=
  PyStr.strip (PyStr.replace part label "").

(** One turn of [for part in message_parts]. *)
Definition parse_part (part : string) (acc : fields) : result fields :=
  if PyStr.startswith part "Symbol:" then
    ok {| f_symbol := Some (field_text part "Symbol:");
          f_price := f_price acc;
          f_stop_loss_price := f_stop_loss_price acc;
          f_take_profit_price := f_take_profit_price acc |}
  else if PyStr.startswith part "Price:" then
    (x <- str_to_float (field_text part "Price:") ;;
     ok {| f_symbol := f_symbol acc;
           f_price := Some x;
           f_stop_loss_price := f_stop_loss_price acc;
           f_take_profit_price := f_take_profit_price acc |})%result
  else if PyStr.startswith part "Stop Loss:" then
    (x <- str_to_float (field_text part "Stop Loss:") ;;
     ok {| f_symbol := f_symbol acc;
           f_price := f_price acc;
           f_stop_loss_price := Some x;
           f_take_profit_price := f_take_profit_price acc |})%result
  else if PyStr.startswith part "Take Profit:" then
    (x <- str_to_float (field_text part "Take Profit:") ;;
     ok {| f_symbol := f_symbol acc;
           f_price := f_price acc;
           f_stop_loss_price := f_stop_loss_price acc;
           f_take_profit_price := Some x |})%result
  else ok acc.

Fixpoint parse_parts (message_parts : list string) (acc : fields)
  : result fields :=
  match message_parts with
  | [] => ok acc
  | part :: rest =>
      (acc' <- parse_part part acc ;; parse_parts rest acc')%result
  end.

(** Truth of a variable that holds [None] or a string / a float. *)
Definition truthy_str (v : option string) : bool :=
  match v with
  | Some s => negb (String.eqb s "")
  | None => false
  end.

Definition truthy_float (v : option PyFloat.float) : bool :=
  match v with
  | Some x => PyFloat.truthy x
  | None => false
  end.

(** [all([symbol, price, stop_loss_price, take_profit_price])] *)
Definition all_fields (f : fields) : bool :=
  truthy_str (f_symbol f) && truthy_float (f_price f)
  && truthy_float (f_stop_loss_price f)
  && truthy_float (f_take_profit_price f).

(** A signal: the four values once the check of line 118 has passed. *)
Record signal : Type := {
  symbol : string;
  price : PyFloat.float;
  stop_loss_price : PyFloat.float;
  take_profit_price : PyFloat.float
}.

(** Lines 105-119: the signal, or the exception raised on the way. *)
Definition parse_signal (bot_message : string) : result signal :=
  (f <- parse_parts (PyStr.split PyStr.newline bot_message) no_fields ;;
   match f_symbol f, f_price f, f_stop_loss_price f, f_take_profit_price f with
   | Some s, Some p, Some sl, Some tp =>
       if all_fields f
       then ok {| symbol := s; price := p;
                  stop_loss_price := sl; take_profit_price := tp |}
       else raise (ValueError "Invalid message format received from the bot")
   | _, _, _, _ =>
       raise (ValueError "Invalid message format received from the bot")
   end)%result.

(** *** Reading the wallet (lines 129-157) *)

(** [for coin in coins: if coin.get("coin") == "USDT": usdt_data = coin; break] *)
Fixpoint scan_coins (coins : list pyval) (usdt_data : pyval) : result pyval :=
  match coins with
  | [] => ok usdt_data
  | coin :: rest =>
      (c <- Py.get coin "coin" PNone ;;
       if Py.eq_str c "USDT" then ok coin else scan_coins rest usdt_data)%result
  end.

(** The body of [for account in wallet_list], up to the test that breaks. *)
Definition scan_account (account usdt_data : pyval) : result pyval :=
  (coins <- Py.get account "coin" PNone ;;
   match coins with
   | PList l => scan_coins l usdt_data
   | PDict _ =>
       c <- Py.get coins "coin" PNone ;;
       if Py.eq_str c "USDT" then ok coins else ok usdt_data
   | _ => ok usdt_data
   end)%result.

Fixpoint scan_accounts (wallet_list : list pyval) (usdt_data : pyval)
  : result pyval :=
  match wallet_list with
  | [] => ok usdt_data
  | account :: rest =>
      (usdt_data' <- scan_account account usdt_data ;;
       if Py.truthy usdt_data' then ok usdt_data'
       else scan_accounts rest usdt_data')%result
  end.

(** Lines 130-149: the USDT record of the response. *)
Definition find_usdt (account_balance : pyval) : result pyval :=
  (r <- Py.getitem account_balance "result" ;;
   wallet_list <- Py.getitem r "list" ;;
   match wallet_list with
   | PList ((_ :: _) as l) =>
       usdt_data <- scan_accounts l PNone ;;
       if Py.truthy usdt_data then ok usdt_data
       else raise (ValueError "USDT balance not found in the response")
   | _ => raise (ValueError "Wallet list is empty or not a valid list")
   end)%result.

(** The account snapshot: [(equity, wallet_balance)]. *)
Definition snapshot : Type := (PyFloat.float * PyFloat.float)%type.

(** Lines 130-152, without the log records. *)
Definition read_snapshot (account_balance : pyval) : result snapshot :=
  (usdt_data <- find_usdt account_balance ;;
   e <- Py.get usdt_data "equity" (PInt 0) ;;
   equity <- py_float e ;;
   w <- Py.get usdt_data "walletBalance" (PInt 0) ;;
   wallet_balance <- py_float w ;;
   ok (equity, wallet_balance))%result.

(** Lines 129-157: the [try] block and its handler. *)
Definition wallet_snapshot (account_balance : pyval) : M snapshot :=
  try_except
    (s <- lift (read_snapshot account_balance) ;;
     emit (Log INFO (MsgUsdt (fst s) (snd s))) ;;
     ret s)%M
    (fun e =>
       (emit (Log ERROR (MsgWalletError e)) ;;
        throw (RaisedFrom (ValueError "Failed to parse wallet balance") e))%M).

(** *** Placing the order (lines 162-196) *)

Definition make_order_params (sg : signal) (max_qty : PyFloat.float)
  : order_params :=
  {| op_category := "linear";
     op_symbol := symbol sg;
     op_side := "Buy";
     op_order_type := "Limit";
     op_qty := max_qty;
     op_price := price sg;
     op_time_in_force := "GTC";
     op_stopLoss := stop_loss_price sg;
     op_takeProfit := take_profit_price sg |}.

(** Lines 176-192: the inner [try] block and its handler. *)
Definition submit_order (session : session_t) (sg : signal)
  (max_qty equity wallet_balance : PyFloat.float) : M unit :=
  let order_params := make_order_params sg max_qty in
  try_except
    (order <- call (PlaceOrder order_params) (place_order session order_params) ;;
     ret_code <- lift (Py.getitem order "retCode") ;;
     if Py.eq_zero ret_code then
       trade_details <- lift (format_trade_details
                                (symbol sg) (price sg) (stop_loss_price sg)
                                (take_profit_price sg) max_qty order
                                equity wallet_balance) ;;
       log_print INFO (MsgTradeDetails trade_details)
     else
       ret_msg <- lift (Py.getitem order "retMsg") ;;
       log_print ERROR (MsgOrderRetMsg ret_msg))%M
    (fun e => log_print ERROR (MsgOrderException e)).

(** Lines 159-196: sizing, then the order or the refusal. *)
Definition size_and_place (session : session_t) (sg : signal)
  (step_size equity wallet_balance : PyFloat.float) : M unit :=
  (max_qty <- lift (position_size wallet_balance (price sg) step_size) ;;
   if PyFloat.gt_zero max_qty then
     emit (Log INFO (MsgPlacingOrder (make_order_params sg max_qty))) ;;
     submit_order session sg max_qty equity wallet_balance
   else
     log_print ERROR MsgInsufficientBalance)%M.

(** Lines 104-196: the body of the outer [try]. *)
Definition handle_body (session : session_t) (bot_message : string) : M unit :=
  (sg <- lift (parse_signal bot_message) ;;
   let m := MsgExtracted (symbol sg) (price sg)
              (stop_loss_price sg) (take_profit_price sg) in
   log_print INFO m ;;
   step_size <- get_step_size session (symbol sg) ;;
   account_balance <- call GetWalletBalance (get_wallet_balance session) ;;
   emit (Log DEBUG (MsgBalanceResponse account_balance)) ;;
   s <- wallet_snapshot account_balance ;;
   let (equity, wallet_balance) := s in
   size_and_place session sg step_size equity wallet_balance)%M.

(** *** [handle_bot_response] (lines 100-200) *)

(** Line 102: the double quotes around the text are stripped, then the
    blanks. *)
Definition bot_message_of (raw_text : string) : string :=
  PyStr.strip (PyStr.strip_char PyStr.dquote raw_text).

Definition handle_bot_response (session : session_t) (raw_text : string)
  : M unit :=
  let bot_message := bot_message_of raw_text in
  try_except
    (handle_body session bot_message)
    (fun e => log_print ERROR (MsgHandlerError e)).

(** *** [bot_message_handler] (lines 202-205) *)
Definition bot_message_handler (session : session_t) (raw_text : string)
  : M unit :=
  (emit (Print (MsgBotResponse raw_text)) ;;
   handle_bot_response session raw_text)%M.

(** The listener.  The dispatch loop is Telethon's, not the program's:
    [client.run_until_disconnected()] hands the messages of the bot to
    [bot_message_handler], which runs each to its end before the next one
    starts (the handler never awaits), in arrival order.  Each message
    comes with the exchange as that message finds it.  In the model an
    exception that left a handler would end the run there. *)
Fixpoint listen (inbox : list (session_t * string)) : M unit :=
  match inbox with
  | [] => ret tt
  | (session, raw_text) :: rest =>
      (bot_message_handler session raw_text ;; listen rest)%M
  end.

End Pipeline.

(* ================================================================= *)
(** ** A decimal reader for concrete inputs *)

(** [float_of_decimal] reads the plain decimal literals [-12], [0.001],
    [50000.5]: an optional sign, digits, and an optional point followed by
    digits, with blanks around.  On a literal of at most 15 digits Python's
    [float] returns the quotient of two doubles that hold the digits and the
    power of ten exactly, rounded once; the reader does the same and answers
    [None] on everything else.  It is the instance of the builtin used to
    run the pipeline on concrete messages: Python's [float] accepts more
    (exponents, [inf], [nan], underscores). *)
Module Decimal.

Definition digit (c : ascii) : option Z :=
  let n := Z.of_N (N_of_ascii c) in
  if (48 <=? n) && (n <=? 57) then Some (n - 48) else None.

(** Digits read so far: their value and how many there are. *)
Fixpoint digits (s : string) (acc : Z) (count : Z) : Z * Z * string :=
  match s with
  | EmptyString => (acc, count, s)
  | String c r =>
      match digit c with
      | Some d => digits r (10 * acc + d) (count + 1)
      | None => (acc, count, s)
      end
  end.

Definition unsigned (s : string) : option PyFloat.float :=
  let '(int_part, n_int, rest) := digits s 0 0 in
  let '(mantissa, n_all, rest') :=
    match rest with
    | String "." r => digits r int_part n_int
    | _ => (int_part, n_int, rest)
    end in
  let n_frac := n_all - n_int in
  match rest' with
  | EmptyString =>
      if (1 <=? n_all) && (n_all <=? 15) then
        match PyFloat.of_int mantissa, PyFloat.of_int (10 ^ n_frac) with
        | inr m, inr p => Some (SFdiv PyFloat.prec PyFloat.emax m p)
        | _, _ => None
        end
      else None
  | _ => None
  end.

Definition float_of_decimal (s : string) : option PyFloat.float :=
  match PyStr.strip s with
  | String "-" r => option_map SFopp (unsigned r)
  | String "+" r => unsigned r
  | r => unsigned r
  end.

End Decimal.

(* ================================================================= *)
(** ** The login and the OTP hand-off *)

Module Auth.

Local Open Scope string_scope.
Local Open Scope list_scope.

(** The three module-level variables of lines 61-63; [login_event] is the
    flag of the [asyncio.Event]. *)
Record globals : Type := {
  otp_received : pyval;
  login_event : bool;
  otp_request_sent : bool
}.

Definition initial : globals :=
  {| otp_received := PNone; login_event := false; otp_request_sent := false |}.

(** Telethon's [client]: the answer to each call [telegram_login] makes. *)
Record client_t : Type := {
  connect : result unit;
  is_user_authorized : result bool;
  send_code_request : result unit;
  sign_in : pyval -> result unit
}.

(** [sub in s] for two strings. *)
Fixpoint str_contains (s sub : string) : bool :=
  String.prefix sub s ||
  match s with
  | EmptyString => false
  | String _ r => str_contains r sub
  end.

(** [k in v] for a string [k]: a key of a dict, an element of a list, a
    substring of a string. *)
Definition contains (v : pyval) (k : string) : result bool :=
  match v with
  | PDict d => ok (match Py.lookup k d with Some _ => true | None => false end)
  | PList l => ok (existsb (fun x => Py.eq_str x k) l)
  | PStr s => ok (str_contains s k)
  | _ => raise (TypeError "argument is not iterable")
  end.

(** *** [receive_otp] (lines 212-232)

    [body] is what [request.get_json()] does: the decoded body, or the
    exception it raises.  The result is the events of the call (the reply
    last) and the globals it leaves. *)
Definition receive_otp (body : result pyval) (g : globals) : trace * globals :=
  let failed e := (say ERROR (MsgOtpError e) ++ [Respond (ServerError e)], g) in
  match body with
  | inl e => failed e
  | inr data =>
      if negb (Py.truthy data) then
        (say ERROR MsgOtpRequired ++ [Respond OtpRequired], g)
      else
        match contains data "otp" with
        | inl e => failed e
        | inr false => (say ERROR MsgOtpRequired ++ [Respond OtpRequired], g)
        | inr true =>
            match Py.getitem data "otp" with
            | inl e => failed e
            | inr otp =>
                (say INFO (MsgOtpReceived otp) ++ [Respond (OtpAccepted otp)],
                 {| otp_received := otp;
                    login_event := true;
                    otp_request_sent := otp_request_sent g |})
            end
        end
  end.


(** *** [telegram_login] (lines 239-304)

    The coroutine is cut at [await login_event.wait()]: [before_wait] runs
    from the call to the wait (or to an earlier [return]), [after_wait]
    from the wake-up to the [return]. *)

Inductive progress : Type :=
| Returned (success : bool)
| AtWait.

(** The handler of the outer [try] (lines 301-304). *)
Definition login_failed (e : exn) : trace := say ERROR (MsgTelegramLoginError e).

(** Lines 242-267. *)
Definition before_wait (client : client_t) (g : globals)
  : trace * globals * progress :=
  let waiting := [Log INFO MsgWaitingForOtpEndpoint; Print MsgWaitingForOtp] in
  match connect client with
  | inl e => (say INFO MsgConnecting ++ [Connect] ++ login_failed e,
              g, Returned false)
  | inr _ =>
      let t0 := say INFO MsgConnecting ++ [Connect]
                ++ say INFO MsgCheckingAuthorized ++ [IsUserAuthorized] in
      match is_user_authorized client with
      | inl e => (t0 ++ login_failed e, g, Returned false)
      | inr true => (t0 ++ say INFO MsgAlreadyAuthorized, g, Returned true)
      | inr false =>
          if negb (otp_request_sent g) then
            let t1 := t0 ++ say INFO MsgInitiatingLogin ++ [SendCodeRequest] in
            match send_code_request client with
            | inr _ =>
                (t1 ++ say INFO MsgCodeRequestSent ++ waiting,
                 {| otp_received := otp_received g;
                    login_event := login_event g;
                    otp_request_sent := true |},
                 AtWait)
            | inl (FloodWaitError seconds) =>
                (t1 ++ say ERROR (MsgFloodWait seconds), g, Returned false)
            | inl e =>
                (t1 ++ say ERROR (MsgCodeRequestError e), g, Returned false)
            end
          else (t0 ++ waiting, g, AtWait)
      end
  end.

(** Lines 278-280, 284-286, 290-292: the pending OTP is dropped and the
    event cleared. *)
Definition reset_otp (g : globals) : globals :=
  {| otp_received := PNone;
     login_event := false;
     otp_request_sent := otp_request_sent g |}.

(** Lines 269-296. *)
Definition after_wait (client : client_t) (g : globals)
  : trace * globals * bool :=
  if Py.truthy (otp_received g) then
    let code := otp_received g in
    match sign_in client code with
    | inr _ => ([SignIn code] ++ say INFO MsgLoginSuccessful, g, true)
    | inl PhoneCodeInvalidError =>
        ([SignIn code] ++ say ERROR (MsgInvalidOtp code), reset_otp g, false)
    | inl SessionPasswordNeededError =>
        ([SignIn code] ++ say ERROR MsgTwoFactor, reset_otp g, false)
    | inl e =>
        ([SignIn code] ++ say ERROR (MsgLoginError e), reset_otp g, false)
    end
  else (say ERROR MsgOtpNotReceived, g, false).

(** [telegram_login], from its call to its return or, when the event is
    clear at line 268, to its suspension there: [Event.wait()] returns at
    once when the event is already set. *)
Definition telegram_login (client : client_t) (g : globals)
  : trace * globals * progress :=
  let '(t, g', p) := before_wait client g in
  match p with
  | Returned success => (t, g', Returned success)
  | AtWait =>
      if login_event g'
      then let '(t', g'', success) := after_wait client g' in
           (t ++ t', g'', Returned success)
      else (t, g', AtWait)
  end.

(** Lines 329-342 of [main]: what follows the return of [telegram_login]. *)
Definition main_report (success : bool) : trace :=
  if success
  then [Print MsgLoginCompleted; Log INFO MsgLoginCompleted;
        Print MsgListening; Log INFO MsgListening]
  else [Print MsgLoginFailedPermanently; Log ERROR MsgLoginFailedPermanently].

(** *** The login and the OTP surface running side by side

    Where the login stands: not running, suspended at the wait, or
    returned.  In the words of the specification: [Idle] is
    Unauthenticated, [Waiting] is AwaitingOtp, [Done true] is
    Authenticated and [Done false] is PermanentlyFailed. *)
Inductive login_state : Type :=
| Idle
| Waiting (client : client_t)
| Done (success : bool).

Record system : Type := {
  vars : globals;
  login : login_state
}.

Definition start : system := {| vars := initial; login := Idle |}.

(** What can happen next: [telegram_login] is called, a request reaches
    [/otp], or the event loop resumes the suspended login. *)
Inductive action : Type :=
| CallLogin (client : client_t)
| PostOtp (body : result pyval)
| Resume.

(** The suspended login runs on when the event is set. *)
Definition resume (client : client_t) (g : globals) : trace * system :=
  let '(t, g', success) := after_wait client g in
  (t, {| vars := g'; login := Done success |}).

(** One action.  A login is not called while another is suspended; the
    segment after the wait runs without a request to [/otp] in between. *)
Definition step (a : action) (s : system) : trace * system :=
  match a with
  | CallLogin client =>
      match login s with
      | Waiting _ => ([], s)
      | _ =>
          let '(t, g, p) := telegram_login client (vars s) in
          (t, {| vars := g;
                 login := match p with
                          | Returned success => Done success
                          | AtWait => Waiting client
                          end |})
      end
  | PostOtp body =>
      let (t, g) := receive_otp body (vars s) in
      (t, {| vars := g; login := login s |})
  | Resume =>
      match login s with
      | Waiting client =>
          if login_event (vars s) then resume client (vars s) else ([], s)
      | _ => ([], s)
      end
  end.

Fixpoint run (acts : list action) (s : system) : trace * system :=
  match acts with
  | [] => ([], s)
  | a :: rest =>
      let (t, s') := step a s in
      let (t', s'') := run rest s' in
      (t ++ t', s'')
  end.



Definition count_send_code (t : trace) : nat :=
  List.length (filter is_send_code t).

End Auth.

(* ================================================================= *)
(** ** The vocabulary of the properties *)

Local Open Scope string_scope.
Local Open Scope list_scope.

(** *** Traces *)

Definition no_exchange_call (t : trace) : Prop :=
  existsb is_exchange_call t = false.

Definition no_place_order (t : trace) : Prop :=
  existsb is_place_order t = false.

Definition count_place_order (t : trace) : nat :=
  List.length (filter is_place_order t).

Definition is_trade_report (ev : event) : bool :=
  match ev with
  | Log INFO (MsgTradeDetails _) => true
  | _ => false
  end.

Definition trade_reported (t : trace) : bool := existsb is_trade_report t.

(** *** Messages *)

Definition labels : list string :=
  ["Symbol:"; "Price:"; "Stop Loss:"; "Take Profit:"].

Definition numeric_labels : list string :=
  ["Price:"; "Stop Loss:"; "Take Profit:"].

(** Some line of the message starts with the label. *)
Definition has_label (parts : list string) (label : string) : bool :=
  existsb (fun part => PyStr.startswith part label) parts.

(** One of the four labeled fields is missing. *)
Definition field_missing (bot_message : string) : Prop :=
  exists label,
    In label labels /\
    has_label (PyStr.split PyStr.newline bot_message) label = false.

(** A numeric field is there and [float] refuses its text. *)
Definition numeric_field_unparsable
  (float_of_str : string -> option PyFloat.float) (bot_message : string) : Prop :=
  exists part label,
    In part (PyStr.split PyStr.newline bot_message) /\
    In label numeric_labels /\
    PyStr.startswith part label = true /\
    float_of_str (field_text part label) = None.

(** The value of the variable a label is read into. *)
Definition field_value (f : fields) (label : string)
  : option (string + PyFloat.float) :=
  if String.eqb label "Symbol:" then option_map inl (f_symbol f)
  else if String.eqb label "Price:" then option_map inr (f_price f)
  else if String.eqb label "Stop Loss:" then option_map inr (f_stop_loss_price f)
  else option_map inr (f_take_profit_price f).

(** [part] is the last line of the message that starts with the label. *)
Definition last_line (parts : list string) (label part : string) : Prop :=
  exists pre post,
    parts = pre ++ part :: post /\
    PyStr.startswith part label = true /\
    has_label post label = false.

(** The symbol the message ends up with is the empty string, or one of its
    three numbers is a zero. *)
Definition zero_or_empty_field
  (float_of_str : string -> option PyFloat.float) (bot_message : string) : Prop :=
  (exists part,
      last_line (PyStr.split PyStr.newline bot_message) "Symbol:" part /\
      field_text part "Symbol:" = "") \/
  (exists label part x,
      In label numeric_labels /\
      last_line (PyStr.split PyStr.newline bot_message) label part /\
      float_of_str (field_text part label) = Some x /\
      PyFloat.truthy x = false).

Definition extracted (sg : signal) : message :=
  MsgExtracted (symbol sg) (price sg) (stop_loss_price sg) (take_profit_price sg).

(** The events between the parse and the sizing, when no step fails. *)
Definition fetched (sg : signal) (ab : pyval) (equity balance : PyFloat.float) : trace :=
  say INFO (extracted sg)
  ++ [GetInstrumentsInfo; GetWalletBalance;
      Log DEBUG (MsgBalanceResponse ab); Log INFO (MsgUsdt equity balance)].

(** *** Wallet responses *)

(** [account_balance["result"]["list"]] *)
Definition wallet_list_of (account_balance : pyval) : result pyval :=
  (r <- Py.getitem account_balance "result" ;; Py.getitem r "list")%result.

(** The same account with its single coin record written as a one-element
    list of records. *)
Definition coin_as_list (kv : string * pyval) : string * pyval :=
  match kv with
  | (k, PDict c) => if String.eqb "coin" k then (k, PList [PDict c]) else kv
  | _ => kv
  end.

Definition account_as_list (account : pyval) : pyval :=
  match account with
  | PDict d => PDict (map coin_as_list d)
  | _ => account
  end.

(** A coin record for USDT, and a wallet that has one, in either shape. *)
Definition is_usdt (coin : pyval) : bool :=
  match coin with
  | PDict c =>
      match Py.lookup "coin" c with
      | Some v => Py.eq_str v "USDT"
      | None => false
      end
  | _ => false
  end.

Definition account_has_usdt (account : pyval) : bool :=
  match account with
  | PDict d =>
      match Py.lookup "coin" d with
      | Some (PList coins) => existsb is_usdt coins
      | Some (PDict c) => is_usdt (PDict c)
      | _ => false
      end
  | _ => false
  end.

Definition has_usdt_entry (wallet_list : list pyval) : bool :=
  existsb account_has_usdt wallet_list.

(** *** Order responses *)

(** The answer of [place_order] has the fields of an order result: a status
    code and a status message, and a [result] that is an object when it is
    there. *)
Definition order_result (order code ret_msg : pyval) : Prop :=
  exists d,
    order = PDict d /\
    Py.lookup "retCode" d = Some code /\
    Py.lookup "retMsg" d = Some ret_msg /\
    match Py.lookup "result" d with
    | Some (PDict _) | None => True
    | Some _ => False
    end.

(** *** The login *)

(** The record that a code request went through (line 255). *)
Definition code_request_sent (ev : event) : bool :=
  match ev with
  | Log INFO MsgCodeRequestSent => true
  | _ => false
  end.

Definition sent_in (t : trace) : bool := existsb code_request_sent t.

(** No code request is issued after one that went through. *)
Fixpoint quiet_after_sent (t : trace) : bool :=
  match t with
  | [] => true
  | ev :: r =>
      (if code_request_sent ev
       then Nat.eqb (Auth.count_send_code r) 0
       else true)
      && quiet_after_sent r
  end.

Definition is_call_login (a : Auth.action) : bool :=
  match a with
  | Auth.CallLogin _ => true
  | _ => false
  end.

Definition count_logins (acts : list Auth.action) : nat :=
  List.length (filter is_call_login acts).

Definition requested (s : Auth.system) : bool :=
  Auth.otp_request_sent (Auth.vars s).

(** The globals once an OTP has been taken in. *)
Definition delivered (otp : pyval) (g : Auth.globals) : Auth.globals :=
  {| Auth.otp_received := otp;
     Auth.login_event := true;
     Auth.otp_request_sent := Auth.otp_request_sent g |}.

(** What the count of code requests rests on, for a piece of a run: [before]
    and [after] are the request flag at its two ends, [n] bounds the
    requests issued in it. *)
Definition sends_well (n : nat) (before : bool) (t : trace) (after : bool)
  : Prop :=
  quiet_after_sent t = true /\
  (Auth.count_send_code t <= n)%nat /\
  (sent_in t = true -> after = true) /\
  (before = true -> after = true /\ Auth.count_send_code t = O).

(* ================================================================= *)
(** ** Concrete inputs *)

Module Sample.

(** A decimal literal as the double Python reads it. *)
Definition dec (s : string) : PyFloat.float :=
  match Decimal.float_of_decimal s with
  | Some f => f
  | None => S754_nan
  end.

Definition nl : string := String PyStr.newline EmptyString.

(** The text of a signal, one labeled field per line. *)
Definition signal_text (sym price stop_loss take_profit : string) : string :=
  String.concat nl
    [String.append "Symbol: " sym;
     String.append "Price: " price;
     String.append "Stop Loss: " stop_loss;
     String.append "Take Profit: " take_profit].

(** The message of the specification's end-to-end scenarios. *)
Definition btc_text : string := signal_text "BTCUSDT" "50000" "49000" "52000".

Definition btc_signal : signal :=
  {| symbol := "BTCUSDT";
     price := dec "50000";
     stop_loss_price := dec "49000";
     take_profit_price := dec "52000" |}.

(** The same message without its [Take Profit:] line. *)
Definition no_take_profit_text : string :=
  String.concat nl ["Symbol: BTCUSDT"; "Price: 50000"; "Stop Loss: 49000"].

(** A price of zero. *)
Definition zero_price_text : string := signal_text "BTCUSDT" "0" "49000" "52000".

(** A cheap instrument, for the rounding example. *)
Definition cheap_text : string := signal_text "XYZUSDT" "0.9" "0.8" "1.1".

Definition cheap_signal : signal :=
  {| symbol := "XYZUSDT";
     price := dec "0.9";
     stop_loss_price := dec "0.8";
     take_profit_price := dec "1.1" |}.

Definition instrument (sym step : string) : pyval :=
  PDict [("symbol", PStr sym);
         ("lotSizeFilter", PDict [("qtyStep", PStr step)])].

Definition instruments : pyval :=
  PDict [("retCode", PInt 0);
         ("result",
           PDict [("list", PList [instrument "ETHUSDT" "0.01";
                                  instrument "BTCUSDT" "0.001";
                                  instrument "XYZUSDT" "0.001"])])].

Definition usdt (balance : string) : pyval :=
  PDict [("coin", PStr "USDT"); ("equity", PStr balance);
         ("walletBalance", PStr balance)].

Definition wallet (accounts : list pyval) : pyval :=
  PDict [("retCode", PInt 0); ("result", PDict [("list", PList accounts)])].

(** The USDT entry as the single coin record of the account. *)
Definition accounts_record (balance : string) : list pyval :=
  [PDict [("accountType", PStr "UNIFIED"); ("coin", usdt balance)]].

(** The same entry as the one element of a list of coin records. *)
Definition accounts_list (balance : string) : list pyval :=
  [PDict [("accountType", PStr "UNIFIED"); ("coin", PList [usdt balance])]].

(** An account that holds BTC only. *)
Definition accounts_without_usdt : list pyval :=
  [PDict [("accountType", PStr "UNIFIED");
          ("coin", PList [PDict [("coin", PStr "BTC"); ("equity", PStr "1")]])]].

Definition order_answer (code : Z) (ret_msg : string) : pyval :=
  PDict [("retCode", PInt code); ("retMsg", PStr ret_msg);
         ("result", PDict [("orderId", PStr "1234-abcd")]);
         ("time", PInt 1700000000000)].

Definition exchange (accounts : list pyval) (answer : result pyval) : session_t :=
  {| get_instruments_info := ok instruments;
     get_wallet_balance := ok (wallet accounts);
     place_order := fun _ => answer |}.

(** A client that is not authorized and whose code request goes through. *)
Definition client_ok : Auth.client_t :=
  {| Auth.connect := ok tt;
     Auth.is_user_authorized := ok false;
     Auth.send_code_request := ok tt;
     Auth.sign_in := fun _ => ok tt |}.

(** A client whose code request is refused for flooding. *)
Definition client_flood : Auth.client_t :=
  {| Auth.connect := ok tt;
     Auth.is_user_authorized := ok false;
     Auth.send_code_request := raise (FloodWaitError 30);
     Auth.sign_in := fun _ => ok tt |}.

Definition otp_body (otp : string) : list (string * pyval) := [("otp", PStr otp)].

(** The globals once the code request has gone through. *)
Definition code_requested : Auth.globals :=
  {| Auth.otp_received := PNone;
     Auth.login_event := false;
     Auth.otp_request_sent := true |}.

(** The login suspended at the wait, and the login returned with success. *)
Definition waiting : Auth.system :=
  {| Auth.vars := code_requested; Auth.login := Auth.Waiting client_ok |}.

Definition signed_in : Auth.system :=
  {| Auth.vars := code_requested; Auth.login := Auth.Done true |}.

(** The exchange of the end-to-end scenarios, by wallet balance and by the
    status code its order endpoint answers with. *)
Definition scenario (balance : string) (code : Z) (ret_msg : string) : session_t :=
  exchange (accounts_list balance) (ok (order_answer code ret_msg)).

End Sample.

(* ================================================================= *)
(** ** The start-up checks (main.py, lines 25-52) *)

Module Startup.

(** [os.getenv]: the value of a variable, [None] when it is not set. *)
Definition environ : Type := string -> option string.

(** [required_vars] (lines 35-43), in the order [items()] yields it. *)
Definition required_vars (getenv : environ) : list (string * option string) :=
  [("API_KEY", getenv "API_KEY");
   ("API_SECRET", getenv "API_SECRET");
   ("API_ID", getenv "API_ID");
   ("API_HASH", getenv "API_HASH");
   ("BOT_USERNAME", getenv "BOT_USERNAME");
   ("PHONE_NUMBER", getenv "PHONE_NUMBER");
   ("SESSION_NAME", getenv "SESSION_NAME")].

(** [[key for key, value in required_vars.items() if not value]] *)
Definition missing_vars (getenv : environ) : list string :=
  map fst (filter (fun kv => negb (truthy_str (snd kv))) (required_vars getenv)).

(** [int(x)] for what [os.getenv] returns; [int_of_str] is Python's builtin
    [int] on a [str], [None] where it raises [ValueError]. *)
Definition py_int (int_of_str : string -> option Z) (x : option string)
  : result Z :=
  match x with
  | Some s =>
      match int_of_str s with
      | Some n => ok n
      | None => raise (ValueError "invalid literal for int() with base 10")
      end
  | None => raise (TypeError "int() argument must be a string or a real number")
  end.

(** Lines 44-52: the presence check, then [API_ID = int(API_ID)] with its
    [except ValueError].  The value is the integer [API_ID]. *)
Definition startup_checks (int_of_str : string -> option Z) (getenv : environ)
  : result Z :=
  match missing_vars getenv with
  | [] =>
      match py_int int_of_str (getenv "API_ID") with
      | inl (ValueError msg) =>
          raise (RaisedFrom
                   (ValueError "Environment variable API_ID must be a valid integer")
                   (ValueError msg))
      | r => r
      end
  | missing =>
      raise (ValueError ("Missing required environment variables: "
                         ++ String.concat ", " missing))
  end.

(** A variable that is set to a non-empty string. *)
Definition provided (getenv : environ) (name : string) : Prop :=
  exists v, getenv name = Some v /\ v <> "".

Definition names : list string :=
  ["API_KEY"; "API_SECRET"; "API_ID"; "API_HASH"; "BOT_USERNAME";
   "PHONE_NUMBER"; "SESSION_NAME"].

End Startup.

(* ================================================================= *)
(** ** More vocabulary *)

(** The calls to the exchange in a trace, in the order they were made. *)
Definition exchange_calls (t : trace) : list event := filter is_exchange_call t.

(** A line that starts with one of the four labels. *)
Definition labelled (part : string) : bool :=
  existsb (fun label => PyStr.startswith part label) labels.

(** [sub in s] is false. *)
Definition free_of (sub s : string) : Prop := Auth.str_contains s sub = false.

(** A text between two double quotes. *)
Definition quoted (text : string) : string :=
  String PyStr.dquote (text ++ String PyStr.dquote "").

(** [instruments["result"]["list"]] *)
Definition linear_list_of (instruments : pyval) : result pyval :=
  (r <- Py.getitem instruments "result" ;; Py.getitem r "list")%result.

(** An instrument record whose [symbol] is, or is not, the one looked for. *)
Definition has_symbol (sym : string) (x : pyval) : bool :=
  match Py.getitem x "symbol" with
  | inr s => Py.eq_str s sym
  | inl _ => false
  end.

Definition other_symbol (sym : string) (x : pyval) : bool :=
  match Py.getitem x "symbol" with
  | inr s => negb (Py.eq_str s sym)
  | inl _ => false
  end.

(** The calls to Telethon's client in a trace. *)
Definition is_client_call (ev : event) : bool :=
  match ev with
  | Connect | IsUserAuthorized | SendCodeRequest | SignIn _ => true
  | _ => false
  end.

Definition client_calls (t : trace) : list event := filter is_client_call t.

Definition is_respond (ev : event) : bool :=
  match ev with
  | Respond _ => true
  | _ => false
  end.


(** A double as a float reader can return it: the exponent of a finite one
    is not below that of the smallest subnormal. *)
Definition in_range (x : PyFloat.float) : bool :=
  match x with
  | S754_finite _ _ e => (3 - PyFloat.emax - PyFloat.prec <=? e)%Z
  | _ => true
  end.

(** *** The ways a message can end

    Every run of [handle_bot_response] leaves one of seven traces, by the
    first step that did not go through. *)
Inductive outcome (float_of_str : string -> option PyFloat.float)
  (session : session_t) (raw_text : string) : trace -> Prop :=
| ParseFailed e :
    parse_signal float_of_str (bot_message_of raw_text) = raise e ->
    outcome float_of_str session raw_text (say ERROR (MsgHandlerError e))
| StepSizeFailed sg e :
    parse_signal float_of_str (bot_message_of raw_text) = ok sg ->
    snd (get_step_size float_of_str session (symbol sg)) = raise e ->
    outcome float_of_str session raw_text
      (say INFO (extracted sg)
       ++ [GetInstrumentsInfo; Log ERROR (MsgStepSizeError e)]
       ++ say ERROR (MsgHandlerError e))
| WalletFetchFailed sg instruments step e :
    parse_signal float_of_str (bot_message_of raw_text) = ok sg ->
    get_instruments_info session = ok instruments ->
    step_size_of float_of_str instruments (symbol sg) = ok step ->
    get_wallet_balance session = raise e ->
    outcome float_of_str session raw_text
      (say INFO (extracted sg)
       ++ [GetInstrumentsInfo; GetWalletBalance]
       ++ say ERROR (MsgHandlerError e))
| WalletReadFailed sg instruments step ab e :
    parse_signal float_of_str (bot_message_of raw_text) = ok sg ->
    get_instruments_info session = ok instruments ->
    step_size_of float_of_str instruments (symbol sg) = ok step ->
    get_wallet_balance session = ok ab ->
    read_snapshot float_of_str ab = raise e ->
    outcome float_of_str session raw_text
      (say INFO (extracted sg)
       ++ [GetInstrumentsInfo; GetWalletBalance;
           Log DEBUG (MsgBalanceResponse ab); Log ERROR (MsgWalletError e)]
       ++ say ERROR
            (MsgHandlerError
               (RaisedFrom (ValueError "Failed to parse wallet balance") e)))
| SizingFailed sg instruments step ab equity balance e :
    parse_signal float_of_str (bot_message_of raw_text) = ok sg ->
    get_instruments_info session = ok instruments ->
    step_size_of float_of_str instruments (symbol sg) = ok step ->
    get_wallet_balance session = ok ab ->
    read_snapshot float_of_str ab = ok (equity, balance) ->
    position_size balance (price sg) step = raise e ->
    outcome float_of_str session raw_text
      (fetched sg ab equity balance ++ say ERROR (MsgHandlerError e))
| BalanceInsufficient sg instruments step ab equity balance q :
    parse_signal float_of_str (bot_message_of raw_text) = ok sg ->
    get_instruments_info session = ok instruments ->
    step_size_of float_of_str instruments (symbol sg) = ok step ->
    get_wallet_balance session = ok ab ->
    read_snapshot float_of_str ab = ok (equity, balance) ->
    position_size balance (price sg) step = ok q ->
    PyFloat.gt_zero q = false ->
    outcome float_of_str session raw_text
      (fetched sg ab equity balance ++ say ERROR MsgInsufficientBalance)
| OrderSubmitted sg instruments step ab equity balance q lv m :
    parse_signal float_of_str (bot_message_of raw_text) = ok sg ->
    get_instruments_info session = ok instruments ->
    step_size_of float_of_str instruments (symbol sg) = ok step ->
    get_wallet_balance session = ok ab ->
    read_snapshot float_of_str ab = ok (equity, balance) ->
    position_size balance (price sg) step = ok q ->
    PyFloat.gt_zero q = true ->
    submit_order session sg q equity balance =
      (PlaceOrder (make_order_params sg q) :: say lv m, ok tt) ->
    outcome float_of_str session raw_text
      (fetched sg ab equity balance
       ++ [Log INFO (MsgPlacingOrder (make_order_params sg q));
           PlaceOrder (make_order_params sg q)]
       ++ say lv m).

(** The coin record [u] is what the account holds under [coin], or one of
    the records of the list it holds there. *)
Definition holds_record (account u : pyval) : Prop :=
  Py.get account "coin" PNone = ok u \/
  exists coins, Py.get account "coin" PNone = ok (PList coins) /\ In u coins.

(* ================================================================= *)
(** ** More concrete inputs *)

Module Cases.

Import Sample.

(** The decimal reader, with the one more literal [nan] of Python's
    [float]. *)
Definition float_of_literal (s : string) : option PyFloat.float :=
  if String.eqb (PyStr.strip s) "nan" then Some S754_nan
  else Decimal.float_of_decimal s.

(** Signals for a symbol the exchange does not list, with a price that is
    not a number, and with a price below zero. *)
Definition doge_text : string := signal_text "DOGEUSDT" "0.1" "0.09" "0.12".

Definition doge_signal : signal :=
  {| symbol := "DOGEUSDT";
     price := dec "0.1";
     stop_loss_price := dec "0.09";
     take_profit_price := dec "0.12" |}.

Definition nan_text : string := signal_text "BTCUSDT" "nan" "49000" "52000".

Definition nan_signal : signal :=
  {| symbol := "BTCUSDT";
     price := S754_nan;
     stop_loss_price := dec "49000";
     take_profit_price := dec "52000" |}.

Definition negative_text : string :=
  signal_text "BTCUSDT" "-50000" "49000" "52000".

Definition negative_signal : signal :=
  {| symbol := "BTCUSDT";
     price := dec "-50000";
     stop_loss_price := dec "49000";
     take_profit_price := dec "52000" |}.

(** The order of the scenarios: 1000 USDT at 50000 in steps of 0.001. *)
Definition btc_order : order_params :=
  make_order_params btc_signal (dec "0.02").

(** The message of the scenarios between lines the handler has no use
    for. *)
Definition chatty_lines : list string :=
  ["New signal"; "Symbol: BTCUSDT"; "Price: 50000"; "";
   "Stop Loss: 49000"; "Take Profit: 52000"; "Good luck"].

(** An instrument list whose one entry has a step size of zero. *)
Definition zero_step_instruments : pyval :=
  PDict [("retCode", PInt 0);
         ("result", PDict [("list", PList [instrument "BTCUSDT" "0"])])].

Definition zero_step_exchange : session_t :=
  {| get_instruments_info := ok zero_step_instruments;
     get_wallet_balance := ok (wallet (accounts_list "1000"));
     place_order := fun _ => ok (order_answer 0 "OK") |}.

(** A USDT record that has an equity and no wallet balance. *)
Definition usdt_without_balance : list (string * pyval) :=
  [("coin", PStr "USDT"); ("equity", PStr "1000")].

Definition wallet_without_balance : pyval :=
  wallet [PDict [("accountType", PStr "UNIFIED");
                 ("coin", PList [PDict usdt_without_balance])]].

Definition exchange_without_balance : session_t :=
  {| get_instruments_info := ok instruments;
     get_wallet_balance := ok wallet_without_balance;
     place_order := fun _ => ok (order_answer 0 "OK") |}.

(** An accepted order whose [result] is a null. *)
Definition answer_with_null_result : list (string * pyval) :=
  [("retCode", PInt 0); ("retMsg", PStr "OK"); ("result", PNone)].

(** A client that refuses the code, and the globals once an OTP is in. *)
Definition client_bad_code : Auth.client_t :=
  {| Auth.connect := ok tt;
     Auth.is_user_authorized := ok false;
     Auth.send_code_request := ok tt;
     Auth.sign_in := fun _ => raise PhoneCodeInvalidError |}.

Definition otp_delivered : Auth.globals :=
  {| Auth.otp_received := PStr "12345";
     Auth.login_event := true;
     Auth.otp_request_sent := true |}.

(** A reader of unsigned decimal integers, an instance of [int] on such
    texts, and an environment that sets the seven variables. *)
Definition int_of_digits (s : string) : option Z :=
  match Decimal.digits s 0 0 with
  | (n, count, EmptyString) => if (1 <=? count)%Z then Some n else None
  | _ => None
  end.

Definition full_env : Startup.environ :=
  fun name =>
    if String.eqb name "API_ID" then Some "12345"
    else if existsb (String.eqb name) Startup.names then Some "x"
    else None.

End Cases.

(* ================================================================= *)
(** ** Answers and wallets, field by field *)

(** The value a record holds under a key, or a default. *)
Definition field_or (d : list (string * pyval)) (k : string) (default : pyval)
  : pyval :=
  match Py.lookup k d with
  | Some v => v
  | None => default
  end.





(** A coin record that is an object and not the USDT one. *)
Definition other_coin (coin : pyval) : bool :=
  match coin with
  | PDict _ => negb (is_usdt coin)
  | _ => false
  end.

(** An account the search passes over: an object whose [coin] is a record
    that is not USDT, a list of such records, or neither a record nor a
    list. *)
Definition account_without_usdt (account : pyval) : bool :=
  match account with
  | PDict d =>
      match Py.lookup "coin" d with
      | Some (PList coins) => forallb other_coin coins
      | Some (PDict c) => negb (is_usdt (PDict c))
      | _ => true
      end
  | _ => false
  end.

(** [u] is the first USDT record of the account: its single coin record, or
    the first USDT record of its list, after records of other coins. *)
Definition holds_first (account u : pyval) : Prop :=
  is_usdt u = true /\
  exists d,
    account = PDict d /\
    (Py.lookup "coin" d = Some u \/
     exists before after,
       Py.lookup "coin" d = Some (PList (before ++ u :: after)) /\
       forallb other_coin before = true).

(** What a USDT record holds under a key, 0 when it holds nothing there. *)
Definition usdt_field (u : pyval) (k : string) : pyval :=
  match u with
  | PDict c => field_or c k (PInt 0)
  | _ => PInt 0
  end.

(** An account as the search can read it: an object, whose [coin], when it
    is a list, is a list of objects. *)
Definition readable_account (account : pyval) : bool :=
  match account with
  | PDict d =>
      match Py.lookup "coin" d with
      | Some (PList coins) => forallb Py.isinstance_dict coins
      | _ => true
      end
  | _ => false
  end.

(* ================================================================= *)
(** ** Signs through the rounding of binary64 *)

Section FloatFacts.

Import PyFloat.
Local Open Scope Z_scope.

Lemma shr_1_nonneg mrs : 0 <= shr_m mrs -> 0 <= shr_m (shr_1 mrs).
Proof.
  destruct mrs as [m r s]; simpl.
  destruct m as [|p|p]; simpl; try lia; destruct p; simpl; lia.
Qed.

Lemma iter_pos_invariant {A} (P : A -> Prop) (f : A -> A) :
  (forall x, P x -> P (f x)) -> forall n x, P x -> P (iter_pos f n x).
Proof.
  intros Hf; induction n as [n IH|n IH|]; intros x Hx; simpl; auto.
Qed.

Lemma shr_nonneg mrs e n : 0 <= shr_m mrs -> 0 <= shr_m (fst (shr mrs e n)).
Proof.
  intros H; destruct n; simpl; auto.
  apply iter_pos_invariant; auto using shr_1_nonneg.
Qed.

Lemma shr_record_of_loc_m m l : shr_m (shr_record_of_loc m l) = m.
Proof. destruct l as [|[ | | ]]; reflexivity. Qed.

Lemma shr_fexp_nonneg m e l :
  0 <= m -> 0 <= shr_m (fst (shr_fexp prec emax m e l)).
Proof.
  intros H; unfold shr_fexp; apply shr_nonneg.
  now rewrite shr_record_of_loc_m.
Qed.

Lemma round_nearest_even_nonneg m l : 0 <= m -> 0 <= round_nearest_even m l.
Proof.
  intros H; destruct l as [|[ | | ]]; simpl; try lia.
  destruct (Z.even m); lia.
Qed.

(** Rounding a non-negative mantissa keeps the sign it is given and never
    makes a NaN. *)
Lemma binary_round_aux_sign sx mx ex lx :
  0 <= mx -> signed_as sx (binary_round_aux prec emax sx mx ex lx).
Proof.
  intros H; unfold binary_round_aux.
  pose proof (shr_fexp_nonneg mx ex lx H) as H1.
  destruct (shr_fexp prec emax mx ex lx) as [mrs' e']; simpl in H1.
  pose proof (shr_fexp_nonneg
                (round_nearest_even (shr_m mrs') (loc_of_shr_record mrs'))
                e' loc_Exact (round_nearest_even_nonneg _ _ H1)) as H2.
  destruct (shr_fexp prec emax _ e' loc_Exact) as [mrs'' e'']; simpl in H2.
  destruct (shr_m mrs'') as [|m|m]; simpl; auto; try lia.
  destruct (e'' <=? _); simpl; auto.
Qed.

Lemma SFdiv_core_nonneg mx ex my ey :
  0 <= fst (fst (SFdiv_core_binary prec emax (Zpos mx) ex (Zpos my) ey)).
Proof.
  unfold SFdiv_core_binary.
  set (s := ex - ey - _).
  set (m' := match s with Z0 => _ | Zpos _ => _ | Zneg _ => _ end).
  assert (Hm : 0 <= m').
  { subst m'; destruct s; try lia. apply Z.shiftl_nonneg; lia. }
  pose proof (Z_div_mod m' (Zpos my) eq_refl) as Hd.
  destruct (Z.div_eucl m' (Zpos my)) as [q r]; simpl.
  destruct Hd as [Hd Hr]. nia.
Qed.

Lemma SFdiv_sign sx mx ex sy my ey :
  signed_as (xorb sx sy)
    (SFdiv prec emax (S754_finite sx mx ex) (S754_finite sy my ey)).
Proof.
  unfold SFdiv.
  pose proof (SFdiv_core_nonneg mx ex my ey) as H.
  destruct (SFdiv_core_binary prec emax (Zpos mx) ex (Zpos my) ey)
    as [[mz ez] lz]; simpl in H.
  now apply binary_round_aux_sign.
Qed.

Lemma SFmul_sign sx mx ex sy my ey :
  signed_as (xorb sx sy)
    (SFmul prec emax (S754_finite sx mx ex) (S754_finite sy my ey)).
Proof. unfold SFmul; apply binary_round_aux_sign; lia. Qed.

Lemma binary_round_sign sx mx ex :
  signed_as sx (binary_round prec emax sx mx ex).
Proof.
  unfold binary_round.
  destruct (shl_align mx ex _) as [mz ez].
  apply binary_round_aux_sign; lia.
Qed.

Lemma gt_zero_finite x :
  is_finite x = true -> gt_zero x = true ->
  exists m e, x = S754_finite false m e.
Proof.
  destruct x as [s|s| |s m e]; simpl; try discriminate;
    destruct s; try discriminate; eauto.
Qed.

Lemma nonneg_finite x :
  is_finite x = true -> nonneg x = true ->
  (exists s, x = S754_zero s) \/ exists m e, x = S754_finite false m e.
Proof.
  destruct x as [s|s| |s m e]; simpl; try discriminate; eauto;
    destruct s; try discriminate; eauto.
Qed.

Lemma floor_signed_false q :
  signed_as false q ->
  floor q = raise OverflowError \/ exists n, floor q = ok n /\ 0 <= n.
Proof.
  destruct q as [s|s| |s m e]; intros H; cbn [signed_as] in H;
    try contradiction; subst; unfold floor.
  - right; exists 0; split; [reflexivity | lia].
  - now left.
  - right. destruct (0 <=? e) eqn:He.
    + eexists; split; [reflexivity|]. unfold cond_Zopp.
      apply Z.leb_le in He. apply Z.mul_nonneg_nonneg; [lia|].
      apply Z.pow_nonneg; lia.
    + eexists; split; [reflexivity|]. unfold cond_Zopp.
      apply Z.leb_gt in He. apply Z.div_pos; [lia|].
      apply Z.pow_pos_nonneg; lia.
Qed.

Lemma of_int_nonneg n :
  0 <= n ->
  of_int n = raise OverflowError
  \/ exists fn, of_int n = ok fn /\ signed_as false fn /\ is_finite fn = true.
Proof.
  intros Hn. unfold of_int.
  destruct n as [|m|m]; try lia.
  - right; eexists; simpl; repeat split; reflexivity.
  - unfold binary_normalize.
    pose proof (binary_round_sign false m 0) as Hs.
    destruct (binary_round prec emax false m 0) as [s|s| |s m' e'];
      simpl in Hs; try contradiction; subst.
    + right; eexists; simpl; repeat split; reflexivity.
    + now left.
    + right; eexists; simpl; repeat split; reflexivity.
Qed.

Lemma mul_nonneg_pos fn s :
  signed_as false fn -> is_finite fn = true ->
  is_finite s = true -> gt_zero s = true ->
  nonneg (mul fn s) = true /\ signed_as false (mul fn s).
Proof.
  intros Hfn Hfin Hs Hpos.
  destruct (gt_zero_finite s Hs Hpos) as (ms & es & ->).
  destruct fn as [sf|sf| |sf mf ef]; cbn [signed_as is_finite] in Hfn, Hfin;
    try discriminate; try contradiction; subst.
  - split; reflexivity.
  - pose proof (SFmul_sign false mf ef false ms es) as H.
    unfold mul.
    destruct (SFmul prec emax (S754_finite false mf ef) (S754_finite false ms es))
      as [sx|sx| |sx mx ex]; cbn [signed_as xorb] in H; try contradiction; subst;
      split; reflexivity.
Qed.

Lemma truediv_nonneg_pos w p :
  is_finite w = true -> nonneg w = true ->
  is_finite p = true -> gt_zero p = true ->
  exists q, truediv w p = ok q /\
            ((exists s, q = S754_zero s) \/ signed_as false q).
Proof.
  intros Hw Hw0 Hp Hp0.
  destruct (gt_zero_finite p Hp Hp0) as (mp & ep & ->).
  destruct (nonneg_finite w Hw Hw0) as [[s ->]|(mw & ew & ->)].
  - eexists; split; [reflexivity|]. left; simpl; eauto.
  - eexists; split; [reflexivity|]. right.
    apply (SFdiv_sign false mw ew false mp ep).
Qed.

Lemma truediv_signed_pos q s :
  signed_as false q -> is_finite s = true -> gt_zero s = true ->
  exists q', truediv q s = ok q' /\ signed_as false q'.
Proof.
  intros Hq Hs Hs0.
  destruct (gt_zero_finite s Hs Hs0) as (ms & es & ->).
  destruct q as [sq|sq| |sq mq eq]; simpl in Hq; try contradiction; subst;
    eexists; (split; [reflexivity|]); try reflexivity.
  apply (SFdiv_sign false mq eq false ms es).
Qed.

(** The quantity is the step count times the step. *)
Lemma position_size_steps w p s :
  position_size w p s = rbind (position_steps w p s) (fun n => int_mul n s).
Proof.
  unfold position_size, position_steps.
  destruct (truediv w p) as [e|q]; simpl; auto.
  destruct (truediv q s) as [e|q']; simpl; auto.
Qed.

(** A step count of zero gives a quantity that is not above zero. *)
Lemma zero_steps_zero_quantity w p s :
  position_steps w p s = ok 0 ->
  exists q, position_size w p s = ok q /\ gt_zero q = false.
Proof.
  intros H. rewrite position_size_steps, H. cbn [rbind ok].
  unfold int_mul. cbn.
  eexists; split; [reflexivity|]. destruct s as [[]|[]| |[] ? ?]; reflexivity.
Qed.

Lemma digits_pos_bounds p :
  2 ^ (Zpos (digits2_pos p) - 1) <= Zpos p < 2 ^ Zpos (digits2_pos p).
Proof.
  induction p as [p IH|p IH|]; cbn [digits2_pos].
  - rewrite Pos2Z.inj_succ.
    replace (Z.succ (Zpos (digits2_pos p)) - 1) with (Zpos (digits2_pos p)) by lia.
    rewrite Z.pow_succ_r by lia.
    assert (2 ^ Zpos (digits2_pos p) = 2 * 2 ^ (Zpos (digits2_pos p) - 1)).
    { rewrite <- Z.pow_succ_r by lia. f_equal. lia. }
    lia.
  - rewrite Pos2Z.inj_succ.
    replace (Z.succ (Zpos (digits2_pos p)) - 1) with (Zpos (digits2_pos p)) by lia.
    rewrite Z.pow_succ_r by lia.
    assert (2 ^ Zpos (digits2_pos p) = 2 * 2 ^ (Zpos (digits2_pos p) - 1)).
    { rewrite <- Z.pow_succ_r by lia. f_equal. lia. }
    lia.
  - simpl. lia.
Qed.

Lemma digits_pos_le a b :
  Zpos a <= Zpos b -> Zpos (digits2_pos a) <= Zpos (digits2_pos b).
Proof.
  intros H.
  pose proof (digits_pos_bounds a) as [Ha _].
  pose proof (digits_pos_bounds b) as [_ Hb].
  assert (Hlt : 2 ^ (Zpos (digits2_pos a) - 1) < 2 ^ Zpos (digits2_pos b)) by lia.
  apply Z.pow_lt_mono_r_iff in Hlt; lia.
Qed.

Lemma Zdigits2_double x : 0 < x -> Zdigits2 (2 * x) = Zdigits2 x + 1.
Proof.
  destruct x as [|p|p]; try lia. intros _.
  change (2 * Zpos p) with (Zpos (xO p)). cbn [Zdigits2 digits2_pos].
  lia.
Qed.

Lemma Zdigits2_mul_pow2 x j :
  0 < x -> 0 <= j -> Zdigits2 (x * 2 ^ j) = Zdigits2 x + j.
Proof.
  intros Hx Hj. revert j Hj.
  apply natlike_ind.
  - rewrite Z.pow_0_r, Z.mul_1_r. lia.
  - intros j Hj IH. rewrite Z.pow_succ_r by lia.
    replace (x * (2 * 2 ^ j)) with (2 * (x * 2 ^ j)) by lia.
    rewrite Zdigits2_double, IH; [lia|].
    apply Z.mul_pos_pos; [lia|]. apply Z.pow_pos_nonneg; lia.
Qed.

Lemma digits_shr_1 mrs :
  0 <= shr_m mrs ->
  Zdigits2 (shr_m (shr_1 mrs)) = Z.max 0 (Zdigits2 (shr_m mrs) - 1).
Proof.
  destruct mrs as [m r s]; cbn [shr_m].
  destruct m as [|p|p]; try lia; intros _.
  - reflexivity.
  - destruct p; cbn [shr_1 shr_m Zdigits2 digits2_pos]; lia.
Qed.

Lemma digits_iter_shr k : forall mrs,
  0 <= shr_m mrs ->
  Zdigits2 (shr_m (iter_pos shr_1 k mrs))
  = Z.max 0 (Zdigits2 (shr_m mrs) - Zpos k).
Proof.
  assert (Hn : forall n x, 0 <= shr_m x -> 0 <= shr_m (iter_pos shr_1 n x)).
  { intros n x. apply (iter_pos_invariant (fun y => 0 <= shr_m y)).
    apply shr_1_nonneg. }
  assert (Hd : forall x, 0 <= Zdigits2 x).
  { destruct x; simpl; lia. }
  induction k as [k IH|k IH|]; intros mrs H; cbn [iter_pos].
  - rewrite IH by (apply Hn, shr_1_nonneg, H).
    rewrite IH by (apply shr_1_nonneg, H).
    rewrite digits_shr_1 by exact H.
    specialize (Hd (shr_m mrs)). lia.
  - rewrite IH by (apply Hn, H). rewrite IH by exact H.
    specialize (Hd (shr_m mrs)). lia.
  - apply digits_shr_1, H.
Qed.

Lemma shr_snd mrs e n : snd (shr mrs e n) = e + Z.max 0 n.
Proof. destruct n; simpl; lia. Qed.

Lemma shr_fexp_digits m e l :
  0 <= m -> Zdigits2 (shr_m (fst (shr_fexp prec emax m e l))) <= prec.
Proof.
  intros H. unfold shr_fexp, shr.
  assert (Hd : 0 <= Zdigits2 m) by (destruct m; simpl; lia).
  assert (Hk : Zdigits2 m - prec <= fexp prec emax (Zdigits2 m + e) - e).
  { unfold fexp. lia. }
  destruct (fexp prec emax (Zdigits2 m + e) - e) as [|k|k] eqn:Ek;
    cbn [fst]; rewrite ?digits_iter_shr, ?shr_record_of_loc_m;
    try (rewrite shr_record_of_loc_m; exact H); unfold prec in *; lia.
Qed.

(** What rounding returns fits the format. *)
Lemma binary_round_aux_bounded sx mx ex lx s m e :
  0 <= mx ->
  binary_round_aux prec emax sx mx ex lx = S754_finite s m e ->
  Zpos (digits2_pos m) <= prec /\ e <= emax - prec.
Proof.
  intros H; unfold binary_round_aux.
  pose proof (shr_fexp_nonneg mx ex lx H) as H1.
  destruct (shr_fexp prec emax mx ex lx) as [mrs' e']; cbn [fst] in H1.
  pose proof (shr_fexp_digits
                (round_nearest_even (shr_m mrs') (loc_of_shr_record mrs'))
                e' loc_Exact (round_nearest_even_nonneg _ _ H1)) as H2.
  destruct (shr_fexp prec emax _ e' loc_Exact) as [mrs'' e'']; cbn [fst] in H2.
  destruct (shr_m mrs'') as [|m'|m']; try discriminate.
  destruct (e'' <=? emax - prec) eqn:E; try discriminate.
  intros Heq; inversion Heq; subst.
  apply Z.leb_le in E. split; [exact H2|exact E].
Qed.

Lemma SFdiv_bounded sx mx ex sy my ey s m e :
  SFdiv prec emax (S754_finite sx mx ex) (S754_finite sy my ey)
  = S754_finite s m e ->
  Zpos (digits2_pos m) <= prec /\ e <= emax - prec.
Proof.
  unfold SFdiv.
  pose proof (SFdiv_core_nonneg mx ex my ey) as H.
  destruct (SFdiv_core_binary prec emax (Zpos mx) ex (Zpos my) ey)
    as [[mz ez] lz]; cbn [fst] in H.
  now apply binary_round_aux_bounded.
Qed.

Lemma shr_1_even y :
  0 < y ->
  shr_1 {| shr_m := 2 * y; shr_r := false; shr_s := false |}
  = {| shr_m := y; shr_r := false; shr_s := false |}.
Proof. destruct y as [|p|p]; try lia. reflexivity. Qed.

(** Shifting out the zeros of a power of two loses nothing. *)
Lemma iter_shr_exact k : forall y,
  0 < y ->
  iter_pos shr_1 k {| shr_m := y * 2 ^ Zpos k; shr_r := false; shr_s := false |}
  = {| shr_m := y; shr_r := false; shr_s := false |}.
Proof.
  induction k as [k IH|k IH|]; intros y Hy; cbn [iter_pos].
  - replace (y * 2 ^ Zpos k~1) with (2 * ((y * 2 ^ Zpos k) * 2 ^ Zpos k)).
    + assert (Hp : 0 < 2 ^ Zpos k) by (apply Z.pow_pos_nonneg; lia).
      rewrite shr_1_even by nia.
      rewrite IH by nia. apply IH, Hy.
    + assert (E : 2 ^ Zpos k~1 = 2 * (2 ^ Zpos k * 2 ^ Zpos k)).
      { rewrite <- Z.pow_add_r, <- Z.pow_succ_r by lia. f_equal. lia. }
      rewrite E. ring.
  - replace (y * 2 ^ Zpos k~0) with ((y * 2 ^ Zpos k) * 2 ^ Zpos k).
    + assert (Hp : 0 < 2 ^ Zpos k) by (apply Z.pow_pos_nonneg; lia).
      rewrite IH by nia. apply IH, Hy.
    + assert (E : 2 ^ Zpos k~0 = 2 ^ Zpos k * 2 ^ Zpos k).
      { rewrite <- Z.pow_add_r by lia. f_equal. lia. }
      rewrite E. ring.
  - rewrite Z.pow_1_r. replace (y * 2) with (2 * y) by lia.
    now apply shr_1_even.
Qed.

Lemma iter_xO_pow2 P d : Zpos (Pos.iter xO P d) = Zpos P * 2 ^ Zpos d.
Proof.
  induction d as [|d IH] using Pos.peano_ind.
  - simpl. lia.
  - rewrite Pos.iter_succ, Pos2Z.inj_xO, IH, Pos2Z.inj_succ.
    rewrite Z.pow_succ_r by lia. ring.
Qed.

(** An integer that is a double already is converted as it is. *)
Lemma binary_round_representable sx m e P :
  Zpos (digits2_pos m) <= 53 -> 0 <= e ->
  Zpos (digits2_pos m) + e <= 1024 ->
  Zpos P = Zpos m * 2 ^ e ->
  exists m' e', binary_round prec emax sx P 0 = S754_finite sx m' e'.
Proof.
  intros Hm He Hd HP.
  assert (HD : Zpos (digits2_pos P) = Zpos (digits2_pos m) + e).
  { change (Zdigits2 (Zpos P) = Zdigits2 (Zpos m) + e).
    rewrite HP. apply Zdigits2_mul_pow2; lia. }
  unfold binary_round. rewrite Z.add_0_r, HD.
  set (D := Zpos (digits2_pos m) + e) in *.
  assert (HD1 : 1 <= D) by (subst D; lia).
  assert (Hf : fexp prec emax D = D - 53).
  { unfold fexp, emin, prec, emax. lia. }
  rewrite Hf. unfold shl_align.
  destruct (D - 53 - 0) as [|k|k] eqn:Ek.
  - (* D = 53: nothing to shift. *)
    unfold binary_round_aux, shr_fexp.
    cbn [Zdigits2]. rewrite Z.add_0_r, HD.
    fold D. rewrite Hf.
    replace (D - 53 - 0) with 0 by lia.
    cbn [shr shr_record_of_loc shr_m loc_of_shr_record round_nearest_even Zdigits2].
    rewrite Z.add_0_r, HD. fold D. rewrite Hf.
    replace (D - 53 - 0) with 0 by lia.
    cbn [shr shr_record_of_loc shr_m].
    change (0 <=? emax - prec) with true. cbv iota. eauto.
  - (* D > 53: the low zeros are shifted out. *)
    unfold binary_round_aux, shr_fexp.
    cbn [Zdigits2]. rewrite Z.add_0_r, HD.
    fold D. rewrite Hf, Ek.
    cbn [shr shr_record_of_loc].
    set (y := Zpos m * 2 ^ (53 - Zpos (digits2_pos m))).
    assert (Hy : 0 < y).
    { subst y. apply Z.mul_pos_pos; [lia|]. apply Z.pow_pos_nonneg; lia. }
    assert (HPy : Zpos P = y * 2 ^ Zpos k).
    { rewrite HP. subst y. rewrite <- Z.mul_assoc, <- Z.pow_add_r by lia.
      f_equal. f_equal. subst D. lia. }
    rewrite HPy, (iter_shr_exact k y Hy).
    cbn [shr_m loc_of_shr_record round_nearest_even].
    assert (Hdy : Zdigits2 y = 53).
    { subst y. rewrite Zdigits2_mul_pow2 by lia. cbn [Zdigits2]. lia. }
    rewrite Hdy.
    assert (Hf2 : fexp prec emax (53 + (0 + Zpos k)) - (0 + Zpos k) = 0).
    { unfold fexp, emin, prec, emax. lia. }
    rewrite Hf2. cbn [shr shr_record_of_loc shr_m].
    destruct y as [|y'|y']; try lia.
    assert (Hle : (0 + Zpos k <=? emax - prec) = true).
    { apply Z.leb_le. unfold emax, prec. subst D. lia. }
    rewrite Hle. eauto.
  - (* D < 53: the mantissa is shifted left to 53 digits. *)
    unfold binary_round_aux, shr_fexp.
    assert (Hdz : Zdigits2 (Zpos (Pos.iter xO P k)) = 53).
    { rewrite iter_xO_pow2, Zdigits2_mul_pow2 by lia.
      cbn [Zdigits2]. rewrite HD. lia. }
    rewrite Hdz.
    assert (Hf3 : fexp prec emax (53 + (D - 53)) - (D - 53) = 0).
    { unfold fexp, emin, prec, emax. lia. }
    rewrite Hf3.
    cbn [shr shr_record_of_loc shr_m loc_of_shr_record round_nearest_even].
    rewrite Hdz, Hf3. cbn [shr shr_record_of_loc shr_m].
    assert (Hle : (D - 53 <=? emax - prec) = true).
    { apply Z.leb_le. unfold emax, prec. lia. }
    rewrite Hle. eauto.
Qed.

Lemma position_steps_quotient w p s :
  position_steps w p s = rbind (position_quotient w p s) floor.
Proof.
  unfold position_steps, position_quotient.
  destruct (truediv w p) as [e|q]; reflexivity.
Qed.

Lemma of_int_representable n m e :
  Zpos (digits2_pos m) <= 53 -> 0 <= e ->
  Zpos (digits2_pos m) + e <= 1024 ->
  Z.abs n = Zpos m * 2 ^ e ->
  exists fn, of_int n = ok fn.
Proof.
  intros Hm He Hd Hn. unfold of_int, binary_normalize.
  destruct n as [|P|P]; [lia| |]; cbn [Z.abs] in Hn.
  - destruct (binary_round_representable false m e P Hm He Hd Hn)
      as (m' & e' & ->). eauto.
  - destruct (binary_round_representable true m e P Hm He Hd Hn)
      as (m' & e' & ->). eauto.
Qed.

(** The floor of a finite double converts back to a double: no
    [OverflowError] comes from [float(n)]. *)
Lemma floor_of_int_total sq m e :
  Zpos (digits2_pos m) <= prec -> e <= emax - prec ->
  exists n fn, floor (S754_finite sq m e) = ok n /\ of_int n = ok fn.
Proof.
  unfold prec, emax. intros Hm He. unfold floor.
  destruct (0 <=? e) eqn:E.
  - apply Z.leb_le in E. eexists.
    assert (Ha : Z.abs (cond_Zopp sq (Zpos m * 2 ^ e)) = Zpos m * 2 ^ e).
    { destruct sq; cbn [cond_Zopp]; lia. }
    destruct (of_int_representable _ m e Hm E ltac:(lia) Ha) as (fn & Hfn).
    exists fn. split; [reflexivity | exact Hfn].
  - apply Z.leb_gt in E.
    set (n := cond_Zopp sq (Zpos m) / 2 ^ (- e)).
    exists n.
    assert (Hp : 0 < 2 ^ (- e)) by (apply Z.pow_pos_nonneg; lia).
    assert (Hb : Z.abs n <= Zpos m).
    { subst n. destruct sq; cbn [cond_Zopp].
      - assert (Zneg m <= Zneg m / 2 ^ (- e)).
        { apply Z.div_le_lower_bound; [lia|]. nia. }
        assert (Zneg m / 2 ^ (- e) < 0).
        { apply Z.div_lt_upper_bound; lia. }
        lia.
      - assert (0 <= Zpos m / 2 ^ (- e)) by (apply Z.div_pos; lia).
        assert (Zpos m / 2 ^ (- e) <= Zpos m).
        { apply Z.div_le_upper_bound; [lia|]. nia. }
        lia. }
    destruct (Z.abs n) as [|P|P] eqn:En; try lia.
    + assert (n = 0) by lia. subst n. rewrite H.
      eexists; split; reflexivity.
    + pose proof (digits_pos_le P m ltac:(lia)) as Hd.
      assert (Ha : Z.abs n = Zpos P * 2 ^ 0) by (rewrite Z.pow_0_r; lia).
      destruct (of_int_representable n P 0 ltac:(lia) ltac:(lia) ltac:(lia) Ha)
        as (fn & Hfn).
      exists fn. split; [reflexivity | exact Hfn].
Qed.

Lemma truediv_in_range x s q :
  is_finite s = true -> gt_zero s = true ->
  truediv x s = ok q -> is_finite q = true ->
  (exists sz, q = S754_zero sz)
  \/ exists sq m e, q = S754_finite sq m e /\
       Zpos (digits2_pos m) <= prec /\ e <= emax - prec.
Proof.
  intros Hs Hs0 Hq Hfin.
  destruct (gt_zero_finite s Hs Hs0) as (ms & es & ->).
  unfold truediv in Hq. injection Hq as <-.
  destruct x as [sx|sx| |sx mx ex].
  - left. cbn. eauto.
  - discriminate Hfin.
  - discriminate Hfin.
  - destruct (SFdiv prec emax (S754_finite sx mx ex) (S754_finite false ms es))
      as [sz|sz| |sq m e] eqn:E; try discriminate Hfin.
    + left. eauto.
    + right. exists sq, m, e. split; [reflexivity|].
      exact (SFdiv_bounded _ _ _ _ _ _ _ _ _ E).
Qed.

(** C1 (amended).  For a finite wallet balance that is not negative and a
    finite positive price and step size, the quotient
    [(wallet_balance / price) / step_size] is a double [q] that is not NaN.
    When [q] is infinite sizing raises [OverflowError]; when it is finite
    sizing returns [float(n) * step_size], where the step count
    [n = math.floor(q)] is a non-negative integer whose conversion to a
    double succeeds, every operation being the binary64 one; the quantity
    returned is never negative. *)
Theorem position_size_rounds_down (w p s : float) :
  is_finite w = true -> nonneg w = true ->
  is_finite p = true -> gt_zero p = true ->
  is_finite s = true -> gt_zero s = true ->
  exists q,
    position_quotient w p s = ok q /\
    (is_finite q = false -> position_size w p s = raise OverflowError) /\
    (is_finite q = true ->
     exists n fn,
       position_steps w p s = ok n /\ 0 <= n /\ of_int n = ok fn /\
       position_size w p s = ok (mul fn s) /\
       nonneg (mul fn s) = true).
Proof.
  intros Hw Hw0 Hp Hp0 Hs Hs0.
  rewrite position_size_steps, position_steps_quotient.
  unfold position_quotient.
  destruct (truediv_nonneg_pos w p Hw Hw0 Hp Hp0) as (x & -> & Hx).
  cbn [rbind ok].
  assert (Hq : exists q, truediv x s = ok q /\
                         ((exists sz, q = S754_zero sz) \/ signed_as false q)).
  { destruct Hx as [[sz ->]|Hx].
    - destruct (gt_zero_finite s Hs Hs0) as (ms & es & ->).
      eexists; split; [reflexivity|]. left. cbn. eauto.
    - destruct (truediv_signed_pos x s Hx Hs Hs0) as (q & Hq & Hsg). eauto. }
  destruct Hq as (q & Hq & Hsg). rewrite Hq. cbn [rbind ok].
  exists q. split; [reflexivity|]. split.
  - intros Hinf. destruct Hsg as [[sz ->]|Hsg]; [discriminate Hinf|].
    destruct q as [sq|sq| |sq m e]; try discriminate Hinf;
      [reflexivity | contradiction Hsg].
  - intros Hfin.
    assert (Hn : exists n fn, floor q = ok n /\ of_int n = ok fn).
    { destruct (truediv_in_range x s q Hs Hs0 Hq Hfin)
        as [[sz ->]|(sq & m & e & -> & Hm & He)].
      - exists 0, (S754_zero false). split; reflexivity.
      - now apply floor_of_int_total. }
    destruct Hn as (n & fn & Hfl & Hfn). exists n, fn.
    assert (Hn0 : 0 <= n).
    { destruct Hsg as [[sz ->]|Hsg].
      - injection Hfl as <-. lia.
      - destruct (floor_signed_false q Hsg) as [E|(n' & E & Hn')];
          rewrite E in Hfl; [discriminate Hfl|].
        injection Hfl as <-. exact Hn'. }
    rewrite Hfl. cbn [rbind ok]. unfold int_mul. rewrite Hfn. cbn [rbind ok].
    repeat split; auto.
    destruct (of_int_nonneg n Hn0) as [E|(fn' & E & Hsf & Hff)];
      rewrite E in Hfn; [discriminate Hfn|].
    injection Hfn as <-. now apply mul_nonneg_pos.
Qed.

End FloatFacts.

(* ================================================================= *)
(** ** Computations and their traces *)

Lemma bind_ok {A B} t (a : A) (k : A -> M B) :
  bind (t, inr a) k = (t ++ fst (k a), snd (k a)).
Proof. unfold bind. destruct (k a); reflexivity. Qed.

Lemma bind_fst {A B} (m : M A) (k : A -> M B) :
  fst (bind m k) =
  match snd m with
  | inl _ => fst m
  | inr a => fst m ++ fst (k a)
  end.
Proof.
  destruct m as [t [e|a]]; [reflexivity|].
  cbn [fst snd]. unfold bind. destruct (k a); reflexivity.
Qed.

Lemma log_print_say lv m : log_print lv m = (say lv m, ok tt).
Proof. reflexivity. Qed.

Lemma count_place_order_app t t' :
  count_place_order (t ++ t') = (count_place_order t + count_place_order t')%nat.
Proof. unfold count_place_order. now rewrite filter_app, length_app. Qed.

Lemma count_bind_le {A B} (m : M A) (k : A -> M B) n1 n2 :
  (count_place_order (fst m) <= n1)%nat ->
  (forall a, count_place_order (fst (k a)) <= n2)%nat ->
  (count_place_order (fst (bind m k)) <= n1 + n2)%nat.
Proof.
  intros H1 H2. rewrite bind_fst. destruct (snd m) as [e|a]; [lia|].
  rewrite count_place_order_app. specialize (H2 a). lia.
Qed.

(** One step through a [bind] whose first computation has returned. *)
Ltac step_bind := unfold ok; rewrite bind_ok; cbv beta.

(* ================================================================= *)
(** ** The handler, stage by stage *)

Section PipelineFacts.

Variable float_of_str : string -> option PyFloat.float.

(** The handler, by the way its body ends. *)
Lemma handle_by_body session raw_text :
  handle_bot_response float_of_str session raw_text =
  match handle_body float_of_str session (bot_message_of raw_text) with
  | (t, inl e) => (t ++ say ERROR (MsgHandlerError e), ok tt)
  | (t, inr u) => (t, ok u)
  end.
Proof.
  unfold handle_bot_response, try_except.
  destruct (handle_body _ _ _) as [t [e|[]]]; reflexivity.
Qed.

Lemma handle_parse_failure session raw_text e :
  parse_signal float_of_str (bot_message_of raw_text) = raise e ->
  handle_bot_response float_of_str session raw_text =
  (say ERROR (MsgHandlerError e), ok tt).
Proof.
  intros H. rewrite handle_by_body. unfold handle_body, lift.
  rewrite H. reflexivity.
Qed.

Lemma get_step_size_ok session sym instruments step :
  get_instruments_info session = ok instruments ->
  step_size_of float_of_str instruments sym = ok step ->
  get_step_size float_of_str session sym = ([GetInstrumentsInfo], ok step).
Proof.
  intros H1 H2. unfold get_step_size, call, lift, bind, try_except.
  rewrite H1. simpl. rewrite H2. reflexivity.
Qed.

Lemma wallet_snapshot_ok ab equity balance :
  read_snapshot float_of_str ab = ok (equity, balance) ->
  wallet_snapshot float_of_str ab =
  ([Log INFO (MsgUsdt equity balance)], ok (equity, balance)).
Proof.
  intros H. unfold wallet_snapshot, lift, bind, try_except.
  rewrite H. reflexivity.
Qed.

Lemma wallet_snapshot_error ab e :
  read_snapshot float_of_str ab = raise e ->
  wallet_snapshot float_of_str ab =
  ([Log ERROR (MsgWalletError e)],
   raise (RaisedFrom (ValueError "Failed to parse wallet balance") e)).
Proof.
  intros H. unfold wallet_snapshot, lift, bind, try_except.
  rewrite H. reflexivity.
Qed.

Lemma body_reaches_sizing session m sg instruments step ab equity balance :
  parse_signal float_of_str m = ok sg ->
  get_instruments_info session = ok instruments ->
  step_size_of float_of_str instruments (symbol sg) = ok step ->
  get_wallet_balance session = ok ab ->
  read_snapshot float_of_str ab = ok (equity, balance) ->
  handle_body float_of_str session m =
  (fetched sg ab equity balance
   ++ fst (size_and_place session sg step equity balance),
   snd (size_and_place session sg step equity balance)).
Proof.
  intros Hp Hi Hs Hw Hr. unfold handle_body.
  unfold lift at 1. rewrite Hp. step_bind.
  rewrite log_print_say. step_bind.
  rewrite (get_step_size_ok _ _ _ _ Hi Hs). step_bind.
  unfold call. rewrite Hw. step_bind.
  unfold emit. step_bind.
  rewrite (wallet_snapshot_ok _ _ _ Hr). step_bind.
  cbn [fst snd]. unfold fetched, say. cbn [app].
  reflexivity.
Qed.

Lemma body_wallet_failure session m sg instruments step ab e :
  parse_signal float_of_str m = ok sg ->
  get_instruments_info session = ok instruments ->
  step_size_of float_of_str instruments (symbol sg) = ok step ->
  get_wallet_balance session = ok ab ->
  read_snapshot float_of_str ab = raise e ->
  handle_body float_of_str session m =
  (say INFO (extracted sg)
   ++ [GetInstrumentsInfo; GetWalletBalance;
       Log DEBUG (MsgBalanceResponse ab); Log ERROR (MsgWalletError e)],
   raise (RaisedFrom (ValueError "Failed to parse wallet balance") e)).
Proof.
  intros Hp Hi Hs Hw Hr. unfold handle_body.
  unfold lift at 1. rewrite Hp. step_bind.
  rewrite log_print_say. step_bind.
  rewrite (get_step_size_ok _ _ _ _ Hi Hs). step_bind.
  unfold call. rewrite Hw. step_bind.
  unfold emit. step_bind.
  rewrite (wallet_snapshot_error _ _ Hr). reflexivity.
Qed.

Lemma size_and_place_insufficient session sg step equity balance q :
  position_size balance (price sg) step = ok q ->
  PyFloat.gt_zero q = false ->
  size_and_place session sg step equity balance =
  (say ERROR MsgInsufficientBalance, ok tt).
Proof.
  intros H1 H2. unfold size_and_place, lift. rewrite H1.
  step_bind. rewrite H2. reflexivity.
Qed.

(** *** The four labels *)

Lemma startswith_head a p b s :
  PyStr.startswith (String b s) (String a p) = true -> a = b.
Proof.
  unfold PyStr.startswith; simpl.
  destruct (ascii_dec a b); [auto | discriminate].
Qed.

Lemma startswith_tail a p b s :
  PyStr.startswith (String b s) (String a p) = true ->
  PyStr.startswith s p = true.
Proof.
  unfold PyStr.startswith; simpl.
  destruct (ascii_dec a b); [auto | discriminate].
Qed.

(** The labels exclude one another as prefixes, so the [elif] chain takes
    the branch of the label a line starts with. *)
Lemma price_not_symbol part :
  PyStr.startswith part "Price:" = true ->
  PyStr.startswith part "Symbol:" = false.
Proof.
  destruct part as [|c r]; [discriminate|]. intros H.
  apply startswith_head in H. subst c. reflexivity.
Qed.

Lemma stop_not_symbol part :
  PyStr.startswith part "Stop Loss:" = true ->
  PyStr.startswith part "Symbol:" = false.
Proof.
  destruct part as [|c [|c' r]]; try discriminate; intros H.
  - apply startswith_tail in H. discriminate.
  - pose proof (startswith_head _ _ _ _ H); subst c.
    apply startswith_tail, startswith_head in H. subst c'. reflexivity.
Qed.

Lemma stop_not_price part :
  PyStr.startswith part "Stop Loss:" = true ->
  PyStr.startswith part "Price:" = false.
Proof.
  destruct part as [|c r]; [discriminate|]. intros H.
  apply startswith_head in H. subst c. reflexivity.
Qed.

Lemma take_not_others part :
  PyStr.startswith part "Take Profit:" = true ->
  PyStr.startswith part "Symbol:" = false /\
  PyStr.startswith part "Price:" = false /\
  PyStr.startswith part "Stop Loss:" = false.
Proof.
  destruct part as [|c r]; [discriminate|]. intros H.
  apply startswith_head in H. subst c. repeat split; reflexivity.
Qed.

(** *** The parsing loop *)

Lemma str_to_float_none s :
  float_of_str s = None ->
  str_to_float float_of_str s =
  raise (ValueError "could not convert string to float").
Proof. unfold str_to_float; intros ->; reflexivity. Qed.

Lemma str_to_float_raises s e :
  str_to_float float_of_str s = raise e ->
  e = ValueError "could not convert string to float".
Proof.
  unfold str_to_float; destruct (float_of_str s); intros H;
    inversion H; reflexivity.
Qed.

(** A labeled numeric line whose text [float] refuses stops the loop. *)
Lemma parse_part_unparsable part label acc :
  In label numeric_labels ->
  PyStr.startswith part label = true ->
  float_of_str (field_text part label) = None ->
  parse_part float_of_str part acc =
  raise (ValueError "could not convert string to float").
Proof.
  intros Hl Hs Hf. unfold parse_part.
  destruct Hl as [<-|[<-|[<-|[]]]].
  - rewrite (price_not_symbol _ Hs), Hs, (str_to_float_none _ Hf).
    reflexivity.
  - rewrite (stop_not_symbol _ Hs), (stop_not_price _ Hs), Hs,
      (str_to_float_none _ Hf). reflexivity.
  - destruct (take_not_others _ Hs) as (-> & -> & ->).
    rewrite Hs, (str_to_float_none _ Hf). reflexivity.
Qed.

Lemma parse_part_raises part acc e :
  parse_part float_of_str part acc = raise e ->
  e = ValueError "could not convert string to float".
Proof.
  unfold parse_part.
  repeat match goal with
         | |- context [if ?b then _ else _] => destruct b
         end;
    try discriminate;
    match goal with
    | |- context [str_to_float float_of_str ?s] =>
        destruct (str_to_float float_of_str s) eqn:E; simpl;
        [ intros H; inversion H; subst; eapply str_to_float_raises; eauto
        | discriminate ]
    end.
Qed.

Lemma parse_parts_raises parts acc e :
  parse_parts float_of_str parts acc = raise e ->
  e = ValueError "could not convert string to float".
Proof.
  revert acc; induction parts as [|part rest IH]; intros acc; simpl.
  - discriminate.
  - destruct (parse_part float_of_str part acc) as [e'|acc'] eqn:E; simpl.
    + intros H; inversion H; subst. eapply parse_part_raises; eauto.
    + apply IH.
Qed.

Lemma parse_parts_unparsable parts acc part label :
  In part parts ->
  In label numeric_labels ->
  PyStr.startswith part label = true ->
  float_of_str (field_text part label) = None ->
  parse_parts float_of_str parts acc =
  raise (ValueError "could not convert string to float").
Proof.
  intros Hin Hl Hs Hf. revert acc.
  induction parts as [|p rest IH]; intros acc; [destruct Hin|].
  simpl. destruct Hin as [->|Hin].
  - rewrite (parse_part_unparsable _ _ acc Hl Hs Hf). reflexivity.
  - destruct (parse_part float_of_str p acc) as [e|acc'] eqn:E; simpl.
    + now rewrite (parse_part_raises _ _ _ E).
    + auto.
Qed.

(** A line that does not start with a label leaves its variable alone. *)
Lemma parse_part_keeps_value part acc acc' label :
  In label labels ->
  PyStr.startswith part label = false ->
  parse_part float_of_str part acc = ok acc' ->
  field_value acc' label = field_value acc label.
Proof.
  intros Hl Hs. unfold parse_part.
  destruct Hl as [<-|[<-|[<-|[<-|[]]]]]; rewrite ?Hs;
    repeat match goal with
           | |- context [if PyStr.startswith ?p ?l then _ else _] =>
               destruct (PyStr.startswith p l) eqn:?
           end;
    try discriminate;
    try match goal with
      | |- context [str_to_float float_of_str ?s] =>
          destruct (str_to_float float_of_str s); simpl
      end;
    intros H; inversion H; reflexivity.
Qed.

Lemma parse_parts_keeps_value parts acc f label :
  In label labels ->
  has_label parts label = false ->
  parse_parts float_of_str parts acc = ok f ->
  field_value f label = field_value acc label.
Proof.
  intros Hl. revert acc.
  induction parts as [|part rest IH]; intros acc Hh; simpl.
  - intros H; inversion H; reflexivity.
  - simpl in Hh. apply orb_false_iff in Hh as [H1 H2].
    destruct (parse_part float_of_str part acc) as [e|acc'] eqn:E; simpl;
      [discriminate|].
    intros H. rewrite (IH _ H2 H).
    eapply parse_part_keeps_value; eauto.
Qed.

Lemma parse_signal_missing m :
  field_missing m ->
  exists msg, parse_signal float_of_str m = raise (ValueError msg).
Proof.
  intros (label & Hl & Hh). unfold parse_signal.
  destruct (parse_parts float_of_str _ no_fields) as [e|f] eqn:E; simpl.
  - rewrite (parse_parts_raises _ _ _ E). eauto.
  - pose proof (parse_parts_keeps_value _ _ _ _ Hl Hh E) as Hk.
    destruct Hl as [<-|[<-|[<-|[<-|[]]]]]; cbn in Hk;
      destruct (f_symbol f), (f_price f), (f_stop_loss_price f),
        (f_take_profit_price f); try discriminate; eauto;
      destruct (all_fields f); eauto.
Qed.

Lemma parse_signal_unparsable m :
  numeric_field_unparsable float_of_str m ->
  exists msg, parse_signal float_of_str m = raise (ValueError msg).
Proof.
  intros (part & label & Hin & Hl & Hs & Hf). unfold parse_signal.
  rewrite (parse_parts_unparsable _ no_fields _ _ Hin Hl Hs Hf). simpl. eauto.
Qed.

(** C2.  A message in which one of the four labeled fields is missing, or in
    which a numeric field does not parse, yields no signal: parsing raises a
    [ValueError], the handler logs it and returns, and no call to the
    exchange (instruments, wallet, order) is made for that message. *)
Theorem malformed_signal_is_dropped session raw_text :
  field_missing (bot_message_of raw_text) \/
  numeric_field_unparsable float_of_str (bot_message_of raw_text) ->
  exists msg,
    parse_signal float_of_str (bot_message_of raw_text) = raise (ValueError msg) /\
    handle_bot_response float_of_str session raw_text =
      (say ERROR (MsgHandlerError (ValueError msg)), ok tt) /\
    no_exchange_call (fst (handle_bot_response float_of_str session raw_text)).
Proof.
  intros H.
  assert (exists msg, parse_signal float_of_str (bot_message_of raw_text)
                      = raise (ValueError msg)) as (msg & Hm).
  { destruct H; [now apply parse_signal_missing
                | now apply parse_signal_unparsable]. }
  exists msg. rewrite (handle_parse_failure _ _ _ Hm).
  repeat split; auto.
Qed.

Lemma parse_parts_app l1 l2 acc :
  parse_parts float_of_str (l1 ++ l2) acc =
  rbind (parse_parts float_of_str l1 acc) (parse_parts float_of_str l2).
Proof.
  revert acc; induction l1 as [|p l1 IH]; intros acc; [reflexivity|].
  cbn [app parse_parts].
  destruct (parse_part float_of_str p acc) as [e|acc']; [reflexivity|].
  cbn [rbind]. apply IH.
Qed.

Lemma str_to_float_some s x :
  float_of_str s = Some x -> str_to_float float_of_str s = ok x.
Proof. unfold str_to_float; intros ->; reflexivity. Qed.

Lemma parse_part_reads_symbol part acc :
  PyStr.startswith part "Symbol:" = true ->
  exists acc',
    parse_part float_of_str part acc = ok acc' /\
    field_value acc' "Symbol:" = Some (inl (field_text part "Symbol:")).
Proof.
  intros Hs. unfold parse_part. rewrite Hs.
  eexists; split; reflexivity.
Qed.

Lemma parse_part_reads_number part label x acc :
  In label numeric_labels ->
  PyStr.startswith part label = true ->
  float_of_str (field_text part label) = Some x ->
  exists acc',
    parse_part float_of_str part acc = ok acc' /\
    field_value acc' label = Some (inr x).
Proof.
  intros Hl Hs Hf. unfold parse_part.
  destruct Hl as [<-|[<-|[<-|[]]]].
  - rewrite (price_not_symbol _ Hs), Hs, (str_to_float_some _ _ Hf).
    eexists; split; reflexivity.
  - rewrite (stop_not_symbol _ Hs), (stop_not_price _ Hs), Hs,
      (str_to_float_some _ _ Hf). eexists; split; reflexivity.
  - destruct (take_not_others _ Hs) as (-> & -> & ->).
    rewrite Hs, (str_to_float_some _ _ Hf). eexists; split; reflexivity.
Qed.

(** The last line of a label decides the value its variable ends with. *)
Lemma parse_parts_last parts label part acc f v :
  In label labels ->
  last_line parts label part ->
  (forall acc0, exists acc',
      parse_part float_of_str part acc0 = ok acc' /\
      field_value acc' label = Some v) ->
  parse_parts float_of_str parts acc = ok f ->
  field_value f label = Some v.
Proof.
  intros Hl (pre & post & -> & Hs & Hpost) Hread.
  rewrite parse_parts_app.
  destruct (parse_parts float_of_str pre acc) as [e|acc0]; [discriminate|].
  cbn [rbind parse_parts].
  destruct (Hread acc0) as (acc' & -> & Hv). cbn [rbind ok].
  intros H. now rewrite (parse_parts_keeps_value _ _ _ _ Hl Hpost H).
Qed.

Lemma all_fields_value f label v :
  In label labels ->
  field_value f label = Some v ->
  match v with
  | inl s => s = ""
  | inr x => PyFloat.truthy x = false
  end ->
  all_fields f = false.
Proof.
  unfold all_fields, field_value.
  intros [<-|[<-|[<-|[<-|[]]]]]; cbn [String.eqb Ascii.eqb Bool.eqb];
    intros Hv Hz.
  - destruct (f_symbol f) as [s|]; [|reflexivity].
    injection Hv as <-. subst s. reflexivity.
  - destruct (f_price f) as [x|]; [|now rewrite andb_false_r].
    injection Hv as <-. cbn [truthy_float]. rewrite Hz.
    now rewrite andb_false_r.
  - destruct (f_stop_loss_price f) as [x|]; [|now rewrite andb_false_r].
    injection Hv as <-. cbn [truthy_float]. rewrite Hz.
    now rewrite andb_false_r.
  - destruct (f_take_profit_price f) as [x|]; [|now rewrite andb_false_r].
    injection Hv as <-. cbn [truthy_float]. rewrite Hz.
    now rewrite andb_false_r.
Qed.

Lemma parse_signal_all_false m f :
  parse_parts float_of_str (PyStr.split PyStr.newline m) no_fields = ok f ->
  all_fields f = false ->
  parse_signal float_of_str m =
  raise (ValueError "Invalid message format received from the bot").
Proof.
  intros Hp Ha. unfold parse_signal. rewrite Hp. cbn [rbind ok]. rewrite Ha.
  destruct (f_symbol f), (f_price f), (f_stop_loss_price f),
    (f_take_profit_price f); reflexivity.
Qed.

Lemma zero_or_empty_all_false m f :
  zero_or_empty_field float_of_str m ->
  parse_parts float_of_str (PyStr.split PyStr.newline m) no_fields = ok f ->
  all_fields f = false.
Proof.
  intros [(part & Hlast & Ht)|(label & part & x & Hl & Hlast & Hf & Hz)] Hp.
  - apply (all_fields_value f "Symbol:" (inl (field_text part "Symbol:")));
      [simpl; auto| |exact Ht].
    eapply (parse_parts_last _ _ part no_fields); [simpl; auto|exact Hlast| |exact Hp].
    intros acc0. apply parse_part_reads_symbol.
    now destruct Hlast as (? & ? & _ & ? & _).
  - assert (Hl' : In label labels).
    { destruct Hl as [<-|[<-|[<-|[]]]]; simpl; auto. }
    apply (all_fields_value f label (inr x)); [exact Hl'| |exact Hz].
    eapply (parse_parts_last _ _ part no_fields); [exact Hl'|exact Hlast| |exact Hp].
    intros acc0. apply parse_part_reads_number; auto.
    now destruct Hlast as (? & ? & _ & ? & _).
Qed.

(** C9.  When the last [Symbol:] line of a message leaves the empty string,
    or the last line of a numeric label reads as a zero, the check of line
    118 takes the value for absent: parsing raises a [ValueError] (the one
    for an invalid format whenever the loop has read all the lines), the
    handler logs it and returns, and no call to the exchange is made. *)
Theorem zero_or_empty_field_is_malformed session raw_text :
  zero_or_empty_field float_of_str (bot_message_of raw_text) ->
  exists msg,
    parse_signal float_of_str (bot_message_of raw_text) = raise (ValueError msg) /\
    ((exists f,
         parse_parts float_of_str
           (PyStr.split PyStr.newline (bot_message_of raw_text)) no_fields = ok f) ->
     msg = "Invalid message format received from the bot") /\
    handle_bot_response float_of_str session raw_text =
      (say ERROR (MsgHandlerError (ValueError msg)), ok tt) /\
    no_exchange_call (fst (handle_bot_response float_of_str session raw_text)).
Proof.
  intros Hz.
  destruct (parse_parts float_of_str
              (PyStr.split PyStr.newline (bot_message_of raw_text)) no_fields)
    as [e|f] eqn:Hp.
  - pose proof (parse_parts_raises _ _ _ Hp) as ->.
    assert (Hs : parse_signal float_of_str (bot_message_of raw_text) =
                 raise (ValueError "could not convert string to float")).
    { unfold parse_signal. rewrite Hp. reflexivity. }
    eexists. split; [exact Hs|]. split; [intros (f & Hf); discriminate|].
    rewrite (handle_parse_failure _ _ _ Hs). split; reflexivity.
  - pose proof (parse_signal_all_false _ _ Hp
                  (zero_or_empty_all_false _ _ Hz Hp)) as Hs.
    eexists. split; [exact Hs|]. split; [reflexivity|].
    rewrite (handle_parse_failure _ _ _ Hs). split; reflexivity.
Qed.

End PipelineFacts.

(* ================================================================= *)
(** ** The wallet, in its two shapes *)

Section WalletFacts.

Variable float_of_str : string -> option PyFloat.float.

Lemma lookup_coin_as_list d :
  Py.lookup "coin" (map coin_as_list d) =
  option_map (fun v => match v with PDict c => PList [PDict c] | _ => v end)
    (Py.lookup "coin" d).
Proof.
  induction d as [|[k v] d IH]; [reflexivity|].
  cbn [map Py.lookup].
  destruct v; cbn [coin_as_list];
    cbn [Py.lookup]; destruct (String.eqb "coin" k) eqn:E; auto.
  all: cbn [Py.lookup]; rewrite E; auto.
Qed.

(** One account: the loop over a one-element list does what the test of the
    single record does. *)
Lemma scan_account_as_list account usdt_data :
  scan_account (account_as_list account) usdt_data =
  scan_account account usdt_data.
Proof.
  destruct account; try reflexivity.
  unfold scan_account, account_as_list, Py.get at 1 3.
  rewrite lookup_coin_as_list.
  destruct (Py.lookup "coin" d) as [v|]; [|reflexivity].
  destruct v; reflexivity.
Qed.

Lemma scan_accounts_as_list wallet_list usdt_data :
  scan_accounts (map account_as_list wallet_list) usdt_data =
  scan_accounts wallet_list usdt_data.
Proof.
  revert usdt_data.
  induction wallet_list as [|a l IH]; intros u; [reflexivity|].
  cbn [map scan_accounts]. rewrite scan_account_as_list.
  destruct (scan_account a u) as [e|u']; [reflexivity|].
  cbn [rbind]. now rewrite IH.
Qed.

Lemma find_usdt_by_list ab l :
  wallet_list_of ab = ok (PList l) ->
  find_usdt ab =
  match l with
  | [] => raise (ValueError "Wallet list is empty or not a valid list")
  | _ =>
      (usdt_data <- scan_accounts l PNone ;;
       if Py.truthy usdt_data then ok usdt_data
       else raise (ValueError "USDT balance not found in the response"))%result
  end.
Proof.
  unfold wallet_list_of, find_usdt.
  destruct (Py.getitem ab "result") as [e|r]; [discriminate|].
  cbn [rbind]. intros ->. cbn [rbind ok]. destruct l; reflexivity.
Qed.

Lemma find_usdt_as_list ab ab' l :
  wallet_list_of ab = ok (PList l) ->
  wallet_list_of ab' = ok (PList (map account_as_list l)) ->
  find_usdt ab' = find_usdt ab.
Proof.
  intros H H'.
  rewrite (find_usdt_by_list _ _ H), (find_usdt_by_list _ _ H').
  rewrite scan_accounts_as_list. destruct l; reflexivity.
Qed.

Lemma scan_coins_no_usdt coins u :
  existsb is_usdt coins = false ->
  scan_coins coins u = ok u \/ exists e, scan_coins coins u = raise e.
Proof.
  induction coins as [|c l IH]; intros H; [now left|].
  cbn [existsb] in H. apply orb_false_iff in H as [Hc Hl].
  cbn [scan_coins].
  destruct c; try (right; eexists; reflexivity).
  cbn [Py.get]. cbn [is_usdt] in Hc.
  destruct (Py.lookup "coin" d) as [v|]; cbn [rbind ok].
  - rewrite Hc. auto.
  - cbn [Py.eq_str]. auto.
Qed.

Lemma scan_account_no_usdt a u :
  account_has_usdt a = false ->
  scan_account a u = ok u \/ exists e, scan_account a u = raise e.
Proof.
  intros H. unfold scan_account.
  destruct a; try (right; eexists; reflexivity).
  cbn [Py.get]. cbn [account_has_usdt] in H.
  destruct (Py.lookup "coin" d) as [v|]; cbn [rbind ok]; [|now left].
  destruct v; try (now left).
  - now apply scan_coins_no_usdt.
  - cbn [Py.get]. cbn [is_usdt] in H.
    destruct (Py.lookup "coin" d0) as [c|]; cbn [rbind ok].
    + rewrite H. now left.
    + now left.
Qed.

Lemma scan_accounts_no_usdt l u :
  has_usdt_entry l = false -> Py.truthy u = false ->
  scan_accounts l u = ok u \/ exists e, scan_accounts l u = raise e.
Proof.
  induction l as [|a l IH]; intros H Hu; [now left|].
  cbn [has_usdt_entry existsb] in H. apply orb_false_iff in H as [Ha Hl].
  cbn [scan_accounts].
  destruct (scan_account_no_usdt a u Ha) as [->|(e & ->)];
    [|right; eexists; reflexivity].
  cbn [rbind ok]. rewrite Hu. now apply IH.
Qed.

Lemma find_usdt_absent ab l :
  wallet_list_of ab = ok (PList l) ->
  has_usdt_entry l = false ->
  exists e, find_usdt ab = raise e.
Proof.
  intros H Hn. rewrite (find_usdt_by_list _ _ H).
  destruct l as [|a l']; [eexists; reflexivity|].
  destruct (scan_accounts_no_usdt (a :: l') PNone Hn eq_refl) as [->|(e & ->)];
    eexists; reflexivity.
Qed.

Lemma usdt_record_truthy u : is_usdt u = true -> Py.truthy u = true.
Proof.
  destruct u as [| | | | |l|d]; try discriminate.
  destruct d; [discriminate|reflexivity].
Qed.

Lemma usdt_record_coin u :
  is_usdt u = true ->
  exists c, Py.get u "coin" PNone = ok c /\ Py.eq_str c "USDT" = true.
Proof.
  destruct u as [| | | | |l|d]; try discriminate.
  unfold is_usdt, Py.get. destruct (Py.lookup "coin" d) as [v|];
    [|discriminate].
  intros H. eauto.
Qed.

Lemma other_coin_coin coin :
  other_coin coin = true ->
  exists c, Py.get coin "coin" PNone = ok c /\ Py.eq_str c "USDT" = false.
Proof.
  destruct coin as [| | | | |l|d]; try discriminate.
  unfold other_coin, is_usdt, Py.get. rewrite negb_true_iff.
  destruct (Py.lookup "coin" d) as [v|]; intros H; eauto.
Qed.

Lemma scan_coins_first before u after u0 :
  forallb other_coin before = true -> is_usdt u = true ->
  scan_coins (before ++ u :: after) u0 = ok u.
Proof.
  intros Hb Hu. induction before as [|coin rest IH].
  - cbn [app scan_coins].
    destruct (usdt_record_coin u Hu) as (c & Hc & Hs).
    rewrite Hc. cbn [rbind ok]. rewrite Hs. reflexivity.
  - cbn [forallb] in Hb. apply andb_prop in Hb as [Hc Hr].
    cbn [app scan_coins].
    destruct (other_coin_coin coin Hc) as (c & Hg & Hs).
    rewrite Hg. cbn [rbind ok]. rewrite Hs. now apply IH.
Qed.

Lemma scan_account_first account u u0 :
  holds_first account u -> scan_account account u0 = ok u.
Proof.
  intros (Hu & d & -> & [Hl|(before & after & Hl & Hb)]);
    unfold scan_account, Py.get at 1; rewrite Hl; cbn [rbind ok].
  - destruct u as [| | | | |l|c]; try discriminate Hu.
    destruct (usdt_record_coin _ Hu) as (v & Hg & Hs).
    rewrite Hg. cbn [rbind ok]. rewrite Hs. reflexivity.
  - now apply scan_coins_first.
Qed.

Lemma scan_coins_others coins u0 :
  forallb other_coin coins = true -> scan_coins coins u0 = ok u0.
Proof.
  induction coins as [|coin rest IH]; [reflexivity|].
  cbn [forallb]. intros H. apply andb_prop in H as [Hc Hr].
  cbn [scan_coins]. destruct (other_coin_coin coin Hc) as (c & Hg & Hs).
  rewrite Hg. cbn [rbind ok]. rewrite Hs. now apply IH.
Qed.

Lemma scan_account_without account u0 :
  account_without_usdt account = true -> scan_account account u0 = ok u0.
Proof.
  destruct account as [| | | | |l|d]; try discriminate.
  unfold account_without_usdt, scan_account, Py.get at 1.
  destruct (Py.lookup "coin" d) as [[| | | | |coins|c]|];
    cbn [rbind ok]; try reflexivity.
  - apply scan_coins_others.
  - intros H.
    destruct (other_coin_coin (PDict c) H) as (v & Hg & Hs).
    rewrite Hg. cbn [rbind ok]. rewrite Hs. reflexivity.
Qed.

Lemma scan_accounts_first pre account post u :
  forallb account_without_usdt pre = true ->
  holds_first account u ->
  scan_accounts (pre ++ account :: post) PNone = ok u.
Proof.
  intros Hp Hh. induction pre as [|a rest IH].
  - cbn [app scan_accounts]. rewrite (scan_account_first _ _ _ Hh).
    cbn [rbind ok]. rewrite (usdt_record_truthy _ (proj1 Hh)). reflexivity.
  - cbn [forallb] in Hp. apply andb_prop in Hp as [Ha Hr].
    cbn [app scan_accounts]. rewrite (scan_account_without _ _ Ha).
    cbn [rbind ok Py.truthy]. now apply IH.
Qed.

Lemma find_usdt_first ab pre account post u :
  wallet_list_of ab = ok (PList (pre ++ account :: post)) ->
  forallb account_without_usdt pre = true ->
  holds_first account u ->
  find_usdt ab = ok u.
Proof.
  intros Hl Hp Hh. rewrite (find_usdt_by_list _ _ Hl).
  rewrite (scan_accounts_first _ _ _ _ Hp Hh). cbn [rbind ok].
  rewrite (usdt_record_truthy _ (proj1 Hh)).
  destruct (pre ++ account :: post) eqn:E; [|reflexivity].
  destruct pre; discriminate E.
Qed.

Lemma read_snapshot_of_record ab u equity balance :
  find_usdt ab = ok u -> is_usdt u = true ->
  py_float float_of_str (usdt_field u "equity") = ok equity ->
  py_float float_of_str (usdt_field u "walletBalance") = ok balance ->
  read_snapshot float_of_str ab = ok (equity, balance).
Proof.
  intros Hf Hu He Hb. unfold read_snapshot. rewrite Hf. cbn [rbind ok].
  destruct u as [| | | | |l|c]; try discriminate Hu.
  unfold usdt_field, field_or in He, Hb. unfold Py.get.
  destruct (Py.lookup "equity" c); cbn [rbind ok]; rewrite He; cbn [rbind ok];
    destruct (Py.lookup "walletBalance" c); cbn [rbind ok]; rewrite Hb;
    reflexivity.
Qed.

Lemma first_usdt_record coins :
  forallb Py.isinstance_dict coins = true ->
  existsb is_usdt coins = true ->
  exists before u after,
    coins = before ++ u :: after /\
    forallb other_coin before = true /\ is_usdt u = true.
Proof.
  induction coins as [|coin rest IH]; [discriminate|].
  cbn [forallb existsb]. intros Hd He. apply andb_prop in Hd as [Hc Hr].
  destruct (is_usdt coin) eqn:Eu.
  - exists [], coin, rest. repeat split; assumption.
  - cbn [orb] in He. destruct (IH Hr He) as (before & u & after & -> & Hb & Hu).
    exists (coin :: before), u, after. split; [reflexivity|].
    split; [|exact Hu]. cbn [forallb]. rewrite Hb, andb_true_r.
    destruct coin; try discriminate Hc. unfold other_coin. now rewrite Eu.
Qed.

Lemma readable_account_cases account :
  readable_account account = true ->
  (account_has_usdt account = true /\ exists u, holds_first account u) \/
  (account_has_usdt account = false /\ account_without_usdt account = true).
Proof.
  destruct account as [| | | | |l|d]; try discriminate.
  unfold readable_account, account_has_usdt, account_without_usdt, holds_first.
  destruct (Py.lookup "coin" d) as [[| | | | |coins|c]|] eqn:El;
    try (intros _; right; split; reflexivity).
  - intros Hd. destruct (existsb is_usdt coins) eqn:Ee.
    + left. split; [reflexivity|].
      destruct (first_usdt_record coins Hd Ee)
        as (before & u & after & -> & Hb & Hu).
      exists u. split; [exact Hu|]. exists d. split; [reflexivity|].
      right. exists before, after. now split.
    + right. split; [reflexivity|].
      clear El. induction coins as [|coin rest IH]; [reflexivity|].
      cbn [forallb existsb] in *. apply andb_prop in Hd as [Hc Hr].
      apply orb_false_iff in Ee as [Eu Er].
      rewrite (IH Hr Er), andb_true_r.
      destruct coin; try discriminate Hc. unfold other_coin. now rewrite Eu.
  - intros _. destruct (is_usdt (PDict c)) eqn:Eu.
    + left. split; [reflexivity|]. exists (PDict c). split; [exact Eu|].
      exists d. split; [reflexivity|]. now left.
    + right. split; reflexivity.
Qed.

(** In a list of readable accounts that holds a USDT entry, some account is
    the first to hold one. *)
Lemma usdt_entry_is_first_somewhere l :
  forallb readable_account l = true ->
  has_usdt_entry l = true ->
  exists pre account post u,
    l = pre ++ account :: post /\
    forallb account_without_usdt pre = true /\
    holds_first account u.
Proof.
  unfold has_usdt_entry.
  induction l as [|a rest IH]; [discriminate|].
  cbn [forallb existsb]. intros Hr He. apply andb_prop in Hr as [Ha Hr].
  destruct (readable_account_cases a Ha) as [[_ (u & Hu)]|[Hn Hw]].
  - exists [], a, rest, u. split; [reflexivity|]. split; [reflexivity|].
    exact Hu.
  - rewrite Hn in He. cbn [orb] in He.
    destruct (IH Hr He) as (pre & account & post & u & -> & Hp & Hh).
    exists (a :: pre), account, post, u. split; [reflexivity|].
    split; [|exact Hh]. cbn [forallb]. now rewrite Hw, Hp.
Qed.

(** C6.  Two wallet responses that list the same accounts, one with single
    coin records and the other with each of them written as a one-element
    list, give the same snapshot (or the same failure).  When an account
    holds a USDT record, and the accounts before it hold records of other
    coins only, the snapshot is read from that record in both shapes: its
    equity and its wallet balance as [float] reads them, 0 for a field that
    is not there; among readable accounts a USDT entry is always found this
    way.  When the accounts hold no USDT entry, in either shape,
    reading the wallet fails: the failure is logged, re-raised as "Failed
    to parse wallet balance", and the handler logs it and drops the
    message. *)
Theorem wallet_shape_does_not_matter ab ab' l :
  wallet_list_of ab = ok (PList l) ->
  wallet_list_of ab' = ok (PList (map account_as_list l)) ->
  read_snapshot float_of_str ab' = read_snapshot float_of_str ab /\
  wallet_snapshot float_of_str ab' = wallet_snapshot float_of_str ab /\
  (forall pre account post u equity balance,
      l = pre ++ account :: post ->
      forallb account_without_usdt pre = true ->
      holds_first account u ->
      py_float float_of_str (usdt_field u "equity") = ok equity ->
      py_float float_of_str (usdt_field u "walletBalance") = ok balance ->
      find_usdt ab = ok u /\
      find_usdt ab' = ok u /\
      read_snapshot float_of_str ab = ok (equity, balance) /\
      read_snapshot float_of_str ab' = ok (equity, balance) /\
      wallet_snapshot float_of_str ab' =
        ([Log INFO (MsgUsdt equity balance)], ok (equity, balance))) /\
  (forallb readable_account l = true ->
   has_usdt_entry l = true ->
   exists u,
     is_usdt u = true /\
     find_usdt ab = ok u /\ find_usdt ab' = ok u /\
     forall equity balance,
       py_float float_of_str (usdt_field u "equity") = ok equity ->
       py_float float_of_str (usdt_field u "walletBalance") = ok balance ->
       read_snapshot float_of_str ab = ok (equity, balance) /\
       read_snapshot float_of_str ab' = ok (equity, balance)) /\
  (has_usdt_entry l = false ->
   exists e,
     read_snapshot float_of_str ab = raise e /\
     wallet_snapshot float_of_str ab =
       ([Log ERROR (MsgWalletError e)],
        raise (RaisedFrom (ValueError "Failed to parse wallet balance") e)) /\
     forall session raw_text sg instruments step,
       parse_signal float_of_str (bot_message_of raw_text) = ok sg ->
       get_instruments_info session = ok instruments ->
       step_size_of float_of_str instruments (symbol sg) = ok step ->
       get_wallet_balance session = ok ab ->
       handle_bot_response float_of_str session raw_text =
         (say INFO (extracted sg)
          ++ [GetInstrumentsInfo; GetWalletBalance;
              Log DEBUG (MsgBalanceResponse ab); Log ERROR (MsgWalletError e)]
          ++ say ERROR
               (MsgHandlerError
                  (RaisedFrom (ValueError "Failed to parse wallet balance") e)),
          ok tt)).
Proof.
  intros H H'.
  assert (Hr : read_snapshot float_of_str ab' = read_snapshot float_of_str ab).
  { unfold read_snapshot. now rewrite (find_usdt_as_list _ _ _ H H'). }
  split; [exact Hr|]. split; [|split; [|split]].
  - unfold wallet_snapshot, lift. now rewrite Hr.
  - intros pre account post u equity balance -> Hp Hh He Hb.
    pose proof (find_usdt_first _ _ _ _ _ H Hp Hh) as Hf.
    pose proof (read_snapshot_of_record _ _ _ _ Hf (proj1 Hh) He Hb) as Hs.
    split; [exact Hf|].
    split; [now rewrite (find_usdt_as_list _ _ _ H H')|].
    split; [exact Hs|]. rewrite Hr. split; [exact Hs|].
    apply wallet_snapshot_ok. now rewrite Hr.
  - intros Hw He.
    destruct (usdt_entry_is_first_somewhere l Hw He)
      as (pre & account & post & u & -> & Hp & Hh).
    pose proof (find_usdt_first _ _ _ _ _ H Hp Hh) as Hf.
    exists u. split; [exact (proj1 Hh)|]. split; [exact Hf|].
    split; [now rewrite (find_usdt_as_list _ _ _ H H')|].
    intros equity balance Heq Hb.
    pose proof (read_snapshot_of_record _ _ _ _ Hf (proj1 Hh) Heq Hb) as Hs.
    split; [exact Hs|]. now rewrite Hr.
  - intros Hn. destruct (find_usdt_absent _ _ H Hn) as (e & He).
    assert (Hs : read_snapshot float_of_str ab = raise e).
    { unfold read_snapshot. rewrite He. reflexivity. }
    exists e. split; [exact Hs|]. split.
    + now apply wallet_snapshot_error.
    + intros session raw_text sg instruments step Hp Hi Hst Hw.
      rewrite handle_by_body.
      rewrite (body_wallet_failure _ _ _ _ _ _ _ _ Hp Hi Hst Hw Hs).
      unfold raise. rewrite <- app_assoc. reflexivity.
Qed.

End WalletFacts.

(* ================================================================= *)
(** ** The order *)

Section OrderFacts.

Variable float_of_str : string -> option PyFloat.float.


Lemma format_trade_details_ok sym p sl tp q order code ret_msg equity balance :
  order_result order code ret_msg ->
  exists report,
    format_trade_details sym p sl tp q order equity balance = ok report /\
    tr_status report = ret_msg /\ tr_qty report = q /\
    tr_symbol report = sym /\ tr_price report = p.
Proof.
  intros (d & -> & Hc & Hm & Hr). unfold format_trade_details.
  cbn [Py.get]. rewrite Hm.
  destruct (Py.lookup "result" d) as [[]|]; try contradiction;
    cbn [rbind ok Py.get Py.lookup];
    repeat match goal with
           | |- context [Py.lookup ?k ?l] => destruct (Py.lookup k l)
           end;
    cbn [rbind ok];
    eexists; (split; [reflexivity|]); repeat split; reflexivity.
Qed.

Lemma submit_order_answered session sg q equity balance order code ret_msg :
  place_order session (make_order_params sg q) = ok order ->
  order_result order code ret_msg ->
  submit_order session sg q equity balance =
  (PlaceOrder (make_order_params sg q) ::
     (if Py.eq_zero code
      then match format_trade_details (symbol sg) (price sg)
                   (stop_loss_price sg) (take_profit_price sg) q order
                   equity balance with
           | inr report => say INFO (MsgTradeDetails report)
           | inl e => say ERROR (MsgOrderException e)
           end
      else say ERROR (MsgOrderRetMsg ret_msg)),
   ok tt).
Proof.
  intros H Ho.
  destruct (format_trade_details_ok (symbol sg) (price sg) (stop_loss_price sg)
              (take_profit_price sg) q order code ret_msg equity balance Ho)
    as (report & Hf & _).
  destruct Ho as (d & -> & Hc & Hm & Hr).
  unfold submit_order, call, try_except, bind, lift. rewrite H.
  cbv beta iota delta [Py.getitem ok]. rewrite Hc. cbv beta iota.
  destruct (Py.eq_zero code).
  - rewrite Hf. reflexivity.
  - rewrite Hm. reflexivity.
Qed.

(** Whatever the exchange answers: one call, and no exception left. *)
Lemma submit_order_once session sg q equity balance :
  exists t,
    submit_order session sg q equity balance =
      (PlaceOrder (make_order_params sg q) :: t, ok tt) /\
    no_place_order t.
Proof.
  unfold submit_order, call, try_except, bind, lift.
  destruct (place_order session (make_order_params sg q)) as [e|order];
    cbv beta iota; [eexists; split; reflexivity|].
  destruct (Py.getitem order "retCode") as [e|code];
    cbv beta iota; [eexists; split; reflexivity|].
  destruct (Py.eq_zero code);
    [ destruct (format_trade_details _ _ _ _ _ _ _ _)
    | destruct (Py.getitem order "retMsg") ];
    cbv beta iota; eexists; split; reflexivity.
Qed.

Lemma size_and_place_once session sg step equity balance :
  (count_place_order (fst (size_and_place session sg step equity balance)) <= 1)%nat.
Proof.
  unfold size_and_place, lift.
  destruct (position_size balance (price sg) step) as [e|q];
    [unfold count_place_order; simpl; lia|].
  step_bind. destruct (PyFloat.gt_zero q).
  - unfold emit. step_bind.
    destruct (submit_order_once session sg q equity balance) as (t & -> & Ht).
    cbn [fst app]. unfold count_place_order.
    cbn [filter is_place_order List.length].
    unfold no_place_order in Ht.
    assert (filter is_place_order t = []) as ->; [|simpl; lia].
    clear -Ht. induction t as [|ev t IH]; [reflexivity|].
    cbn [existsb] in Ht. apply orb_false_iff in Ht as [H1 H2].
    cbn [filter]. rewrite H1. auto.
  - unfold count_place_order; simpl; lia.
Qed.

Lemma get_step_size_trace session sym :
  count_place_order (fst (get_step_size float_of_str session sym)) = O.
Proof.
  unfold get_step_size, call, try_except, lift.
  destruct (get_instruments_info session) as [e|i]; [reflexivity|].
  step_bind. destruct (step_size_of float_of_str i sym); reflexivity.
Qed.

Lemma wallet_snapshot_trace ab :
  count_place_order (fst (wallet_snapshot float_of_str ab)) = O.
Proof.
  unfold wallet_snapshot, try_except, lift.
  destruct (read_snapshot float_of_str ab) as [e|s]; reflexivity.
Qed.

Lemma body_places_once session m :
  (count_place_order (fst (handle_body float_of_str session m)) <= 1)%nat.
Proof.
  unfold handle_body.
  apply (count_bind_le _ _ 0 1); [reflexivity|intros sg].
  apply (count_bind_le _ _ 0 1); [reflexivity|intros _].
  apply (count_bind_le _ _ 0 1);
    [rewrite get_step_size_trace; reflexivity|intros step].
  apply (count_bind_le _ _ 0 1); [reflexivity|intros ab].
  apply (count_bind_le _ _ 0 1); [reflexivity|intros _].
  apply (count_bind_le _ _ 0 1);
    [rewrite wallet_snapshot_trace; reflexivity|intros [equity balance]].
  apply size_and_place_once.
Qed.

Lemma handle_places_once session raw_text :
  (count_place_order
     (fst (handle_bot_response float_of_str session raw_text)) <= 1)%nat.
Proof.
  rewrite handle_by_body.
  pose proof (body_places_once session (bot_message_of raw_text)) as H.
  destruct (handle_body float_of_str session (bot_message_of raw_text))
    as [t [e|u]]; cbn [fst] in *; auto.
  rewrite count_place_order_app. unfold count_place_order in *; simpl; lia.
Qed.






(** C8.  Whatever the message and whatever the exchange does, the handler
    returns normally: an exception raised anywhere in its body ends up in
    one error record of the log.  A run of the listener therefore processes
    every message of the inbox: its trace is the traces of the messages one
    after the other, each of them a function of that message and of the
    answers it got alone. *)
Theorem per_signal_failures_are_contained :
  (forall session raw_text,
      handle_bot_response float_of_str session raw_text =
      match handle_body float_of_str session (bot_message_of raw_text) with
      | (t, inl e) => (t ++ say ERROR (MsgHandlerError e), ok tt)
      | (t, inr _) => (t, ok tt)
      end) /\
  (forall session raw_text,
      snd (handle_bot_response float_of_str session raw_text) = ok tt) /\
  (forall inbox,
      listen float_of_str inbox =
      (flat_map (fun '(session, raw_text) =>
                   fst (bot_message_handler float_of_str session raw_text))
         inbox,
       ok tt)).
Proof.
  assert (Hret : forall session raw_text,
             snd (handle_bot_response float_of_str session raw_text) = ok tt).
  { intros. rewrite handle_by_body.
    destruct (handle_body _ _ _) as [t [e|[]]]; reflexivity. }
  split; [|split]; auto.
  - intros. rewrite handle_by_body.
    destruct (handle_body _ _ _) as [t [e|[]]]; reflexivity.
  - induction inbox as [|[session raw_text] rest IH]; [reflexivity|].
    cbn [listen flat_map]. rewrite IH.
    unfold bot_message_handler, emit. step_bind.
    specialize (Hret session raw_text).
    destruct (handle_bot_response float_of_str session raw_text) as [t r].
    cbn [snd] in Hret. subst r. cbn [fst snd app]. step_bind.
    cbn [fst snd]. reflexivity.
Qed.

(** C4 (amended).  When the signal has been parsed and the step size and
    the wallet fetched, and the quantity computed is not above zero (it is
    zero, negative or NaN), the handler logs and prints the
    insufficient-balance message, returns normally and never calls
    [place_order]; this is so in particular whenever the step count
    [math.floor((wallet_balance / price) / step_size)] is 0. *)
Theorem insufficient_balance_is_reported
  session raw_text sg instruments step ab equity balance :
  parse_signal float_of_str (bot_message_of raw_text) = ok sg ->
  get_instruments_info session = ok instruments ->
  step_size_of float_of_str instruments (symbol sg) = ok step ->
  get_wallet_balance session = ok ab ->
  read_snapshot float_of_str ab = ok (equity, balance) ->
  (position_steps balance (price sg) step = ok 0%Z ->
   exists q, position_size balance (price sg) step = ok q /\
             PyFloat.gt_zero q = false) /\
  (forall q,
      position_size balance (price sg) step = ok q ->
      PyFloat.gt_zero q = false ->
      handle_bot_response float_of_str session raw_text =
        (fetched sg ab equity balance ++ say ERROR MsgInsufficientBalance,
         ok tt) /\
      no_place_order
        (fst (handle_bot_response float_of_str session raw_text))).
Proof.
  intros Hp Hi Hs Hw Hr. split.
  - apply zero_steps_zero_quantity.
  - intros q Hq Hz.
    assert (He : handle_bot_response float_of_str session raw_text =
                 (fetched sg ab equity balance
                  ++ say ERROR MsgInsufficientBalance, ok tt)).
    { rewrite handle_by_body.
      rewrite (body_reaches_sizing _ _ _ _ _ _ _ _ _ Hp Hi Hs Hw Hr).
      rewrite (size_and_place_insufficient _ _ _ _ _ _ Hq Hz). reflexivity. }
    split; [exact He|]. rewrite He. reflexivity.
Qed.

End OrderFacts.

(* ================================================================= *)
(** ** The login and the OTP surface *)

Section AuthFacts.

Import Auth.

Lemma count_send_code_app t t' :
  count_send_code (t ++ t') = (count_send_code t + count_send_code t')%nat.
Proof. unfold count_send_code. now rewrite filter_app, length_app. Qed.

Lemma quiet_split t1 ev t2 :
  quiet_after_sent (t1 ++ ev :: t2) = true ->
  code_request_sent ev = true ->
  count_send_code t2 = O.
Proof.
  induction t1 as [|x t1 IH]; cbn [app quiet_after_sent]; intros H Hev.
  - rewrite Hev in H. apply andb_true_iff in H as [H _].
    now apply Nat.eqb_eq in H.
  - apply andb_true_iff in H as [_ H]. auto.
Qed.

Lemma quiet_app t t' :
  quiet_after_sent t = true -> quiet_after_sent t' = true ->
  (sent_in t = true -> count_send_code t' = O) ->
  quiet_after_sent (t ++ t') = true.
Proof.
  induction t as [|ev r IH]; cbn [app quiet_after_sent]; intros H H' Hs; auto.
  apply andb_true_iff in H as [H1 H2]. apply andb_true_iff; split.
  - destruct (code_request_sent ev) eqn:E; auto.
    apply Nat.eqb_eq in H1. apply Nat.eqb_eq.
    rewrite count_send_code_app, H1, Hs; auto.
    unfold sent_in; cbn [existsb]. now rewrite E.
  - apply IH; auto. intros Hr. apply Hs.
    unfold sent_in in *; cbn [existsb]. rewrite Hr. apply orb_true_r.
Qed.

Lemma quiet_of_unsent t : sent_in t = false -> quiet_after_sent t = true.
Proof.
  induction t as [|ev r IH]; [reflexivity|].
  unfold sent_in; cbn [existsb]. intros H.
  apply orb_false_iff in H as [E1 E2].
  cbn [quiet_after_sent]. rewrite E1. auto.
Qed.

Lemma sends_well_silent n t b :
  count_send_code t = O -> sent_in t = false -> sends_well n b t b.
Proof.
  intros H1 H2. unfold sends_well. rewrite H1, H2.
  repeat split; auto using quiet_of_unsent; try lia; discriminate.
Qed.

Lemma sends_well_app n b t b' t' :
  sends_well n b t b' ->
  count_send_code t' = O -> sent_in t' = false ->
  sends_well n b (t ++ t') b'.
Proof.
  intros (Hq & Hc & Hs & Hf) H1 H2. unfold sends_well.
  split; [|split; [|split]].
  - apply quiet_app; auto using quiet_of_unsent.
  - rewrite count_send_code_app, H1. lia.
  - unfold sent_in in *. rewrite existsb_app, H2, orb_false_r. auto.
  - intros Hb. destruct (Hf Hb) as [-> Hz].
    rewrite count_send_code_app, H1, Hz. auto.
Qed.

(** [receive_otp] calls nobody and leaves the request flag alone. *)
Lemma receive_otp_quiet body g :
  count_send_code (fst (receive_otp body g)) = O /\
  sent_in (fst (receive_otp body g)) = false /\
  existsb is_sign_in (fst (receive_otp body g)) = false /\
  otp_request_sent (snd (receive_otp body g)) = otp_request_sent g.
Proof.
  unfold receive_otp.
  destruct body as [e|data]; [repeat split; reflexivity|].
  destruct (Py.truthy data); cbn [negb]; [|repeat split; reflexivity].
  destruct (contains data "otp") as [e|[]];
    [repeat split; reflexivity| |repeat split; reflexivity].
  destruct (Py.getitem data "otp"); repeat split; reflexivity.
Qed.

Lemma after_wait_quiet client g :
  count_send_code (fst (fst (after_wait client g))) = O /\
  sent_in (fst (fst (after_wait client g))) = false /\
  otp_request_sent (snd (fst (after_wait client g))) = otp_request_sent g.
Proof.
  unfold after_wait.
  destruct (Py.truthy (otp_received g)); [|repeat split; reflexivity].
  destruct (sign_in client (otp_received g)) as [[]|];
    repeat split; reflexivity.
Qed.

(** The first segment of the login sends at most one code request, none when
    the flag is set, and sets the flag when the request went through. *)
Lemma before_wait_sends_well client g :
  sends_well 1 (otp_request_sent g)
    (fst (fst (before_wait client g)))
    (otp_request_sent (snd (fst (before_wait client g)))).
Proof.
  unfold before_wait, sends_well.
  destruct (connect client) as [e|u].
  { repeat split; cbn; auto; discriminate. }
  destruct (is_user_authorized client) as [e|[]].
  1,2: repeat split; cbn; auto; discriminate.
  destruct (otp_request_sent g) eqn:Hg; cbn [negb].
  { repeat split; cbn; auto; discriminate. }
  destruct (send_code_request client) as [[]|u'];
    repeat split; cbn; auto; discriminate.
Qed.

Lemma telegram_login_sends_well client g :
  sends_well 1 (otp_request_sent g)
    (fst (fst (telegram_login client g)))
    (otp_request_sent (snd (fst (telegram_login client g)))).
Proof.
  unfold telegram_login.
  pose proof (before_wait_sends_well client g) as H.
  destruct (before_wait client g) as [[t g'] p]; cbn [fst snd] in H.
  destruct p as [b|]; [exact H|].
  destruct (login_event g'); [|exact H].
  pose proof (after_wait_quiet client g') as (Ha1 & Ha2 & Ha3).
  destruct (after_wait client g') as [[t' g''] b]; cbn [fst snd] in *.
  rewrite Ha3. now apply sends_well_app.
Qed.

Lemma step_sends a s :
  sends_well (if is_call_login a then 1 else 0)
    (requested s) (fst (step a s)) (requested (snd (step a s))).
Proof.
  unfold requested. destruct a as [client|body|]; cbn [step is_call_login].
  - pose proof (telegram_login_sends_well client (vars s)) as H.
    destruct (login s) eqn:Hl; [|now apply sends_well_silent|];
      destruct (telegram_login client (vars s)) as [[t g] p];
      exact H.
  - pose proof (receive_otp_quiet body (vars s)) as (H1 & H2 & _ & H4).
    destruct (receive_otp body (vars s)) as [t g]; cbn [fst snd vars] in *.
    rewrite H4. now apply sends_well_silent.
  - destruct (login s) eqn:Hl; try (now apply sends_well_silent).
    destruct (login_event (vars s)); [|now apply sends_well_silent].
    unfold resume.
    pose proof (after_wait_quiet client (vars s)) as (Ha1 & Ha2 & Ha3).
    destruct (after_wait client (vars s)) as [[t' g'] b]; cbn [fst snd vars] in *.
    rewrite Ha3. now apply sends_well_silent.
Qed.

Lemma run_cons a acts s :
  run (a :: acts) s =
  (fst (step a s) ++ fst (run acts (snd (step a s))),
   snd (run acts (snd (step a s)))).
Proof.
  cbn [run]. destruct (step a s) as [t s']. cbn [fst snd].
  destruct (run acts s') as [t' s'']. reflexivity.
Qed.

(** Once the flag is set, no run issues a code request. *)
Lemma run_requested acts s :
  requested s = true ->
  count_send_code (fst (run acts s)) = O /\
  requested (snd (run acts s)) = true.
Proof.
  revert s; induction acts as [|a acts IH]; intros s Hs; [auto|].
  rewrite run_cons; cbn [fst snd].
  destruct (step_sends a s) as (_ & _ & _ & Hf).
  destruct (Hf Hs) as [Hs' Hc].
  destruct (IH _ Hs') as [Hc' Hr].
  rewrite count_send_code_app, Hc, Hc'. auto.
Qed.

Lemma run_quiet acts s : quiet_after_sent (fst (run acts s)) = true.
Proof.
  revert s; induction acts as [|a acts IH]; intros s; [reflexivity|].
  rewrite run_cons; cbn [fst].
  destruct (step_sends a s) as (Hq & _ & Hs & _).
  apply quiet_app; auto.
  intros H. now apply run_requested, Hs.
Qed.

Lemma run_count acts s :
  (count_send_code (fst (run acts s)) <= count_logins acts)%nat.
Proof.
  revert s; induction acts as [|a acts IH]; intros s; [cbn; lia|].
  rewrite run_cons; cbn [fst]. rewrite count_send_code_app.
  destruct (step_sends a s) as (_ & Hc & _ & _).
  specialize (IH (snd (step a s))).
  unfold count_logins in *. cbn [filter].
  destruct (is_call_login a); cbn [List.length] in *; lia.
Qed.

(** C7 (amended).  In every run of the login and the OTP surface, from every
    state: no code request is issued after the record that one went
    through; none at all when the flag is already set; and never more than
    one per call of the login, hence at most one in the process as [main]
    runs it, with its single call. *)
Theorem no_code_request_after_a_successful_one acts s :
  (forall t1 t2,
      fst (run acts s) = t1 ++ Log INFO MsgCodeRequestSent :: t2 ->
      count_send_code t2 = O) /\
  (requested s = true -> count_send_code (fst (run acts s)) = O) /\
  (count_send_code (fst (run acts s)) <= count_logins acts)%nat.
Proof.
  split; [|split].
  - intros t1 t2 H. apply (quiet_split t1 (Log INFO MsgCodeRequestSent) t2);
      [|reflexivity].
    rewrite <- H. apply run_quiet.
  - intros H. now apply run_requested.
  - apply run_count.
Qed.

Lemma receive_otp_object d otp g :
  Py.lookup "otp" d = Some otp ->
  receive_otp (ok (PDict d)) g =
  (say INFO (MsgOtpReceived otp) ++ [Respond (OtpAccepted otp)], delivered otp g).
Proof.
  intros H. unfold receive_otp, ok.
  destruct d as [|kv d']; [discriminate|].
  cbn [Py.truthy negb contains Py.getitem]. rewrite H. reflexivity.
Qed.



(** C10.  An empty string posted as the OTP while the login waits is
    answered as accepted, with status 200, and sets the event; the resumed
    login finds the pending OTP false, makes no [sign_in] call, logs that
    the OTP was not received and returns [False], which [main] reports as a
    permanent failure. *)
Theorem empty_otp_is_accepted_then_fails client g d :
  Py.lookup "otp" d = Some (PStr "") ->
  step (PostOtp (ok (PDict d))) {| vars := g; login := Waiting client |} =
    (say INFO (MsgOtpReceived (PStr "")) ++ [Respond (OtpAccepted (PStr ""))],
     {| vars := delivered (PStr "") g; login := Waiting client |}) /\
  status_code (OtpAccepted (PStr "")) = 200%Z /\
  run [PostOtp (ok (PDict d)); Resume] {| vars := g; login := Waiting client |} =
    (say INFO (MsgOtpReceived (PStr "")) ++ [Respond (OtpAccepted (PStr ""))]
     ++ say ERROR MsgOtpNotReceived,
     {| vars := delivered (PStr "") g; login := Done false |}) /\
  existsb is_sign_in
    (fst (run [PostOtp (ok (PDict d)); Resume]
            {| vars := g; login := Waiting client |})) = false /\
  main_report false =
    [Print MsgLoginFailedPermanently; Log ERROR MsgLoginFailedPermanently].
Proof.
  intros H.
  assert (Hs : step (PostOtp (ok (PDict d)))
                 {| vars := g; login := Waiting client |} =
    (say INFO (MsgOtpReceived (PStr "")) ++ [Respond (OtpAccepted (PStr ""))],
     {| vars := delivered (PStr "") g; login := Waiting client |})).
  { cbn [step vars login]. now rewrite (receive_otp_object _ _ _ H). }
  assert (Hr : run [PostOtp (ok (PDict d)); Resume]
                 {| vars := g; login := Waiting client |} =
    (say INFO (MsgOtpReceived (PStr "")) ++ [Respond (OtpAccepted (PStr ""))]
     ++ say ERROR MsgOtpNotReceived,
     {| vars := delivered (PStr "") g; login := Done false |})).
  { cbn [run]. rewrite Hs. reflexivity. }
  rewrite Hr. repeat split; auto.
Qed.

End AuthFacts.

(* ================================================================= *)
(** ** The properties on concrete inputs *)

Section Examples.

Import Sample.
Local Open Scope Z_scope.

(** The reader gives the doubles Python prints as 0.9, 0.0009, 0.001 and
    0.02. *)
Example dec_values :
  dec "0.9" = S754_finite false 8106479329266893 (-53) /\
  dec "0.0009" = S754_finite false 8301034833169298 (-63) /\
  dec "0.001" = S754_finite false 4611686018427388 (-62) /\
  dec "0.02" = S754_finite false 5764607523034235 (-58).
Proof. repeat split; reflexivity. Qed.

(** End-to-end scenario 1: a balance of 1000 at a price of 50000 with a
    step of 0.001 gives 20 steps and a quantity of 0.02, and the order is
    placed with it. *)
Example scenario_order_placed :
  position_steps (dec "1000") (dec "50000") (dec "0.001") = ok 20 /\
  position_size (dec "1000") (dec "50000") (dec "0.001") = ok (dec "0.02") /\
  filter is_place_order
    (fst (handle_bot_response Decimal.float_of_decimal
            (scenario "1000" 0 "OK") btc_text))
  = [PlaceOrder (make_order_params btc_signal (dec "0.02"))] /\
  trade_reported
    (fst (handle_bot_response Decimal.float_of_decimal
            (scenario "1000" 0 "OK") btc_text)) = true.
Proof. repeat split; vm_compute; reflexivity. Qed.

(** End-to-end scenario 4: a status code that is not zero is logged with
    the message of the exchange, and the next message is processed as
    usual. *)
Example scenario_order_rejected :
  handle_bot_response Decimal.float_of_decimal
    (scenario "1000" 10001 "params error") btc_text =
    (fetched btc_signal (wallet (accounts_list "1000")) (dec "1000") (dec "1000")
     ++ [Log INFO (MsgPlacingOrder (make_order_params btc_signal (dec "0.02")));
         PlaceOrder (make_order_params btc_signal (dec "0.02"))]
     ++ say ERROR (MsgOrderRetMsg (PStr "params error")),
     ok tt) /\
  listen Decimal.float_of_decimal
    [(scenario "1000" 10001 "params error", btc_text);
     (scenario "1000" 0 "OK", btc_text)] =
    (fst (bot_message_handler Decimal.float_of_decimal
            (scenario "1000" 10001 "params error") btc_text)
     ++ fst (bot_message_handler Decimal.float_of_decimal
               (scenario "1000" 0 "OK") btc_text),
     ok tt).
Proof. split; vm_compute; reflexivity. Qed.

Lemma position_size_rounds_down_witness :
  exists q,
    position_quotient (dec "1000") (dec "50000") (dec "0.001") = ok q /\
    (PyFloat.is_finite q = false ->
     position_size (dec "1000") (dec "50000") (dec "0.001")
       = raise OverflowError) /\
    (PyFloat.is_finite q = true ->
     exists n fn,
       position_steps (dec "1000") (dec "50000") (dec "0.001") = ok n /\
       0 <= n /\ PyFloat.of_int n = ok fn /\
       position_size (dec "1000") (dec "50000") (dec "0.001")
         = ok (PyFloat.mul fn (dec "0.001")) /\
       PyFloat.nonneg (PyFloat.mul fn (dec "0.001")) = true).
Proof.
  apply (position_size_rounds_down (dec "1000") (dec "50000") (dec "0.001"));
    vm_compute; reflexivity.
Defined.

(** The quotient does overflow: 2^1023 divided by 2^-1000. *)
Example position_size_overflows :
  position_quotient (S754_finite false 4503599627370496 971)
                    (S754_finite false 4503599627370496 (-1052))
                    (dec "0.001")
    = ok (S754_infinity false) /\
  position_size (S754_finite false 4503599627370496 971)
                (S754_finite false 4503599627370496 (-1052))
                (dec "0.001")
    = raise OverflowError.
Proof. split; vm_compute; reflexivity. Qed.

(** C1, as stated, fails twice.  With a wallet balance of 0.0009, a price of
    0.9 and a step of 0.001 the quantity is 0.001, and [qty * price], be it
    rounded as Python rounds it or taken exactly, is above the wallet
    balance.  With a wallet balance of -1 the quantity is -1. *)
Lemma position_size_claim_fails :
  PyFloat.gt_zero (dec "0.9") = true /\
  PyFloat.gt_zero (dec "0.001") = true /\
  position_size (dec "0.0009") (dec "0.9") (dec "0.001") = ok (dec "0.001") /\
  PyFloat.leb (PyFloat.mul (dec "0.001") (dec "0.9")) (dec "0.0009") = false /\
  (exists w p q,
      PyFloat.to_Q (dec "0.0009") = Some w /\
      PyFloat.to_Q (dec "0.9") = Some p /\
      PyFloat.to_Q (dec "0.001") = Some q /\
      (w < q * p)%Q) /\
  position_size (dec "-1") (dec "1") (dec "1") = ok (dec "-1") /\
  PyFloat.nonneg (dec "-1") = false.
Proof.
  repeat (split; [vm_compute; reflexivity|]).
  split; [|split; vm_compute; reflexivity].
  do 3 eexists.
  repeat (split; [reflexivity|]).
  vm_compute. reflexivity.
Qed.

Lemma malformed_signal_is_dropped_witness :
  exists msg,
    parse_signal Decimal.float_of_decimal (bot_message_of no_take_profit_text)
      = raise (ValueError msg) /\
    handle_bot_response Decimal.float_of_decimal
      (scenario "1000" 0 "OK") no_take_profit_text =
      (say ERROR (MsgHandlerError (ValueError msg)), ok tt) /\
    no_exchange_call
      (fst (handle_bot_response Decimal.float_of_decimal
              (scenario "1000" 0 "OK") no_take_profit_text)).
Proof.
  apply (malformed_signal_is_dropped Decimal.float_of_decimal
           (scenario "1000" 0 "OK") no_take_profit_text).
  left. exists "Take Profit:"%string. split; [simpl; auto|].
  vm_compute. reflexivity.
Defined.

Lemma zero_or_empty_field_is_malformed_witness :
  exists msg,
    parse_signal Decimal.float_of_decimal (bot_message_of zero_price_text)
      = raise (ValueError msg) /\
    ((exists f,
         parse_parts Decimal.float_of_decimal
           (PyStr.split PyStr.newline (bot_message_of zero_price_text))
           no_fields = ok f) ->
     msg = "Invalid message format received from the bot"%string) /\
    handle_bot_response Decimal.float_of_decimal
      (scenario "1000" 0 "OK") zero_price_text =
      (say ERROR (MsgHandlerError (ValueError msg)), ok tt) /\
    no_exchange_call
      (fst (handle_bot_response Decimal.float_of_decimal
              (scenario "1000" 0 "OK") zero_price_text)).
Proof.
  apply (zero_or_empty_field_is_malformed Decimal.float_of_decimal
           (scenario "1000" 0 "OK") zero_price_text).
  right. exists "Price:"%string, "Price: 0"%string, (S754_zero false).
  split; [simpl; auto|]. split; [|split; reflexivity].
  exists ["Symbol: BTCUSDT"%string],
         ["Stop Loss: 49000"%string; "Take Profit: 52000"%string].
  repeat split; vm_compute; reflexivity.
Defined.

Lemma insufficient_balance_is_reported_witness :
  handle_bot_response Decimal.float_of_decimal (scenario "10" 0 "OK") btc_text =
    (fetched btc_signal (wallet (accounts_list "10")) (dec "10") (dec "10")
     ++ say ERROR MsgInsufficientBalance, ok tt) /\
  no_place_order
    (fst (handle_bot_response Decimal.float_of_decimal
            (scenario "10" 0 "OK") btc_text)).
Proof.
  apply (proj2 (insufficient_balance_is_reported Decimal.float_of_decimal
                  (scenario "10" 0 "OK") btc_text btc_signal instruments
                  (dec "0.001") (wallet (accounts_list "10"))
                  (dec "10") (dec "10")
                  eq_refl eq_refl eq_refl eq_refl eq_refl)
          (S754_zero false));
    vm_compute; reflexivity.
Defined.

(** C4, as stated, fails: the wallet balance 0.0009 is below
    [price * step_size] for a price of 0.9 and a step of 0.001, rounded or
    exact, and the order is placed all the same, with a quantity of 0.001. *)
Lemma order_placed_below_one_step :
  parse_signal Decimal.float_of_decimal (bot_message_of cheap_text)
    = ok cheap_signal /\
  step_size_of Decimal.float_of_decimal instruments "XYZUSDT" = ok (dec "0.001") /\
  read_snapshot Decimal.float_of_decimal (wallet (accounts_list "0.0009"))
    = ok (dec "0.0009", dec "0.0009") /\
  PyFloat.ltb (dec "0.0009") (PyFloat.mul (dec "0.9") (dec "0.001")) = true /\
  (exists w p s,
      PyFloat.to_Q (dec "0.0009") = Some w /\
      PyFloat.to_Q (dec "0.9") = Some p /\
      PyFloat.to_Q (dec "0.001") = Some s /\
      (w < p * s)%Q) /\
  filter is_place_order
    (fst (handle_bot_response Decimal.float_of_decimal
            (scenario "0.0009" 0 "OK") cheap_text))
  = [PlaceOrder (make_order_params cheap_signal (dec "0.001"))].
Proof.
  repeat (split; [vm_compute; reflexivity|]).
  split; [|vm_compute; reflexivity].
  do 3 eexists.
  repeat (split; [reflexivity|]).
  vm_compute. reflexivity.
Qed.



Lemma wallet_shape_does_not_matter_witness :
  read_snapshot Decimal.float_of_decimal (wallet (accounts_record "1000.5"))
    = ok (dec "1000.5", dec "1000.5") /\
  read_snapshot Decimal.float_of_decimal (wallet (accounts_list "1000.5"))
    = ok (dec "1000.5", dec "1000.5") /\
  exists e,
    read_snapshot Decimal.float_of_decimal (wallet accounts_without_usdt)
      = raise e.
Proof.
  assert (Hh : holds_first
                 (PDict [("accountType", PStr "UNIFIED");
                         ("coin", usdt "1000.5")])
                 (usdt "1000.5")).
  { split; [reflexivity|]. eexists. split; [reflexivity|]. now left. }
  destruct (proj1 (proj2 (proj2 (wallet_shape_does_not_matter
                                   Decimal.float_of_decimal
                                   (wallet (accounts_record "1000.5"))
                                   (wallet (accounts_list "1000.5"))
                                   (accounts_record "1000.5")
                                   eq_refl eq_refl)))
              [] _ [] (usdt "1000.5") (dec "1000.5") (dec "1000.5")
              eq_refl eq_refl Hh
              ltac:(vm_compute; reflexivity) ltac:(vm_compute; reflexivity))
    as (_ & _ & H1 & H2 & _).
  split; [exact H1|]. split; [exact H2|].
  destruct (proj2 (proj2 (proj2 (proj2 (wallet_shape_does_not_matter
                                          Decimal.float_of_decimal
                                          (wallet accounts_without_usdt)
                                          (wallet accounts_without_usdt)
                                          accounts_without_usdt
                                          eq_refl eq_refl))))
              eq_refl) as (e & He & _).
  exists e. exact He.
Defined.

(** The snapshot both shapes give. *)
Example wallet_snapshot_value :
  read_snapshot Decimal.float_of_decimal (wallet (accounts_record "1000.5"))
    = ok (dec "1000.5", dec "1000.5") /\
  read_snapshot Decimal.float_of_decimal (wallet (accounts_list "1000.5"))
    = ok (dec "1000.5", dec "1000.5").
Proof. split; vm_compute; reflexivity. Qed.



(** C7, as stated, fails: a login whose code request is refused leaves the
    flag clear, and the login entered again issues a second request. *)
Lemma failed_code_request_is_repeated :
  Auth.count_send_code
    (fst (Auth.run [Auth.CallLogin client_flood; Auth.CallLogin client_flood]
            Auth.start)) = 2%nat /\
  requested
    (snd (Auth.run [Auth.CallLogin client_flood] Auth.start)) = false.
Proof. split; reflexivity. Qed.

Lemma no_code_request_after_a_successful_one_witness :
  Auth.count_send_code
    (fst (Auth.run [Auth.CallLogin client_ok; Auth.CallLogin client_flood]
            signed_in)) = 0%nat.
Proof.
  exact (proj1 (proj2 (no_code_request_after_a_successful_one
                         [Auth.CallLogin client_ok; Auth.CallLogin client_flood]
                         signed_in)) eq_refl).
Defined.

(** After a request that went through, the login entered again asks for no
    second code. *)
Example reentry_after_success :
  Auth.count_send_code
    (fst (Auth.run [Auth.CallLogin client_ok;
                    Auth.PostOtp (ok (PDict (otp_body "12345")));
                    Auth.Resume;
                    Auth.CallLogin client_ok]
            Auth.start)) = 1%nat.
Proof. reflexivity. Qed.

Lemma empty_otp_is_accepted_then_fails_witness :
  Auth.run [Auth.PostOtp (ok (PDict (otp_body ""))); Auth.Resume] waiting =
    (say INFO (MsgOtpReceived (PStr "")) ++ [Respond (OtpAccepted (PStr ""))]
     ++ say ERROR MsgOtpNotReceived,
     {| Auth.vars := delivered (PStr "") code_requested;
        Auth.login := Auth.Done false |}).
Proof.
  exact (proj1 (proj2 (proj2 (empty_otp_is_accepted_then_fails client_ok
                                code_requested (otp_body "") eq_refl)))).
Defined.

End Examples.

(* ================================================================= *)
(** ** The outcomes of a message *)

Section Outcomes.

Variable float_of_str : string -> option PyFloat.float.

Lemma get_step_size_error session sym e :
  snd (get_step_size float_of_str session sym) = raise e ->
  get_step_size float_of_str session sym =
  ([GetInstrumentsInfo; Log ERROR (MsgStepSizeError e)], raise e).
Proof.
  unfold get_step_size, call, lift, bind, try_except, emit, throw.
  destruct (get_instruments_info session) as [e'|i]; cbn.
  - intros H; inversion H; reflexivity.
  - destruct (step_size_of float_of_str i sym) as [e'|s]; cbn.
    + intros H; inversion H; reflexivity.
    + discriminate.
Qed.

Lemma get_step_size_fetched session sym step :
  snd (get_step_size float_of_str session sym) = ok step ->
  exists instruments,
    get_instruments_info session = ok instruments /\
    step_size_of float_of_str instruments sym = ok step.
Proof.
  unfold get_step_size, call, lift, bind, try_except, emit, throw.
  destruct (get_instruments_info session) as [e'|i]; cbn; [discriminate|].
  destruct (step_size_of float_of_str i sym) as [e'|s] eqn:E; cbn;
    [discriminate|].
  intros H; inversion H; subst. eauto.
Qed.

Lemma body_parse_failure session m e :
  parse_signal float_of_str m = raise e ->
  handle_body float_of_str session m = ([], raise e).
Proof. intros H. unfold handle_body, lift. rewrite H. reflexivity. Qed.

Lemma body_step_size_failure session m sg e :
  parse_signal float_of_str m = ok sg ->
  snd (get_step_size float_of_str session (symbol sg)) = raise e ->
  handle_body float_of_str session m =
  (say INFO (extracted sg)
   ++ [GetInstrumentsInfo; Log ERROR (MsgStepSizeError e)], raise e).
Proof.
  intros Hp He. unfold handle_body.
  unfold lift at 1. rewrite Hp. step_bind.
  rewrite log_print_say. step_bind.
  rewrite (get_step_size_error _ _ _ He). reflexivity.
Qed.

Lemma body_wallet_fetch_failure session m sg instruments step e :
  parse_signal float_of_str m = ok sg ->
  get_instruments_info session = ok instruments ->
  step_size_of float_of_str instruments (symbol sg) = ok step ->
  get_wallet_balance session = raise e ->
  handle_body float_of_str session m =
  (say INFO (extracted sg) ++ [GetInstrumentsInfo; GetWalletBalance], raise e).
Proof.
  intros Hp Hi Hs Hw. unfold handle_body.
  unfold lift at 1. rewrite Hp. step_bind.
  rewrite log_print_say. step_bind.
  rewrite (get_step_size_ok _ _ _ _ _ Hi Hs). step_bind.
  unfold call. rewrite Hw. reflexivity.
Qed.

(** Whatever [place_order] answers, the attempt leaves the call and one
    record, logged and printed. *)
Lemma submit_order_says session sg q equity balance :
  exists lv m,
    submit_order session sg q equity balance =
    (PlaceOrder (make_order_params sg q) :: say lv m, ok tt).
Proof.
  unfold submit_order, call, try_except, bind, lift.
  destruct (place_order session (make_order_params sg q)) as [e|order];
    cbv beta iota; [do 2 eexists; reflexivity|].
  destruct (Py.getitem order "retCode") as [e|code];
    cbv beta iota; [do 2 eexists; reflexivity|].
  destruct (Py.eq_zero code);
    [ destruct (format_trade_details _ _ _ _ _ _ _ _)
    | destruct (Py.getitem order "retMsg") ];
    cbv beta iota; do 2 eexists; reflexivity.
Qed.

Lemma size_and_place_failure session sg step equity balance e :
  position_size balance (price sg) step = raise e ->
  size_and_place session sg step equity balance = ([], raise e).
Proof. intros H. unfold size_and_place, lift. rewrite H. reflexivity. Qed.

Lemma size_and_place_order session sg step equity balance q :
  position_size balance (price sg) step = ok q ->
  PyFloat.gt_zero q = true ->
  size_and_place session sg step equity balance =
  (Log INFO (MsgPlacingOrder (make_order_params sg q))
     :: fst (submit_order session sg q equity balance),
   snd (submit_order session sg q equity balance)).
Proof.
  intros Hq Hz. unfold size_and_place, lift. rewrite Hq. step_bind.
  rewrite Hz. unfold emit. step_bind. reflexivity.
Qed.

(** Every run of the handler ends in one of the seven outcomes. *)
Lemma handler_outcome session raw_text :
  outcome float_of_str session raw_text
    (fst (handle_bot_response float_of_str session raw_text)).
Proof.
  rewrite handle_by_body.
  destruct (parse_signal float_of_str (bot_message_of raw_text))
    as [e|sg] eqn:Hp.
  { rewrite (body_parse_failure _ _ _ Hp). now apply ParseFailed. }
  destruct (snd (get_step_size float_of_str session (symbol sg)))
    as [e|step] eqn:Hg.
  { rewrite (body_step_size_failure _ _ _ _ Hp Hg).
    cbv beta iota delta [raise fst].
    rewrite <- app_assoc. now apply StepSizeFailed. }
  destruct (get_step_size_fetched _ _ _ Hg) as (instruments & Hi & Hs).
  destruct (get_wallet_balance session) as [e|ab] eqn:Hw.
  { rewrite (body_wallet_fetch_failure _ _ _ _ _ _ Hp Hi Hs Hw).
    cbv beta iota delta [raise fst].
    rewrite <- app_assoc. now apply (WalletFetchFailed _ _ _ sg instruments step). }
  destruct (read_snapshot float_of_str ab) as [e|[equity balance]] eqn:Hr.
  { rewrite (body_wallet_failure _ _ _ _ _ _ _ _ Hp Hi Hs Hw Hr).
    cbv beta iota delta [raise fst].
    rewrite <- app_assoc.
    now apply (WalletReadFailed _ _ _ sg instruments step). }
  rewrite (body_reaches_sizing _ _ _ _ _ _ _ _ _ Hp Hi Hs Hw Hr).
  destruct (position_size balance (price sg) step) as [e|q] eqn:Hq.
  { rewrite (size_and_place_failure _ _ _ _ _ _ Hq).
    cbv beta iota delta [raise fst snd]. rewrite app_nil_r.
    now apply (SizingFailed _ _ _ sg instruments step). }
  destruct (PyFloat.gt_zero q) eqn:Hz.
  - rewrite (size_and_place_order _ _ _ _ _ _ Hq Hz).
    destruct (submit_order_says session sg q equity balance) as (lv & m & Hsub).
    rewrite Hsub. cbv beta iota delta [ok fst snd].
    change (fetched sg ab equity balance
            ++ Log INFO (MsgPlacingOrder (make_order_params sg q))
               :: PlaceOrder (make_order_params sg q) :: say lv m)
      with (fetched sg ab equity balance
            ++ [Log INFO (MsgPlacingOrder (make_order_params sg q));
                PlaceOrder (make_order_params sg q)] ++ say lv m).
    now apply (OrderSubmitted _ _ _ sg instruments step ab equity balance q lv m).
  - rewrite (size_and_place_insufficient _ _ _ _ _ _ Hq Hz).
    cbv beta iota delta [ok fst snd].
    now apply (BalanceInsufficient _ _ _ sg instruments step ab equity balance q).
Qed.

(** X1.  The handler calls the exchange in one order only: the instruments,
    then the wallet, then the order endpoint.  The calls of a run are a
    prefix of these three, so no call is repeated and no order is sent
    before the instruments and the wallet were asked for. *)
Theorem exchange_calls_come_in_order session raw_text :
  let calls :=
    exchange_calls (fst (handle_bot_response float_of_str session raw_text)) in
  calls = [] \/
  calls = [GetInstrumentsInfo] \/
  calls = [GetInstrumentsInfo; GetWalletBalance] \/
  exists p, calls = [GetInstrumentsInfo; GetWalletBalance; PlaceOrder p].
Proof.
  cbv zeta.
  destruct (handler_outcome session raw_text);
    unfold exchange_calls, fetched, say, extracted;
    cbn [app filter is_exchange_call]; eauto.
Qed.

(** X2.  An order that reaches the exchange is a limit buy, good till
    cancelled, in the linear category, for the symbol, price, stop loss and
    take profit of the parsed signal; its quantity is the one computed from
    the wallet balance read, the price and the step size fetched, and is
    above zero. *)
Theorem placed_order_is_a_sized_limit_buy session raw_text p :
  In (PlaceOrder p) (fst (handle_bot_response float_of_str session raw_text)) ->
  exists sg instruments step ab equity balance,
    parse_signal float_of_str (bot_message_of raw_text) = ok sg /\
    get_instruments_info session = ok instruments /\
    step_size_of float_of_str instruments (symbol sg) = ok step /\
    get_wallet_balance session = ok ab /\
    read_snapshot float_of_str ab = ok (equity, balance) /\
    position_size balance (price sg) step = ok (op_qty p) /\
    PyFloat.gt_zero (op_qty p) = true /\
    p = {| op_category := "linear";
           op_symbol := symbol sg;
           op_side := "Buy";
           op_order_type := "Limit";
           op_qty := op_qty p;
           op_price := price sg;
           op_time_in_force := "GTC";
           op_stopLoss := stop_loss_price sg;
           op_takeProfit := take_profit_price sg |}.
Proof.
  intros Hin.
  destruct (handler_outcome session raw_text);
    unfold fetched, say, extracted in Hin; cbn [app In] in Hin;
    repeat (destruct Hin as [Hin|Hin]; try discriminate Hin);
    try contradiction.
  injection Hin as <-.
  exists sg, instruments, step, ab, equity, balance.
  cbn [make_order_params op_qty]. repeat split; assumption.
Qed.

End Outcomes.

(* ================================================================= *)
(** ** Lines, labels and quotes *)

Section TextFacts.

Lemma free_of_cons sub c s :
  free_of sub (String c s) ->
  String.prefix sub (String c s) = false /\ free_of sub s.
Proof.
  unfold free_of. cbn [Auth.str_contains]. intros H.
  apply orb_false_iff in H. exact H.
Qed.

(** Where [old] does not occur, [replace] changes nothing. *)
Lemma replace_free old new s :
  free_of old s -> PyStr.replace s old new = s.
Proof.
  unfold PyStr.replace. induction s as [|c r IH]; intros H; [reflexivity|].
  apply free_of_cons in H as [Hp Hr].
  cbn [PyStr.replace_from]. rewrite Hp, (IH Hr). reflexivity.
Qed.

Lemma free_of_newline c s :
  free_of Sample.nl (String c s) ->
  Ascii.eqb c PyStr.newline = false /\ free_of Sample.nl s.
Proof.
  intros H. apply free_of_cons in H as [Hp Hr]. split; [|exact Hr].
  unfold Sample.nl in Hp. cbn [String.prefix] in Hp.
  destruct (Ascii.eqb c PyStr.newline) eqn:E; [|reflexivity].
  apply Ascii.eqb_eq in E. subst c.
  destruct (ascii_dec PyStr.newline PyStr.newline) as [_|n];
    [|now elim n].
  destruct s; discriminate Hp.
Qed.

(** A text without a newline is one line. *)
Lemma split_one_line a :
  free_of Sample.nl a -> PyStr.split PyStr.newline a = [a].
Proof.
  induction a as [|c r IH]; intros H; [reflexivity|].
  apply free_of_newline in H as [Hc Hr].
  cbn [PyStr.split]. rewrite Hc, (IH Hr). reflexivity.
Qed.

Lemma split_first_line a b :
  free_of Sample.nl a ->
  PyStr.split PyStr.newline (a ++ String PyStr.newline b)
  = a :: PyStr.split PyStr.newline b.
Proof.
  induction a as [|c r IH]; intros H.
  - cbn [String.append PyStr.split]. rewrite Ascii.eqb_refl. reflexivity.
  - apply free_of_newline in H as [Hc Hr].
    cbn [String.append PyStr.split]. rewrite Hc, (IH Hr). reflexivity.
Qed.

(** Joining lines with newlines and splitting again gives the lines back. *)
Lemma split_concat line lines :
  Forall (free_of Sample.nl) (line :: lines) ->
  PyStr.split PyStr.newline (String.concat Sample.nl (line :: lines))
  = line :: lines.
Proof.
  revert line. induction lines as [|l ls IH]; intros line H.
  - cbn [String.concat]. apply split_one_line. now inversion H.
  - inversion H as [|? ? H1 H2]; subst.
    change (String.concat Sample.nl (line :: l :: ls))
      with (line ++ String PyStr.newline (String.concat Sample.nl (l :: ls)))%string.
    rewrite (split_first_line _ _ H1), (IH l H2). reflexivity.
Qed.

Lemma lstrip_by_end p t q :
  p q = true ->
  PyStr.lstrip_by p (t ++ String q "") =
  match PyStr.lstrip_by p t with
  | "" => ""
  | u => (u ++ String q "")%string
  end.
Proof.
  intros Hq. induction t as [|c r IH].
  - cbn. rewrite Hq. reflexivity.
  - cbn [String.append PyStr.lstrip_by]. destruct (p c); [exact IH|reflexivity].
Qed.

Lemma rstrip_by_end p u q :
  p q = true ->
  PyStr.rstrip_by p (u ++ String q "") = PyStr.rstrip_by p u.
Proof.
  intros Hq. induction u as [|c r IH].
  - cbn. rewrite Hq. reflexivity.
  - cbn [String.append PyStr.rstrip_by]. rewrite IH. reflexivity.
Qed.

(** Line 102 on a text between double quotes. *)
Lemma bot_message_of_quoted text :
  bot_message_of (quoted text) = bot_message_of text.
Proof.
  unfold bot_message_of, quoted. f_equal.
  unfold PyStr.strip_char, PyStr.strip_by.
  cbn [PyStr.lstrip_by]. rewrite Ascii.eqb_refl.
  rewrite lstrip_by_end by apply Ascii.eqb_refl.
  destruct (PyStr.lstrip_by (Ascii.eqb PyStr.dquote) text) as [|c u];
    [reflexivity|].
  apply rstrip_by_end, Ascii.eqb_refl.
Qed.

(** X3.  A text wrapped in one pair of double quotes is handled exactly as
    the bare text is: the same calls, the same records, the same result. *)
Theorem quoted_text_is_handled_as_bare_text
  float_of_str session text :
  handle_bot_response float_of_str session (quoted text)
  = handle_bot_response float_of_str session text.
Proof.
  unfold handle_bot_response. rewrite bot_message_of_quoted. reflexivity.
Qed.

End TextFacts.

(* ================================================================= *)
(** ** What a parsed signal was read from *)

Section ParseFacts.

Variable float_of_str : string -> option PyFloat.float.

(** A label that occurs has a last line. *)
Lemma has_label_last parts label :
  has_label parts label = true -> exists part, last_line parts label part.
Proof.
  induction parts as [|p ps IH]; [discriminate|].
  intros H. destruct (has_label ps label) eqn:E.
  - destruct (IH eq_refl) as (part & pre & post & -> & Hs & Hp).
    exists part, (p :: pre), post. repeat split; assumption.
  - unfold has_label in H, E. cbn [existsb] in H. rewrite E in H.
    rewrite orb_false_r in H.
    exists p, [], ps. repeat split; assumption.
Qed.

Lemma last_line_in parts label part :
  last_line parts label part ->
  In part parts /\ PyStr.startswith part label = true.
Proof.
  intros (pre & post & -> & Hs & _). split; [|exact Hs].
  apply in_or_app. right. now left.
Qed.

(** A loop that ran to its end read every labeled number. *)
Lemma parse_parts_read parts acc f part label :
  parse_parts float_of_str parts acc = ok f ->
  In part parts -> In label numeric_labels ->
  PyStr.startswith part label = true ->
  exists x, float_of_str (field_text part label) = Some x.
Proof.
  intros Hf Hin Hl Hs.
  destruct (float_of_str (field_text part label)) as [x|] eqn:E; [eauto|].
  rewrite (parse_parts_unparsable _ _ _ _ _ Hin Hl Hs E) in Hf.
  discriminate Hf.
Qed.

Lemma field_value_label parts f label :
  In label labels ->
  parse_parts float_of_str parts no_fields = ok f ->
  field_value f label <> None ->
  has_label parts label = true.
Proof.
  intros Hl Hf Hv. destruct (has_label parts label) eqn:E; [reflexivity|].
  rewrite (parse_parts_keeps_value _ _ _ _ _ Hl E Hf) in Hv.
  exfalso. apply Hv.
  cbn [labels In] in Hl.
  destruct Hl as [<-|[<-|[<-|[<-|[]]]]]; reflexivity.
Qed.

Lemma parsed_number parts f label x :
  In label numeric_labels ->
  parse_parts float_of_str parts no_fields = ok f ->
  field_value f label = Some (inr x) ->
  exists part,
    last_line parts label part /\
    float_of_str (field_text part label) = Some x.
Proof.
  intros Hl Hf Hv.
  assert (Hl' : In label labels) by (right; exact Hl).
  assert (Hh : has_label parts label = true).
  { apply (field_value_label parts f label Hl' Hf). rewrite Hv. discriminate. }
  destruct (has_label_last _ _ Hh) as (part & Hlast).
  exists part. split; [exact Hlast|].
  destruct (last_line_in _ _ _ Hlast) as [Hin Hs].
  destruct (parse_parts_read _ _ _ _ _ Hf Hin Hl Hs) as (y & Hy).
  assert (Hy' : field_value f label = Some (inr y)).
  { apply (parse_parts_last float_of_str parts label part no_fields f);
      try assumption.
    intros acc0. now apply parse_part_reads_number. }
  rewrite Hv in Hy'. injection Hy' as <-. exact Hy.
Qed.

Lemma parsed_symbol parts f s :
  parse_parts float_of_str parts no_fields = ok f ->
  f_symbol f = Some s ->
  exists part,
    last_line parts "Symbol:" part /\ s = field_text part "Symbol:".
Proof.
  intros Hf Hv.
  assert (Hl : In "Symbol:" labels) by now left.
  assert (Hv' : field_value f "Symbol:" = Some (inl s)).
  { unfold field_value. cbn. rewrite Hv. reflexivity. }
  assert (Hh : has_label parts "Symbol:" = true).
  { apply (field_value_label parts f _ Hl Hf). rewrite Hv'. discriminate. }
  destruct (has_label_last _ _ Hh) as (part & Hlast).
  exists part. split; [exact Hlast|].
  destruct (last_line_in _ _ _ Hlast) as [Hin Hs].
  assert (Hy : field_value f "Symbol:"
               = Some (inl (field_text part "Symbol:"))).
  { apply (parse_parts_last float_of_str parts "Symbol:" part no_fields f);
      try assumption.
    intros acc0. now apply parse_part_reads_symbol. }
  rewrite Hv' in Hy. now injection Hy.
Qed.

(** The check of line 118 on what was parsed. *)
Lemma parsed_values_truthy m sg :
  parse_signal float_of_str m = ok sg ->
  symbol sg <> "" /\
  PyFloat.truthy (price sg) = true /\
  PyFloat.truthy (stop_loss_price sg) = true /\
  PyFloat.truthy (take_profit_price sg) = true.
Proof.
  unfold parse_signal.
  destruct (parse_parts float_of_str (PyStr.split PyStr.newline m) no_fields)
    as [e|f]; [discriminate|].
  cbn [rbind].
  destruct (f_symbol f) as [s|] eqn:Es; [|discriminate].
  destruct (f_price f) as [p|] eqn:Ep; [|discriminate].
  destruct (f_stop_loss_price f) as [sl|] eqn:Esl; [|discriminate].
  destruct (f_take_profit_price f) as [tp|] eqn:Etp; [|discriminate].
  destruct (all_fields f) eqn:Ha; [|discriminate].
  intros H. injection H as <-. cbn [symbol price stop_loss_price take_profit_price].
  unfold all_fields in Ha. rewrite Es, Ep, Esl, Etp in Ha.
  cbn [truthy_str truthy_float] in Ha.
  apply andb_prop in Ha as [Ha Ha4]. apply andb_prop in Ha as [Ha Ha3].
  apply andb_prop in Ha as [Ha1 Ha2].
  repeat split; try assumption.
  intros ->. discriminate Ha1.
Qed.

(** X4.  Every parsed signal is read from the last line of each label: the
    symbol is the text of the last [Symbol:] line, and each number is what
    [float] makes of the text of the last line of its label; the symbol is
    not empty and none of the three numbers is a zero. *)
Theorem parsed_signal_reads_the_last_lines m sg :
  parse_signal float_of_str m = ok sg ->
  (exists part,
      last_line (PyStr.split PyStr.newline m) "Symbol:" part /\
      symbol sg = field_text part "Symbol:") /\
  (exists part,
      last_line (PyStr.split PyStr.newline m) "Price:" part /\
      float_of_str (field_text part "Price:") = Some (price sg)) /\
  (exists part,
      last_line (PyStr.split PyStr.newline m) "Stop Loss:" part /\
      float_of_str (field_text part "Stop Loss:") = Some (stop_loss_price sg)) /\
  (exists part,
      last_line (PyStr.split PyStr.newline m) "Take Profit:" part /\
      float_of_str (field_text part "Take Profit:")
        = Some (take_profit_price sg)) /\
  symbol sg <> "" /\
  PyFloat.truthy (price sg) = true /\
  PyFloat.truthy (stop_loss_price sg) = true /\
  PyFloat.truthy (take_profit_price sg) = true.
Proof.
  unfold parse_signal.
  destruct (parse_parts float_of_str (PyStr.split PyStr.newline m) no_fields)
    as [e|f] eqn:Hf; [discriminate|].
  cbn [rbind].
  destruct (f_symbol f) as [s|] eqn:Es; [|discriminate].
  destruct (f_price f) as [p|] eqn:Ep; [|discriminate].
  destruct (f_stop_loss_price f) as [sl|] eqn:Esl; [|discriminate].
  destruct (f_take_profit_price f) as [tp|] eqn:Etp; [|discriminate].
  destruct (all_fields f) eqn:Ha; [|discriminate].
  intros H. injection H as <-. cbn [symbol price stop_loss_price take_profit_price].
  unfold all_fields in Ha. rewrite Es, Ep, Esl, Etp in Ha.
  cbn [truthy_str truthy_float] in Ha.
  apply andb_prop in Ha as [Ha Ha4]. apply andb_prop in Ha as [Ha Ha3].
  apply andb_prop in Ha as [Ha1 Ha2].
  split; [exact (parsed_symbol _ _ _ Hf Es)|].
  split.
  { apply (parsed_number _ f "Price:"); [now left|exact Hf|].
    unfold field_value. cbn. rewrite Ep. reflexivity. }
  split.
  { apply (parsed_number _ f "Stop Loss:"); [right; now left|exact Hf|].
    unfold field_value. cbn. rewrite Esl. reflexivity. }
  split.
  { apply (parsed_number _ f "Take Profit:"); [right; right; now left|exact Hf|].
    unfold field_value. cbn. rewrite Etp. reflexivity. }
  repeat split; try assumption.
  intros ->. discriminate Ha1.
Qed.

(** A line without a label leaves the four variables as they are. *)
Lemma parse_part_unlabelled part acc :
  labelled part = false -> parse_part float_of_str part acc = ok acc.
Proof.
  unfold labelled, labels. cbn [existsb]. intros H.
  repeat (apply orb_false_iff in H; destruct H as [? H]).
  unfold parse_part.
  repeat match goal with
         | E : PyStr.startswith part _ = false |- _ => rewrite E; clear E
         end.
  reflexivity.
Qed.

Lemma parse_parts_labelled parts acc :
  parse_parts float_of_str (filter labelled parts) acc
  = parse_parts float_of_str parts acc.
Proof.
  revert acc. induction parts as [|p ps IH]; intros acc; [reflexivity|].
  cbn [filter]. destruct (labelled p) eqn:E.
  - cbn [parse_parts]. destruct (parse_part float_of_str p acc) as [e|acc'];
      [reflexivity|]. apply IH.
  - cbn [parse_parts]. rewrite (parse_part_unlabelled _ _ E). apply IH.
Qed.

Lemma parse_signal_of_lines line lines :
  Forall (free_of Sample.nl) (line :: lines) ->
  parse_signal float_of_str (String.concat Sample.nl (line :: lines)) =
  (f <- parse_parts float_of_str (filter labelled (line :: lines)) no_fields ;;
   match f_symbol f, f_price f, f_stop_loss_price f, f_take_profit_price f with
   | Some s, Some p, Some sl, Some tp =>
       if all_fields f
       then ok {| symbol := s; price := p;
                  stop_loss_price := sl; take_profit_price := tp |}
       else raise (ValueError "Invalid message format received from the bot")
   | _, _, _, _ =>
       raise (ValueError "Invalid message format received from the bot")
   end)%result.
Proof.
  intros H. unfold parse_signal.
  rewrite (split_concat _ _ H), parse_parts_labelled. reflexivity.
Qed.

(** X5.  Lines that start with none of the four labels are ignored: a message
    and the message with those lines taken out are parsed alike, to the same
    signal or to the same exception. *)
Theorem unlabelled_lines_are_ignored lines :
  Forall (free_of Sample.nl) lines ->
  parse_signal float_of_str (String.concat Sample.nl lines)
  = parse_signal float_of_str (String.concat Sample.nl (filter labelled lines)).
Proof.
  intros H. destruct lines as [|line lines]; [reflexivity|].
  rewrite (parse_signal_of_lines _ _ H).
  destruct (filter labelled (line :: lines)) as [|l ls] eqn:E.
  - reflexivity.
  - assert (H' : Forall (free_of Sample.nl) (l :: ls)).
    { rewrite <- E. apply Forall_forall. intros x Hx.
      apply filter_In in Hx as [Hx _].
      rewrite Forall_forall in H. now apply H. }
    rewrite (parse_signal_of_lines _ _ H').
    assert (Hf : filter labelled (l :: ls) = l :: ls).
    { rewrite <- E. clear. induction (line :: lines) as [|a r IH];
        [reflexivity|].
      cbn [filter]. destruct (labelled a) eqn:Ea; [|exact IH].
      cbn [filter]. rewrite Ea, IH. reflexivity. }
    rewrite Hf. reflexivity.
Qed.

End ParseFacts.

(* ================================================================= *)
(** ** Messages in the expected layout *)

Section LayoutFacts.

Variable float_of_str : string -> option PyFloat.float.

Lemma replace_from_free old new s :
  free_of old s -> PyStr.replace_from O old new s = s.
Proof. exact (replace_free old new s). Qed.

Lemma strip_after_blank v : PyStr.strip (String " " v) = PyStr.strip v.
Proof. reflexivity. Qed.

Lemma field_text_symbol v :
  free_of "Symbol:" v ->
  field_text ("Symbol: " ++ v) "Symbol:" = PyStr.strip v.
Proof.
  intros H. unfold field_text, PyStr.replace.
  cbn [String.append PyStr.replace_from String.prefix String.length Nat.sub].
  cbn. rewrite (replace_from_free _ _ _ H). reflexivity.
Qed.

Lemma field_text_price v :
  free_of "Price:" v ->
  field_text ("Price: " ++ v) "Price:" = PyStr.strip v.
Proof.
  intros H. unfold field_text, PyStr.replace.
  cbn. rewrite (replace_from_free _ _ _ H). reflexivity.
Qed.

Lemma field_text_stop_loss v :
  free_of "Stop Loss:" v ->
  field_text ("Stop Loss: " ++ v) "Stop Loss:" = PyStr.strip v.
Proof.
  intros H. unfold field_text, PyStr.replace.
  cbn. rewrite (replace_from_free _ _ _ H). reflexivity.
Qed.

Lemma field_text_take_profit v :
  free_of "Take Profit:" v ->
  field_text ("Take Profit: " ++ v) "Take Profit:" = PyStr.strip v.
Proof.
  intros H. unfold field_text, PyStr.replace.
  cbn. rewrite (replace_from_free _ _ _ H). reflexivity.
Qed.

Lemma free_of_newline_cons c s :
  Ascii.eqb c PyStr.newline = false ->
  free_of Sample.nl s -> free_of Sample.nl (String c s).
Proof.
  unfold free_of. intros Hc Hs. cbn [Auth.str_contains]. rewrite Hs.
  unfold Sample.nl. cbn [String.prefix].
  destruct (ascii_dec PyStr.newline c) as [<-|_]; [|reflexivity].
  rewrite Ascii.eqb_refl in Hc. discriminate Hc.
Qed.

(** X6.  A message laid out as the handler expects, one labeled field per
    line, is parsed to the values written in it: the symbol stripped of
    blanks, and for each number what [float] makes of its text. *)
Theorem well_formed_signal_is_parsed sym p sl tp x y z :
  free_of Sample.nl sym -> free_of Sample.nl p ->
  free_of Sample.nl sl -> free_of Sample.nl tp ->
  free_of "Symbol:" sym -> free_of "Price:" p ->
  free_of "Stop Loss:" sl -> free_of "Take Profit:" tp ->
  PyStr.strip sym <> "" ->
  float_of_str (PyStr.strip p) = Some x -> PyFloat.truthy x = true ->
  float_of_str (PyStr.strip sl) = Some y -> PyFloat.truthy y = true ->
  float_of_str (PyStr.strip tp) = Some z -> PyFloat.truthy z = true ->
  parse_signal float_of_str (Sample.signal_text sym p sl tp)
  = ok {| symbol := PyStr.strip sym; price := x;
          stop_loss_price := y; take_profit_price := z |}.
Proof.
  intros N1 N2 N3 N4 F1 F2 F3 F4 Hs Hx Tx Hy Ty Hz Tz.
  unfold parse_signal, Sample.signal_text.
  rewrite split_concat.
  2:{ repeat constructor;
        cbn [String.append];
        repeat (apply free_of_newline_cons; [reflexivity|]); assumption. }
  cbn [parse_parts].
  unfold parse_part at 1.
  replace (PyStr.startswith ("Symbol: " ++ sym) "Symbol:") with true
    by reflexivity.
  cbn [rbind ok]. 
  unfold parse_part at 1.
  replace (PyStr.startswith ("Price: " ++ p) "Symbol:") with false
    by reflexivity.
  replace (PyStr.startswith ("Price: " ++ p) "Price:") with true
    by reflexivity.
  rewrite (field_text_price _ F2). unfold str_to_float. rewrite Hx.
  cbn [rbind ok].
  unfold parse_part at 1.
  replace (PyStr.startswith ("Stop Loss: " ++ sl) "Symbol:") with false
    by reflexivity.
  replace (PyStr.startswith ("Stop Loss: " ++ sl) "Price:") with false
    by reflexivity.
  replace (PyStr.startswith ("Stop Loss: " ++ sl) "Stop Loss:") with true
    by reflexivity.
  rewrite (field_text_stop_loss _ F3). unfold str_to_float. rewrite Hy.
  cbn [rbind ok].
  unfold parse_part at 1.
  replace (PyStr.startswith ("Take Profit: " ++ tp) "Symbol:") with false
    by reflexivity.
  replace (PyStr.startswith ("Take Profit: " ++ tp) "Price:") with false
    by reflexivity.
  replace (PyStr.startswith ("Take Profit: " ++ tp) "Stop Loss:") with false
    by reflexivity.
  replace (PyStr.startswith ("Take Profit: " ++ tp) "Take Profit:") with true
    by reflexivity.
  rewrite (field_text_take_profit _ F4). unfold str_to_float. rewrite Hz.
  cbn [rbind ok f_symbol f_price f_stop_loss_price f_take_profit_price no_fields].
  rewrite (field_text_symbol _ F1).
  unfold all_fields.
  cbn [f_symbol f_price f_stop_loss_price f_take_profit_price
       truthy_str truthy_float].
  rewrite Tx, Ty, Tz.
  destruct (String.eqb (PyStr.strip sym) "") eqn:E.
  - apply String.eqb_eq in E. contradiction.
  - reflexivity.
Qed.

End LayoutFacts.

(* ================================================================= *)
(** ** Looking the step size up *)

Section StepSizeFacts.

Variable float_of_str : string -> option PyFloat.float.

Lemma find_symbol_skips sym pre rest :
  forallb (other_symbol sym) pre = true ->
  find_symbol sym (pre ++ rest) = find_symbol sym rest.
Proof.
  induction pre as [|x pre IH]; [reflexivity|].
  cbn [forallb]. intros H. apply andb_prop in H as [Hx Hp].
  cbn [app find_symbol]. unfold other_symbol in Hx.
  destruct (Py.getitem x "symbol") as [e|s]; [discriminate|].
  cbn [rbind]. apply negb_true_iff in Hx. rewrite Hx. now apply IH.
Qed.

Lemma find_symbol_hit sym x post :
  has_symbol sym x = true -> find_symbol sym (x :: post) = ok x.
Proof.
  unfold has_symbol. cbn [find_symbol].
  destruct (Py.getitem x "symbol") as [e|s]; [discriminate|].
  cbn [rbind]. now intros ->.
Qed.

Lemma has_symbol_truthy sym x : has_symbol sym x = true -> Py.truthy x = true.
Proof.
  unfold has_symbol, Py.getitem.
  destruct x as [| | | | |l|d]; try discriminate.
  destruct d; [discriminate|reflexivity].
Qed.

Lemma step_size_of_list instruments sym l :
  linear_list_of instruments = ok (PList l) ->
  step_size_of float_of_str instruments sym =
  (symbol_info <- find_symbol sym l ;;
   if Py.truthy symbol_info
   then lot <- Py.getitem symbol_info "lotSizeFilter" ;;
        step <- Py.getitem lot "qtyStep" ;;
        py_float float_of_str step
   else raise (ValueError ("Symbol " ++ sym ++ " not found in instruments")))%result.
Proof.
  unfold linear_list_of, step_size_of.
  destruct (Py.getitem instruments "result") as [e|r]; [discriminate|].
  cbn [rbind]. intros ->. reflexivity.
Qed.

(** X7.  The step size is read from the first instrument of the list whose
    symbol is the one asked for: it is [float] of that record's
    [lotSizeFilter.qtyStep], whatever follows it in the list, and the
    exception that reading it raises when the record lacks the field. *)
Theorem step_size_is_that_of_the_first_match instruments sym pre x post :
  linear_list_of instruments = ok (PList (pre ++ x :: post)) ->
  forallb (other_symbol sym) pre = true ->
  has_symbol sym x = true ->
  step_size_of float_of_str instruments sym =
  (lot <- Py.getitem x "lotSizeFilter" ;;
   step <- Py.getitem lot "qtyStep" ;;
   py_float float_of_str step)%result.
Proof.
  intros Hl Hpre Hx.
  rewrite (step_size_of_list _ _ _ Hl).
  rewrite (find_symbol_skips _ _ _ Hpre), (find_symbol_hit _ _ _ Hx).
  cbn [rbind ok]. rewrite (has_symbol_truthy _ _ Hx). reflexivity.
Qed.

(** X8.  When no instrument of the list has the symbol (the empty list
    included), [get_step_size] makes its one call, logs the error and
    raises [ValueError] naming the symbol. *)
Theorem unknown_symbol_is_an_error session instruments sym l :
  get_instruments_info session = ok instruments ->
  linear_list_of instruments = ok (PList l) ->
  forallb (other_symbol sym) l = true ->
  get_step_size float_of_str session sym =
  ([GetInstrumentsInfo;
    Log ERROR (MsgStepSizeError
                 (ValueError ("Symbol " ++ sym ++ " not found in instruments")))],
   raise (ValueError ("Symbol " ++ sym ++ " not found in instruments"))).
Proof.
  intros Hi Hl Hall.
  assert (Hs : step_size_of float_of_str instruments sym =
               raise (ValueError ("Symbol " ++ sym ++ " not found in instruments"))).
  { rewrite (step_size_of_list _ _ _ Hl).
    rewrite <- (app_nil_r l), (find_symbol_skips _ _ _ Hall). reflexivity. }
  apply get_step_size_error.
  unfold get_step_size, call, lift, bind, try_except, emit, throw.
  rewrite Hi. cbn. rewrite Hs. reflexivity.
Qed.

(** X9.  When [get_step_size] raises, the handler stops there: the error is
    logged once by [get_step_size] and once more, logged and printed, by the
    handler; the wallet is not fetched and no order is sent. *)
Theorem step_size_failure_stops_the_handler session raw_text sg e :
  parse_signal float_of_str (bot_message_of raw_text) = ok sg ->
  snd (get_step_size float_of_str session (symbol sg)) = raise e ->
  handle_bot_response float_of_str session raw_text =
  (say INFO (extracted sg)
   ++ [GetInstrumentsInfo; Log ERROR (MsgStepSizeError e)]
   ++ say ERROR (MsgHandlerError e),
   ok tt).
Proof.
  intros Hp He. rewrite handle_by_body.
  rewrite (body_step_size_failure _ _ _ _ _ Hp He).
  cbv beta iota delta [raise]. rewrite <- app_assoc. reflexivity.
Qed.

End StepSizeFacts.

(* ================================================================= *)
(** ** The record the wallet is read from *)

Section UsdtFacts.

Variable float_of_str : string -> option PyFloat.float.

Lemma is_usdt_truthy u : is_usdt u = true -> Py.truthy u = true.
Proof.
  destruct u as [| | | | |l|d]; try discriminate.
  destruct d; [discriminate|reflexivity].
Qed.

Lemma is_usdt_get coin c :
  Py.get coin "coin" PNone = ok c -> Py.eq_str c "USDT" = true ->
  is_usdt coin = true.
Proof.
  destruct coin as [| | | | |l|d]; try discriminate.
  unfold Py.get, is_usdt. destruct (Py.lookup "coin" d) as [v|].
  - intros H; injection H as <-. auto.
  - intros H; injection H as <-. discriminate.
Qed.

Lemma scan_coins_found coins u0 u :
  scan_coins coins u0 = ok u ->
  u = u0 \/ (In u coins /\ is_usdt u = true).
Proof.
  induction coins as [|coin rest IH]; cbn [scan_coins].
  - intros H; injection H as <-. now left.
  - destruct (Py.get coin "coin" PNone) as [e|c] eqn:Ec; [discriminate|].
    cbn [rbind]. destruct (Py.eq_str c "USDT") eqn:E.
    + intros H; injection H as <-. right. split; [now left|].
      exact (is_usdt_get _ _ Ec E).
    + intros H. destruct (IH H) as [->|[Hin Hu]]; [now left|].
      right. split; [now right|exact Hu].
Qed.

Lemma scan_account_found account u0 u :
  scan_account account u0 = ok u ->
  u = u0 \/ (holds_record account u /\ is_usdt u = true).
Proof.
  unfold scan_account, holds_record.
  destruct (Py.get account "coin" PNone) as [e|coins] eqn:Ea; [discriminate|].
  cbn [rbind].
  destruct coins as [| | | | |l|d];
    try (intros H; injection H as <-; now left).
  - intros H. destruct (scan_coins_found _ _ _ H) as [->|[Hin Hu]];
      [now left|].
    right. split; [|exact Hu]. right. eauto.
  - destruct (Py.get (PDict d) "coin" PNone) as [e|c] eqn:Ec; [discriminate|].
    cbn [rbind]. destruct (Py.eq_str c "USDT") eqn:E.
    + intros H; injection H as <-. right. split; [now left|].
      exact (is_usdt_get _ _ Ec E).
    + intros H; injection H as <-. now left.
Qed.

Lemma scan_accounts_found l u0 u :
  scan_accounts l u0 = ok u ->
  u = u0 \/ exists account,
      In account l /\ holds_record account u /\ is_usdt u = true.
Proof.
  revert u0. induction l as [|a rest IH]; intros u0; cbn [scan_accounts].
  - intros H; injection H as <-. now left.
  - destruct (scan_account a u0) as [e|u'] eqn:Ea; [discriminate|].
    cbn [rbind].
    destruct (scan_account_found _ _ _ Ea) as [->|[Hh Hu]].
    + destruct (Py.truthy u0).
      * intros H; injection H as <-. now left.
      * intros H. destruct (IH _ H) as [->|(acc & Hin & Hh & Hu)];
          [now left|].
        right. exists acc. split; [now right|]. now split.
    + rewrite (is_usdt_truthy _ Hu). intros H; injection H as <-.
      right. exists a. split; [now left|]. now split.
Qed.

(** X10.  The record the balances are read from is a coin record of the
    response whose [coin] is USDT: the single record of an account, or an
    element of an account's list of records. *)
Theorem usdt_record_comes_from_the_response ab u :
  find_usdt ab = ok u ->
  is_usdt u = true /\
  exists l account,
    wallet_list_of ab = ok (PList l) /\
    In account l /\ holds_record account u.
Proof.
  unfold find_usdt, wallet_list_of.
  destruct (Py.getitem ab "result") as [e|r]; [discriminate|].
  cbn [rbind].
  destruct (Py.getitem r "list") as [e|wl]; [discriminate|].
  cbn [rbind].
  destruct wl as [| | | | |l|d]; try discriminate.
  destruct l as [|a l]; [discriminate|].
  destruct (scan_accounts (a :: l) PNone) as [e|u'] eqn:Es; [discriminate|].
  cbn [rbind].
  destruct (Py.truthy u') eqn:Et; [|discriminate].
  intros H; injection H as <-.
  destruct (scan_accounts_found _ _ _ Es) as [->|(acc & Hin & Hh & Hu)];
    [discriminate Et|].
  split; [exact Hu|]. exists (a :: l), acc. now repeat split.
Qed.

End UsdtFacts.

(* ================================================================= *)
(** ** Sizing at the edges *)

Section SizingEdges.

Variable float_of_str : string -> option PyFloat.float.

Lemma body_sizing_failure session raw_text sg instruments step ab equity balance e :
  parse_signal float_of_str (bot_message_of raw_text) = ok sg ->
  get_instruments_info session = ok instruments ->
  step_size_of float_of_str instruments (symbol sg) = ok step ->
  get_wallet_balance session = ok ab ->
  read_snapshot float_of_str ab = ok (equity, balance) ->
  position_size balance (price sg) step = raise e ->
  handle_bot_response float_of_str session raw_text =
  (fetched sg ab equity balance ++ say ERROR (MsgHandlerError e), ok tt).
Proof.
  intros Hp Hi Hs Hw Hr Hq. rewrite handle_by_body.
  rewrite (body_reaches_sizing _ _ _ _ _ _ _ _ _ Hp Hi Hs Hw Hr).
  rewrite (size_and_place_failure _ _ _ _ _ _ Hq).
  cbv beta iota delta [raise fst snd]. rewrite app_nil_r. reflexivity.
Qed.

Lemma zero_step_raises w p s :
  PyFloat.truthy s = false ->
  position_size w p s = raise ZeroDivisionError.
Proof.
  destruct s as [ss|ss| |ss ms es]; try discriminate. intros _.
  unfold position_size, PyFloat.truediv.
  destruct p; reflexivity.
Qed.

(** X11.  A step size of zero makes the sizing raise [ZeroDivisionError];
    the handler logs it as its error, returns normally and sends no
    order. *)
Theorem zero_step_size_is_a_handled_error
  session raw_text sg instruments step ab equity balance :
  parse_signal float_of_str (bot_message_of raw_text) = ok sg ->
  get_instruments_info session = ok instruments ->
  step_size_of float_of_str instruments (symbol sg) = ok step ->
  get_wallet_balance session = ok ab ->
  read_snapshot float_of_str ab = ok (equity, balance) ->
  PyFloat.truthy step = false ->
  handle_bot_response float_of_str session raw_text =
  (fetched sg ab equity balance
   ++ say ERROR (MsgHandlerError ZeroDivisionError), ok tt).
Proof.
  intros Hp Hi Hs Hw Hr Hz.
  apply (body_sizing_failure _ _ _ _ _ _ _ _ _ Hp Hi Hs Hw Hr).
  now apply zero_step_raises.
Qed.

Lemma nan_price_raises w s :
  PyFloat.truthy s = true ->
  position_size w S754_nan s
  = raise (ValueError "cannot convert float NaN to integer").
Proof.
  destruct s as [ss|ss| |ss ms es]; try discriminate; intros _;
    destruct w; reflexivity.
Qed.

(** X12.  A price that [float] reads as NaN passes the format check, so both
    exchange calls are made; the sizing then raises [ValueError] at
    [math.floor], which the handler logs, and no order is sent. *)
Theorem nan_price_fails_at_sizing
  session raw_text sg instruments step ab equity balance :
  parse_signal float_of_str (bot_message_of raw_text) = ok sg ->
  get_instruments_info session = ok instruments ->
  step_size_of float_of_str instruments (symbol sg) = ok step ->
  get_wallet_balance session = ok ab ->
  read_snapshot float_of_str ab = ok (equity, balance) ->
  price sg = S754_nan ->
  PyFloat.truthy step = true ->
  handle_bot_response float_of_str session raw_text =
  (fetched sg ab equity balance
   ++ say ERROR (MsgHandlerError
                   (ValueError "cannot convert float NaN to integer")),
   ok tt).
Proof.
  intros Hp Hi Hs Hw Hr Hn Hz.
  apply (body_sizing_failure _ _ _ _ _ _ _ _ _ Hp Hi Hs Hw Hr).
  rewrite Hn. now apply nan_price_raises.
Qed.

Lemma zero_balance_is_insufficient p s :
  PyFloat.truthy p = true -> p <> S754_nan ->
  PyFloat.truthy s = true -> s <> S754_nan ->
  exists q,
    position_size (S754_zero false) p s = ok q /\ PyFloat.gt_zero q = false.
Proof.
  intros Hp Hpn Hs Hsn.
  destruct p as [sp|sp| |sp mp ep]; try discriminate; try congruence;
    destruct s as [ss|ss| |ss ms es]; try discriminate; try congruence;
    eexists; (split; [reflexivity|]);
    destruct sp, ss; reflexivity.
Qed.

Lemma read_snapshot_default ab d equity balance :
  find_usdt ab = ok (PDict d) ->
  Py.lookup "walletBalance" d = None ->
  read_snapshot float_of_str ab = ok (equity, balance) ->
  balance = S754_zero false.
Proof.
  intros Hu Hl. unfold read_snapshot. rewrite Hu. cbn [rbind ok].
  destruct (Py.get (PDict d) "equity" (PInt 0)) as [e|v];
    cbn [rbind]; [discriminate|].
  destruct (py_float float_of_str v) as [e|x]; cbn [rbind]; [discriminate|].
  unfold Py.get. rewrite Hl.
  cbv beta iota delta [rbind ok py_float PyFloat.of_int].
  change (binary_normalize PyFloat.prec PyFloat.emax 0 0 false)
    with (S754_zero false).
  cbv beta iota. intros H. now inversion H.
Qed.

(** X13.  A USDT record without a [walletBalance] field is read as a wallet
    balance of zero, not as an error: for a price and a step size that are
    not NaN (and a step size that is not zero) the handler reports
    insufficient balance and sends no order. *)
Theorem missing_wallet_balance_is_read_as_zero
  session raw_text sg instruments step ab d equity balance :
  parse_signal float_of_str (bot_message_of raw_text) = ok sg ->
  get_instruments_info session = ok instruments ->
  step_size_of float_of_str instruments (symbol sg) = ok step ->
  get_wallet_balance session = ok ab ->
  find_usdt ab = ok (PDict d) ->
  Py.lookup "walletBalance" d = None ->
  read_snapshot float_of_str ab = ok (equity, balance) ->
  price sg <> S754_nan ->
  PyFloat.truthy step = true -> step <> S754_nan ->
  balance = S754_zero false /\
  handle_bot_response float_of_str session raw_text =
  (fetched sg ab equity balance ++ say ERROR MsgInsufficientBalance, ok tt).
Proof.
  intros Hp Hi Hs Hw Hu Hl Hr Hpn Hst Hsn.
  destruct (parsed_values_truthy _ _ _ Hp) as (_ & Hpt & _).
  pose proof (read_snapshot_default _ _ _ _ Hu Hl Hr) as Hb.
  split; [exact Hb|]. subst balance.
  destruct (zero_balance_is_insufficient _ _ Hpt Hpn Hst Hsn) as (q & Hq & Hz).
  rewrite handle_by_body.
  rewrite (body_reaches_sizing _ _ _ _ _ _ _ _ _ Hp Hi Hs Hw Hr).
  rewrite (size_and_place_insufficient _ _ _ _ _ _ Hq Hz). reflexivity.
Qed.

End SizingEdges.

(* ================================================================= *)
(** ** What an order attempt reports *)

Section ReportFacts.

(** X14.  Whatever the order endpoint does, an attempt leaves the call and
    exactly one record, logged and printed, and returns normally.  The
    record is the trade details exactly when the endpoint answered, the
    answer has a [retCode] equal to 0 and the details could be laid out;
    in every other case it is one error record. *)
Theorem order_attempt_is_reported_once session sg q equity balance :
  (exists order code report,
      place_order session (make_order_params sg q) = ok order /\
      Py.getitem order "retCode" = ok code /\
      Py.eq_zero code = true /\
      format_trade_details (symbol sg) (price sg) (stop_loss_price sg)
        (take_profit_price sg) q order equity balance = ok report /\
      submit_order session sg q equity balance =
        (PlaceOrder (make_order_params sg q)
           :: say INFO (MsgTradeDetails report), ok tt))
  \/
  (exists m,
      submit_order session sg q equity balance =
        (PlaceOrder (make_order_params sg q) :: say ERROR m, ok tt) /\
      ((exists e, m = MsgOrderException e) \/
       (exists ret_msg, m = MsgOrderRetMsg ret_msg)) /\
      trade_reported (fst (submit_order session sg q equity balance)) = false).
Proof.
  unfold trade_reported.
  unfold submit_order, call, try_except, bind, lift.
  destruct (place_order session (make_order_params sg q)) as [e|order] eqn:Ep;
    cbv beta iota.
  { right. eexists. split; [reflexivity|]. split; [eauto|reflexivity]. }
  destruct (Py.getitem order "retCode") as [e|code] eqn:Ec; cbv beta iota.
  { right. eexists. split; [reflexivity|]. split; [eauto|reflexivity]. }
  destruct (Py.eq_zero code) eqn:Ez.
  - destruct (format_trade_details _ _ _ _ _ _ _ _) as [e|report] eqn:Ef;
      cbv beta iota.
    + right. eexists. split; [reflexivity|]. split; [eauto|reflexivity].
    + left. exists order, code, report.
      split; [reflexivity|]. split; [exact Ec|]. split; [exact Ez|].
      split; [exact Ef|reflexivity].
  - right. destruct (Py.getitem order "retMsg") as [e|ret_msg];
      cbv beta iota; eexists; (split; [reflexivity|]);
      (split; [eauto|reflexivity]).
Qed.

Lemma submit_order_status_zero session sg q equity balance d code :
  place_order session (make_order_params sg q) = ok (PDict d) ->
  Py.lookup "retCode" d = Some code ->
  Py.eq_zero code = true ->
  submit_order session sg q equity balance =
  (PlaceOrder (make_order_params sg q) ::
     match format_trade_details (symbol sg) (price sg) (stop_loss_price sg)
             (take_profit_price sg) q (PDict d) equity balance with
     | inr report => say INFO (MsgTradeDetails report)
     | inl e => say ERROR (MsgOrderException e)
     end,
   ok tt).
Proof.
  intros Hp Hc Hz.
  unfold submit_order, call, try_except, bind, lift.
  rewrite Hp. cbv beta iota delta [ok].
  unfold Py.getitem at 1. rewrite Hc. cbv beta iota delta [ok]. rewrite Hz.
  destruct (format_trade_details _ _ _ _ _ _ _ _); reflexivity.
Qed.

(** X15.  An order that the exchange accepted ([retCode] 0) is reported by
    what the answer holds under [result].  Without a [result] the trade
    details are logged with the order id N/A.  With a [result] that is not
    an object (a null, say) the formatting raises, so the order that was
    placed is logged as an error placing the order, and no trade details
    appear. *)
Theorem accepted_order_is_reported_by_its_result
  session sg q equity balance d code :
  place_order session (make_order_params sg q) = ok (PDict d) ->
  Py.lookup "retCode" d = Some code ->
  Py.eq_zero code = true ->
  (Py.lookup "result" d = None ->
   exists report,
     submit_order session sg q equity balance =
       (PlaceOrder (make_order_params sg q)
          :: say INFO (MsgTradeDetails report), ok tt) /\
     tr_order_id report = PStr "N/A" /\ tr_qty report = q) /\
  (forall r,
      Py.lookup "result" d = Some r ->
      Py.isinstance_dict r = false ->
      submit_order session sg q equity balance =
        (PlaceOrder (make_order_params sg q)
           :: say ERROR
                (MsgOrderException
                   (AttributeError "object has no attribute 'get'")),
         ok tt)).
Proof.
  intros Hp Hc Hz.
  rewrite (submit_order_status_zero _ _ _ _ _ _ _ Hp Hc Hz).
  unfold format_trade_details, Py.get. split.
  - intros Hr. rewrite Hr. cbn [rbind ok Py.lookup].
    destruct (Py.lookup "retMsg" d), (Py.lookup "time" d);
      cbn [rbind ok]; eexists; repeat split; reflexivity.
  - intros r Hr Hd. rewrite Hr. cbn [rbind ok].
    destruct r; try discriminate Hd; reflexivity.
Qed.

End ReportFacts.

(* ================================================================= *)
(** ** The OTP view and the login, call by call *)

Section LoginFacts.

Import Auth.





Lemma after_wait_cases client g :
  (Py.truthy (otp_received g) = false /\
   after_wait client g = (say ERROR MsgOtpNotReceived, g, false)) \/
  (Py.truthy (otp_received g) = true /\
   sign_in client (otp_received g) = ok tt /\
   after_wait client g =
     ([SignIn (otp_received g)] ++ say INFO MsgLoginSuccessful, g, true)) \/
  (Py.truthy (otp_received g) = true /\
   exists e m,
     sign_in client (otp_received g) = raise e /\
     after_wait client g =
       ([SignIn (otp_received g)] ++ say ERROR m, reset_otp g, false)).
Proof.
  unfold after_wait. destruct (Py.truthy (otp_received g)); [|now left].
  right. destruct (sign_in client (otp_received g)) as [e|[]] eqn:E.
  - right. split; [reflexivity|]. exists e.
    destruct e; eexists; (split; [reflexivity|]); reflexivity.
  - left. repeat split; reflexivity.
Qed.

Lemma before_wait_cases client g :
  (exists t, before_wait client g = (t, g, Returned false) /\
             (client_calls t = [Connect] \/
              client_calls t = [Connect; IsUserAuthorized] \/
              client_calls t = [Connect; IsUserAuthorized; SendCodeRequest])) \/
  (exists t, before_wait client g = (t, g, Returned true) /\
             is_user_authorized client = ok true /\
             client_calls t = [Connect; IsUserAuthorized]) \/
  (exists t, before_wait client g = (t, g, AtWait) /\
             is_user_authorized client = ok false /\
             otp_request_sent g = true /\
             client_calls t = [Connect; IsUserAuthorized]) \/
  (exists t, before_wait client g =
               (t, {| otp_received := otp_received g;
                      login_event := login_event g;
                      otp_request_sent := true |}, AtWait) /\
             is_user_authorized client = ok false /\
             otp_request_sent g = false /\
             client_calls t = [Connect; IsUserAuthorized; SendCodeRequest]).
Proof.
  unfold before_wait.
  destruct (connect client) as [e|[]].
  { left. eexists. split; [reflexivity|]. now left. }
  destruct (is_user_authorized client) as [e|[|]].
  { left. eexists. split; [reflexivity|]. right. now left. }
  { right. left. eexists. repeat split; reflexivity. }
  destruct (otp_request_sent g) eqn:Es; cbn [negb].
  { right. right. left. eexists. repeat split; reflexivity. }
  destruct (send_code_request client) as [e|[]].
  - left. destruct e; eexists; (split; [reflexivity|]); right; now right.
  - right. right. right. eexists. repeat split; reflexivity.
Qed.

Lemma client_calls_app t t' :
  client_calls (t ++ t') = client_calls t ++ client_calls t'.
Proof. apply filter_app. Qed.

(** X18.  [telegram_login] returns [True] only when the client reported the
    account authorized, or when a sign-in with the stored OTP, a truthy
    value, went through; the same holds for the part of it that runs after
    the wait. *)
Theorem login_succeeds_only_when_authorized_or_signed_in client g :
  (forall t g',
      telegram_login client g = (t, g', Returned true) ->
      connect client = ok tt /\
      (is_user_authorized client = ok true \/
       (is_user_authorized client = ok false /\
        Py.truthy (otp_received g) = true /\
        sign_in client (otp_received g) = ok tt /\
        In (SignIn (otp_received g)) t))) /\
  (forall t g',
      after_wait client g = (t, g', true) ->
      Py.truthy (otp_received g) = true /\
      sign_in client (otp_received g) = ok tt /\
      g' = g /\
      t = [SignIn (otp_received g)] ++ say INFO MsgLoginSuccessful).
Proof.
  assert (Ha : forall g0 t g',
             after_wait client g0 = (t, g', true) ->
             Py.truthy (otp_received g0) = true /\
             sign_in client (otp_received g0) = ok tt /\
             g' = g0 /\
             t = [SignIn (otp_received g0)] ++ say INFO MsgLoginSuccessful).
  { intros g0 t g' H.
    destruct (after_wait_cases client g0)
      as [[_ E]|[(Ht & Hs & E)|(_ & e & m & _ & E)]];
      rewrite E in H; inversion H; subst; auto. }
  split; [|apply Ha].
  intros t g'. unfold telegram_login.
  assert (Hc : forall t0 g0 p, before_wait client g = (t0, g0, p) ->
                               p <> Returned false -> connect client = ok tt).
  { unfold before_wait. destruct (connect client) as [e|[]]; [|reflexivity].
    intros t0 g0 p H Hp. inversion H; subst. now elim Hp. }
  destruct (before_wait_cases client g)
    as [(t0 & E & _)|[(t0 & E & Hauth & _)|[(t0 & E & Hauth & _)|(t0 & E & Hauth & _)]]];
    pose proof (Hc _ _ _ E) as Hconn; rewrite E.
  - discriminate.
  - intros _. split; [apply Hconn; discriminate|]. now left.
  - destruct (login_event g); [|discriminate].
    destruct (after_wait client g) as [[t' g''] b] eqn:Ew.
    intros H. inversion H; subst.
    destruct (Ha _ _ _ Ew) as (Ht & Hs & _ & ->).
    split; [apply Hconn; discriminate|]. right.
    repeat split; auto. apply in_or_app. right. now left.
  - cbn [login_event].
    destruct (login_event g); [|discriminate].
    match goal with
    | |- context [after_wait client ?G] =>
        destruct (after_wait client G) as [[t' g''] b] eqn:Ew
    end.
    intros H. inversion H; subst.
    destruct (Ha _ _ _ Ew) as (Ht & Hs & _ & ->). cbn [otp_received] in *.
    split; [apply Hconn; discriminate|]. right.
    repeat split; auto. apply in_or_app. right. now left.
Qed.

(** X19.  [telegram_login] calls the Telegram client in one order only:
    [connect], then [is_user_authorized], then at most one
    [send_code_request], then at most one [sign_in]; the code it signs in
    with is a truthy value. *)
Theorem login_calls_the_client_in_order client g :
  let calls := client_calls (fst (fst (telegram_login client g))) in
  calls = [Connect] \/
  calls = [Connect; IsUserAuthorized] \/
  calls = [Connect; IsUserAuthorized; SendCodeRequest] \/
  exists code,
    Py.truthy code = true /\
    (calls = [Connect; IsUserAuthorized; SignIn code] \/
     calls = [Connect; IsUserAuthorized; SendCodeRequest; SignIn code]).
Proof.
  cbv zeta. unfold telegram_login.
  assert (Ha : forall g0,
             client_calls (fst (fst (after_wait client g0))) = [] \/
             exists code, Py.truthy code = true /\
               client_calls (fst (fst (after_wait client g0))) = [SignIn code]).
  { intros g0.
    destruct (after_wait_cases client g0)
      as [[_ E]|[(Ht & Hs & E)|(Ht & e & m & _ & E)]]; rewrite E;
      [now left| |]; right; exists (otp_received g0); split; auto. }
  destruct (before_wait_cases client g)
    as [(t0 & E & Hc)|[(t0 & E & _ & Hc)|[(t0 & E & _ & _ & Hc)|(t0 & E & _ & _ & Hc)]]];
    rewrite E.
  - cbn [fst]. tauto.
  - cbn [fst]. tauto.
  - destruct (login_event g); [|cbn [fst]; tauto].
    specialize (Ha g).
    destruct (after_wait client g) as [[t' g''] b]. cbn [fst] in *.
    rewrite client_calls_app, Hc.
    destruct Ha as [->|(code & Hcode & ->)]; [tauto|].
    right; right; right. exists code. split; [exact Hcode|]. now left.
  - cbn [login_event].
    destruct (login_event g); [|cbn [fst]; tauto].
    match goal with
    | |- context [after_wait client ?G] =>
        specialize (Ha G); destruct (after_wait client G) as [[t' g''] b]
    end.
    cbn [fst] in *. rewrite client_calls_app, Hc.
    destruct Ha as [->|(code & Hcode & ->)]; [tauto|].
    right; right; right. exists code. split; [exact Hcode|]. now right.
Qed.

(** X20.  A sign-in that raises drops the stored OTP and clears the event,
    whatever the exception, and keeps the code-request flag.  A login
    entered again in that state, with the flag set, asks for no new code
    and does not sign in with the old one: it suspends at the wait until
    another OTP is delivered. *)
Theorem failed_sign_in_clears_the_otp client g t g' :
  after_wait client g = (t, g', false) ->
  Py.truthy (otp_received g) = true ->
  (exists e, sign_in client (otp_received g) = raise e) /\
  g' = {| otp_received := PNone; login_event := false;
          otp_request_sent := otp_request_sent g |} /\
  forall client',
    connect client' = ok tt ->
    is_user_authorized client' = ok false ->
    otp_request_sent g = true ->
    exists t',
      telegram_login client' g' = (t', g', AtWait) /\
      client_calls t' = [Connect; IsUserAuthorized].
Proof.
  intros H Ht.
  destruct (after_wait_cases client g)
    as [[Hf _]|[(_ & _ & E)|(_ & e & m & Hs & E)]].
  - rewrite Hf in Ht. discriminate.
  - rewrite E in H. discriminate.
  - rewrite E in H. inversion H; subst. split; [eauto|].
    split; [reflexivity|].
    intros client' Hc Ha Hr.
    unfold telegram_login, before_wait. rewrite Hc, Ha.
    unfold reset_otp. cbn [otp_request_sent login_event]. rewrite Hr.
    cbn [negb]. eexists. split; reflexivity.
Qed.

End LoginFacts.

(* ================================================================= *)
(** ** The start-up checks *)

Section StartupFacts.

Import Startup.

Variable int_of_str : string -> option Z.

Lemma truthy_provided getenv name :
  truthy_str (getenv name) = true <-> provided getenv name.
Proof.
  unfold provided, truthy_str. destruct (getenv name) as [v|].
  - rewrite negb_true_iff. split.
    + intros H. exists v. split; [reflexivity|].
      intros ->. discriminate H.
    + intros (v' & Hv & Hn). injection Hv as <-.
      now apply String.eqb_neq.
  - split; [discriminate|]. intros (v & Hv & _). discriminate Hv.
Qed.

Lemma required_vars_names getenv kv :
  In kv (required_vars getenv) <->
  In (fst kv) names /\ snd kv = getenv (fst kv).
Proof.
  unfold required_vars, names. cbn [In]. split.
  - intros H.
    repeat (destruct H as [<-|H]; [cbn [fst snd]; tauto|]).
    contradiction.
  - destruct kv as [k v]. cbn [fst snd]. intros [H ->].
    repeat (destruct H as [<-|H]; [tauto|]).
    contradiction.
Qed.

Lemma filter_none {A} (f : A -> bool) l :
  (forall x, In x l -> f x = false) -> filter f l = [].
Proof.
  induction l as [|a l IH]; intros H; [reflexivity|].
  cbn [filter]. rewrite (H a (or_introl eq_refl)).
  apply IH. intros x Hx. apply H. now right.
Qed.

Lemma nothing_missing getenv :
  missing_vars getenv = [] <->
  forall name, In name names -> provided getenv name.
Proof.
  unfold missing_vars. split.
  - intros H name Hn. apply truthy_provided.
    destruct (truthy_str (getenv name)) eqn:E; [reflexivity|].
    assert (Hin : In (name, getenv name)
                    (filter (fun kv => negb (truthy_str (snd kv)))
                       (required_vars getenv))).
    { apply filter_In. split.
      - apply required_vars_names. now split.
      - cbn [snd]. now rewrite E. }
    apply (in_map fst) in Hin. rewrite H in Hin. contradiction.
  - intros H.
    assert (Hf : filter (fun kv => negb (truthy_str (snd kv)))
                   (required_vars getenv) = []).
    { apply filter_none. intros kv Hkv.
      apply required_vars_names in Hkv as [Hn Hv].
      rewrite Hv. apply negb_false_iff.
      apply truthy_provided, H, Hn. }
    rewrite Hf. reflexivity.
Qed.

(** X21.  The start-up checks pass exactly when each of the seven variables
    is set to a non-empty string and [int] reads [API_ID]; the value is that
    integer.  Otherwise [ValueError] is raised: one that lists the missing
    names, in the order they are declared, when any is unset or empty (the
    text of [API_ID] is then not looked at), or else the one about
    [API_ID], chained to the error of [int]. *)
Theorem startup_checks_pass_exactly_when_all_are_set getenv :
  (forall n,
      startup_checks int_of_str getenv = ok n <->
      (forall name, In name names -> provided getenv name) /\
      exists s, getenv "API_ID" = Some s /\ int_of_str s = Some n) /\
  (forall e,
      startup_checks int_of_str getenv = raise e ->
      (missing_vars getenv <> [] /\
       e = ValueError ("Missing required environment variables: "
                       ++ String.concat ", " (missing_vars getenv))) \/
      (missing_vars getenv = [] /\
       exists cause,
         e = RaisedFrom
               (ValueError "Environment variable API_ID must be a valid integer")
               (ValueError cause))).
Proof.
  unfold startup_checks, py_int. split.
  - intros n. rewrite <- nothing_missing.
    destruct (missing_vars getenv) as [|x xs] eqn:Em.
    + destruct (getenv "API_ID") as [s|] eqn:Ea.
      * destruct (int_of_str s) as [k|] eqn:Ei.
        -- split.
           ++ intros H. injection H as <-. split; [reflexivity|]. eauto.
           ++ intros (_ & s' & Hs & Hk). injection Hs as <-.
              rewrite Ei in Hk. now injection Hk as <-.
        -- split; [discriminate|].
           intros (_ & s' & Hs & Hk). injection Hs as <-.
           rewrite Ei in Hk. discriminate.
      * split; [discriminate|]. intros (_ & s' & Hs & _). discriminate.
    + split; [discriminate|]. intros [H _]. discriminate.
  - intros e.
    destruct (missing_vars getenv) as [|x xs] eqn:Em.
    + destruct (getenv "API_ID") as [s|] eqn:Ea.
      * destruct (int_of_str s) as [k|]; [discriminate|].
        intros H. injection H as <-. right. split; [reflexivity|]. eauto.
      * exfalso.
        assert (Hp : provided getenv "API_ID").
        { apply (proj1 (nothing_missing getenv) Em).
          unfold names. cbn [In]. tauto. }
        destruct Hp as (v & Hv & _). rewrite Ea in Hv. discriminate.
    + intros H. injection H as <-. left. split; [discriminate|reflexivity].
Qed.

End StartupFacts.

(* ================================================================= *)
(** ** Rounding does not lose a whole step *)

Section MagnitudeFacts.

Import PyFloat.
Local Open Scope Z_scope.

Lemma fexp_value x : fexp prec emax x = Z.max (x - 53) (-1074).
Proof. reflexivity. Qed.

Lemma Zdigits2_pos_iff m : 0 <= m -> (0 < Zdigits2 m <-> 0 < m).
Proof. destruct m; cbn [Zdigits2]; lia. Qed.

Lemma Zdigits2_le a b : 0 < a -> a <= b -> Zdigits2 a <= Zdigits2 b.
Proof.
  destruct a as [|a|a], b as [|b|b]; try lia. intros _ H.
  now apply digits_pos_le.
Qed.

(** The first shift of the rounding keeps the magnitude [digits + exponent]
    of a mantissa that is not below the smallest subnormal. *)
Lemma shr_fexp_magnitude m e l :
  0 < m -> -1074 < Zdigits2 m + e ->
  0 < shr_m (fst (shr_fexp prec emax m e l)) /\
  Zdigits2 (shr_m (fst (shr_fexp prec emax m e l)))
    + snd (shr_fexp prec emax m e l) = Zdigits2 m + e.
Proof.
  intros Hm Hd. unfold shr_fexp. rewrite fexp_value.
  set (k := Z.max (Zdigits2 m + e - 53) (-1074) - e).
  assert (Hk : k < Zdigits2 m) by (subst k; lia).
  unfold shr. destruct k as [|kp|kn] eqn:Ek; cbn [fst snd].
  - rewrite shr_record_of_loc_m. lia.
  - assert (H0 : 0 <= shr_m (shr_record_of_loc m l))
      by (rewrite shr_record_of_loc_m; lia).
    pose proof (digits_iter_shr kp _ H0) as Hi.
    rewrite shr_record_of_loc_m in Hi.
    assert (Hn : 0 <= shr_m (iter_pos shr_1 kp (shr_record_of_loc m l))).
    { apply iter_pos_invariant; [apply shr_1_nonneg | exact H0]. }
    split.
    + apply Zdigits2_pos_iff; [exact Hn|]. lia.
    + lia.
  - rewrite shr_record_of_loc_m. lia.
Qed.

Lemma round_nearest_even_grows m l : m <= round_nearest_even m l.
Proof.
  unfold round_nearest_even.
  destruct l as [|[| |]]; try lia. destruct (Z.even m); lia.
Qed.

(** A positive mantissa that is not below the smallest subnormal is not
    rounded to zero, and its magnitude does not shrink. *)
Lemma binary_round_aux_magnitude sx mx ex lx :
  0 < mx -> -1074 < Zdigits2 mx + ex ->
  binary_round_aux prec emax sx mx ex lx = S754_infinity sx \/
  exists m e,
    binary_round_aux prec emax sx mx ex lx = S754_finite sx m e /\
    Zdigits2 mx + ex <= Zpos (digits2_pos m) + e.
Proof.
  intros Hm Hd. unfold binary_round_aux.
  destruct (shr_fexp_magnitude mx ex lx Hm Hd) as [H1 H2].
  destruct (shr_fexp prec emax mx ex lx) as [mrs' e']. cbn [fst snd] in H1, H2.
  set (m2 := round_nearest_even (shr_m mrs') (loc_of_shr_record mrs')).
  assert (Hm2 : shr_m mrs' <= m2) by apply round_nearest_even_grows.
  assert (Hd2 : Zdigits2 (shr_m mrs') <= Zdigits2 m2)
    by (apply Zdigits2_le; lia).
  destruct (shr_fexp_magnitude m2 e' loc_Exact) as [H3 H4]; [lia|lia|].
  destruct (shr_fexp prec emax m2 e' loc_Exact) as [mrs'' e''].
  cbn [fst snd] in H3, H4.
  destruct (shr_m mrs'') as [|m|m] eqn:E; try lia.
  destruct (e'' <=? emax - prec); [|now left].
  right. exists m, e''. split; [reflexivity|]. cbn [Zdigits2] in H4. lia.
Qed.

Lemma shl_align_magnitude mx ex ex' :
  Zpos (digits2_pos (fst (shl_align mx ex ex'))) + snd (shl_align mx ex ex')
  = Zpos (digits2_pos mx) + ex.
Proof.
  unfold shl_align. destruct (ex' - ex) as [|d|d] eqn:E; cbn [fst snd];
    try reflexivity.
  change (Zdigits2 (Zpos (shift_pos d mx)) + ex' = Zdigits2 (Zpos mx) + ex).
  unfold shift_pos. rewrite iter_xO_pow2, Zdigits2_mul_pow2 by lia. lia.
Qed.

(** [float(n)] of an integer that is at least 1 is at least 1. *)
Lemma of_int_magnitude n fn :
  1 <= n -> of_int n = ok fn ->
  exists m e, fn = S754_finite false m e /\ 1 <= Zpos (digits2_pos m) + e.
Proof.
  intros Hn. destruct n as [|P|P]; try lia.
  unfold of_int, binary_normalize, binary_round.
  pose proof (shl_align_magnitude P 0
                (fexp prec emax (Zpos (digits2_pos P) + 0))) as Hs.
  destruct (shl_align P 0 (fexp prec emax (Zpos (digits2_pos P) + 0)))
    as [mz ez]. cbn [fst snd] in Hs.
  destruct (binary_round_aux_magnitude false (Zpos mz) ez loc_Exact)
    as [->|(m & e & -> & Hd)]; cbn [Zdigits2]; try lia.
  - discriminate.
  - intros H. injection H as <-. exists m, e. split; [reflexivity|].
    cbn [Zdigits2] in Hd. lia.
Qed.

Lemma digits_pos_mul a b :
  Zpos (digits2_pos a) + Zpos (digits2_pos b) - 1
  <= Zpos (digits2_pos (a * b)).
Proof.
  pose proof (digits_pos_bounds a) as [Ha _].
  pose proof (digits_pos_bounds b) as [Hb _].
  pose proof (digits_pos_bounds (a * b)) as [_ Hab].
  assert (Hp : 2 ^ (Zpos (digits2_pos a) - 1 + (Zpos (digits2_pos b) - 1))
               <= Zpos (a * b)).
  { rewrite Z.pow_add_r by lia. rewrite Pos2Z.inj_mul.
    apply Z.mul_le_mono_nonneg; try lia; apply Z.pow_nonneg; lia. }
  assert (Hlt : 2 ^ (Zpos (digits2_pos a) - 1 + (Zpos (digits2_pos b) - 1))
                < 2 ^ Zpos (digits2_pos (a * b))) by lia.
  apply Z.pow_lt_mono_r_iff in Hlt; lia.
Qed.

(** A float that is at least 1 times a positive double is above zero. *)
Lemma mul_above_zero m1 e1 m2 e2 :
  1 <= Zpos (digits2_pos m1) + e1 -> -1074 <= e2 ->
  gt_zero (mul (S754_finite false m1 e1) (S754_finite false m2 e2)) = true.
Proof.
  intros H1 H2. unfold mul, SFmul. cbn [xorb].
  pose proof (digits_pos_mul m1 m2) as Hd.
  destruct (binary_round_aux_magnitude false (Zpos (m1 * m2)) (e1 + e2) loc_Exact)
    as [->|(m & e & -> & _)]; cbn [Zdigits2]; try lia; reflexivity.
Qed.

(** X22.  For a finite wallet balance that is not negative and a finite
    positive price and step size, the quantity computed is above zero, so
    that an order is attempted, exactly when the step count
    [math.floor((wallet_balance / price) / step_size)] is at least 1: the
    multiplication by the step size never rounds a whole step down to
    zero. *)
Theorem quantity_is_positive_exactly_from_one_step (w p s : float) n :
  is_finite w = true -> nonneg w = true ->
  is_finite p = true -> gt_zero p = true ->
  is_finite s = true -> gt_zero s = true -> in_range s = true ->
  position_steps w p s = ok n ->
  exists q,
    position_size w p s = ok q /\
    (gt_zero q = true <-> 1 <= n).
Proof.
  intros Hw Hw0 Hp Hp0 Hs Hs0 Hr Hn.
  rewrite position_size_steps, Hn. cbn [rbind ok]. unfold int_mul.
  assert (Hfn : exists fn, of_int n = ok fn /\ 0 <= n).
  { rewrite position_steps_quotient in Hn. unfold position_quotient in Hn.
    destruct (truediv_nonneg_pos w p Hw Hw0 Hp Hp0) as (x & Hx & Hsx).
    rewrite Hx in Hn. cbn [rbind ok] in Hn.
    destruct (truediv x s) as [e|q] eqn:Hq; [discriminate Hn|].
    cbn [rbind] in Hn.
    assert (Hfin : is_finite q = true).
    { destruct q; try discriminate Hn; reflexivity. }
    assert (Hsq : (exists sz, q = S754_zero sz) \/ signed_as false q).
    { destruct Hsx as [[sz ->]|Hsx].
      - destruct (gt_zero_finite s Hs Hs0) as (ms & es & ->).
        left. unfold truediv in Hq. injection Hq as <-. cbn. eauto.
      - destruct (truediv_signed_pos x s Hsx Hs Hs0) as (q' & Hq' & Hsg).
        rewrite Hq in Hq'. injection Hq' as <-. now right. }
    destruct (truediv_in_range x s q Hs Hs0 Hq Hfin)
      as [[sz ->]|(sq & m & e & -> & Hm & He)].
    - injection Hn as <-. exists (S754_zero false). split; [reflexivity|lia].
    - destruct (floor_of_int_total sq m e Hm He) as (n' & fn & Hfl & Hfn).
      rewrite Hfl in Hn. injection Hn as <-.
      exists fn. split; [exact Hfn|].
      destruct Hsq as [[sz Hz]|Hsg]; [discriminate Hz|].
      destruct (floor_signed_false _ Hsg) as [E|(n'' & E & Hn'')];
        rewrite E in Hfl; [discriminate Hfl|].
      now injection Hfl as <-. }
  destruct Hfn as (fn & Hfn & Hn0). rewrite Hfn. cbn [rbind ok].
  exists (mul fn s). split; [reflexivity|].
  destruct (gt_zero_finite s Hs Hs0) as (ms & es & ->).
  cbn [in_range] in Hr. apply Z.leb_le in Hr. unfold emax, prec in Hr.
  destruct (Z.eq_dec n 0) as [->|Hne].
  - unfold of_int in Hfn. cbn in Hfn. injection Hfn as <-.
    split; [discriminate|lia].
  - destruct (of_int_magnitude n fn ltac:(lia) Hfn) as (m & e & -> & Hd).
    split; [lia|]. intros _. apply mul_above_zero; lia.
Qed.

End MagnitudeFacts.

(* ================================================================= *)
(** ** A price below zero *)

Section NegativePrice.

Import PyFloat.
Local Open Scope Z_scope.

Variable float_of_str : string -> option PyFloat.float.

Lemma signed_true_not_above_zero x : signed_as true x -> gt_zero x = false.
Proof.
  destruct x as [s|s| |s m e]; cbn [signed_as]; try contradiction;
    intros ->; reflexivity.
Qed.

Lemma floor_signed_true q :
  signed_as true q ->
  (exists e, floor q = raise e) \/ exists n, floor q = ok n /\ n <= 0.
Proof.
  destruct q as [s|s| |s m e]; cbn [signed_as]; try contradiction; intros ->;
    unfold floor.
  - right. exists 0. split; [reflexivity|lia].
  - left. eauto.
  - right. destruct (0 <=? e) eqn:E; eexists; (split; [reflexivity|]);
      cbn [cond_Zopp].
    + assert (0 < 2 ^ e) by (apply Z.pow_pos_nonneg; lia). nia.
    + apply Z.leb_gt in E.
      assert (0 < 2 ^ (- e)) by (apply Z.pow_pos_nonneg; lia).
      assert (- Zpos m / 2 ^ (- e) < 0)
        by (apply Z.div_lt_upper_bound; lia).
      change (Z.opp (Zpos m)) with (- Zpos m). lia.
Qed.

Lemma int_mul_not_above_zero n s :
  n <= 0 -> is_finite s = true -> gt_zero s = true ->
  (exists e, int_mul n s = raise e) \/
  exists q, int_mul n s = ok q /\ gt_zero q = false.
Proof.
  intros Hn Hs Hs0. destruct (gt_zero_finite s Hs Hs0) as (ms & es & ->).
  unfold int_mul, of_int, binary_normalize.
  destruct n as [|P|P]; try lia.
  - right. eexists. split; reflexivity.
  - pose proof (binary_round_sign true P 0) as Hsg.
    destruct (binary_round prec emax true P 0) as [sz|sz| |sf mf ef];
      cbn [signed_as] in Hsg; try contradiction; subst.
    + right. eexists. split; reflexivity.
    + left. eexists. reflexivity.
    + right. eexists. split; [reflexivity|].
      apply signed_true_not_above_zero.
      apply (SFmul_sign true mf ef false ms es).
Qed.

Lemma negative_price_sizing w p s :
  is_finite w = true -> nonneg w = true ->
  is_finite p = true -> signed_as true p -> truthy p = true ->
  is_finite s = true -> gt_zero s = true ->
  (exists e, position_size w p s = raise e) \/
  exists q, position_size w p s = ok q /\ gt_zero q = false.
Proof.
  intros Hw Hw0 Hp Hps Hpt Hs Hs0.
  destruct p as [sp|sp| |sp mp ep]; try discriminate; cbn [signed_as] in Hps;
    subst sp.
  rewrite position_size_steps. unfold position_steps.
  assert (Hq : exists q, (x <- truediv w (S754_finite true mp ep) ;;
                          truediv x s)%result = ok q /\
                         ((exists sz, q = S754_zero sz) \/ signed_as true q)).
  { destruct (gt_zero_finite s Hs Hs0) as (ms & es & ->).
    destruct (nonneg_finite w Hw Hw0) as [[sz ->]|(mw & ew & ->)].
    - eexists. split; [reflexivity|]. left. cbn. eauto.
    - unfold truediv at 1. cbn [rbind ok].
      pose proof (SFdiv_sign false mw ew true mp ep) as Hx. cbn [xorb] in Hx.
      destruct (SFdiv prec emax (S754_finite false mw ew)
                  (S754_finite true mp ep)) as [sx|sx| |sx mx ex];
        cbn [signed_as] in Hx; try contradiction; subst.
      + eexists. split; [reflexivity|]. left. cbn. eauto.
      + eexists. split; [reflexivity|]. now right.
      + eexists. split; [reflexivity|]. right.
        apply (SFdiv_sign true mx ex false ms es). }
  destruct Hq as (q & Hq & Hsq).
  assert (Hb : forall A (k : float -> result A),
             (max_qty <- truediv w (S754_finite true mp ep) ;;
              q0 <- truediv max_qty s ;; k q0)%result = k q).
  { intros A k. destruct (truediv w (S754_finite true mp ep)) as [e|x];
      [discriminate Hq|]. cbn [rbind] in *. rewrite Hq. reflexivity. }
  rewrite Hb.
  assert (Hf : (exists e, floor q = raise e) \/
               exists n, floor q = ok n /\ n <= 0).
  { destruct Hsq as [[sz ->]|Hsq].
    - right. exists 0. split; [reflexivity|lia].
    - now apply floor_signed_true. }
  destruct Hf as [[e ->]|(n & -> & Hn)]; [left; exists e; reflexivity|].
  cbn [rbind ok]. now apply int_mul_not_above_zero.
Qed.

(** X23.  With a wallet balance that is finite and not negative and a finite
    positive step size, a signal whose price is below zero never leads to an
    order: the quantity computed is not above zero, or the sizing raises, and
    [place_order] is not called. *)
Theorem negative_price_places_no_order
  session raw_text sg instruments step ab equity balance :
  parse_signal float_of_str (bot_message_of raw_text) = ok sg ->
  get_instruments_info session = ok instruments ->
  step_size_of float_of_str instruments (symbol sg) = ok step ->
  get_wallet_balance session = ok ab ->
  read_snapshot float_of_str ab = ok (equity, balance) ->
  is_finite balance = true -> nonneg balance = true ->
  is_finite (price sg) = true -> signed_as true (price sg) ->
  is_finite step = true -> gt_zero step = true ->
  no_place_order (fst (handle_bot_response float_of_str session raw_text)).
Proof.
  intros Hp Hi Hs Hw Hr Hb Hb0 Hpf Hps Hsf Hs0.
  destruct (parsed_values_truthy _ _ _ Hp) as (_ & Hpt & _).
  destruct (negative_price_sizing _ _ _ Hb Hb0 Hpf Hps Hpt Hsf Hs0)
    as [[e He]|(q & Hq & Hz)].
  - rewrite (body_sizing_failure _ _ _ _ _ _ _ _ _ _ Hp Hi Hs Hw Hr He).
    reflexivity.
  - rewrite handle_by_body.
    rewrite (body_reaches_sizing _ _ _ _ _ _ _ _ _ Hp Hi Hs Hw Hr).
    rewrite (size_and_place_insufficient _ _ _ _ _ _ Hq Hz). reflexivity.
Qed.

End NegativePrice.

(* ================================================================= *)
(** ** What a run leaves behind *)

Section RunFacts.

Variable float_of_str : string -> option PyFloat.float.

Lemma trade_reported_app t t' :
  trade_reported (t ++ t') = trade_reported t || trade_reported t'.
Proof. apply existsb_app. Qed.

(** X24.  Every run of the handler ends with one record that is both logged
    and printed: the trade details at level INFO when, and only when, an
    order was reported, and otherwise a single error.  The handler's own
    error record does not occur before it. *)
Theorem every_message_ends_in_one_record session raw_text :
  exists t lv m,
    fst (handle_bot_response float_of_str session raw_text) = t ++ say lv m /\
    trade_reported t = false /\
    (forall e, ~ In (Print (MsgHandlerError e)) t) /\
    ((lv = INFO /\ exists report, m = MsgTradeDetails report) \/
     (lv = ERROR /\
      trade_reported
        (fst (handle_bot_response float_of_str session raw_text)) = false)).
Proof.
  destruct (handler_outcome float_of_str session raw_text).
  - exists [], ERROR, (MsgHandlerError e).
    split; [reflexivity|]. split; [reflexivity|]. split; [now intros ?|].
    right. split; reflexivity.
  - eexists _, ERROR, (MsgHandlerError e).
    split; [rewrite app_assoc; reflexivity|]. split; [reflexivity|].
    split.
    { intros e0 Hin. unfold say, extracted in Hin. cbn [app In] in Hin.
      repeat (destruct Hin as [Hin|Hin]; try discriminate Hin). exact Hin. }
    right. split; reflexivity.
  - eexists _, ERROR, (MsgHandlerError e).
    split; [rewrite app_assoc; reflexivity|]. split; [reflexivity|].
    split.
    { intros e0 Hin. unfold say, extracted in Hin. cbn [app In] in Hin.
      repeat (destruct Hin as [Hin|Hin]; try discriminate Hin). exact Hin. }
    right. split; reflexivity.
  - eexists _, ERROR, (MsgHandlerError _).
    split; [rewrite app_assoc; reflexivity|]. split; [reflexivity|].
    split.
    { intros e0 Hin. unfold say, extracted in Hin. cbn [app In] in Hin.
      repeat (destruct Hin as [Hin|Hin]; try discriminate Hin). exact Hin. }
    right. split; reflexivity.
  - eexists _, ERROR, (MsgHandlerError e).
    split; [reflexivity|]. split; [reflexivity|].
    split.
    { intros e0 Hin. unfold fetched, say, extracted in Hin.
      cbn [app In] in Hin.
      repeat (destruct Hin as [Hin|Hin]; try discriminate Hin). exact Hin. }
    right. split; reflexivity.
  - eexists _, ERROR, MsgInsufficientBalance.
    split; [reflexivity|]. split; [reflexivity|].
    split.
    { intros e0 Hin. unfold fetched, say, extracted in Hin.
      cbn [app In] in Hin.
      repeat (destruct Hin as [Hin|Hin]; try discriminate Hin). exact Hin. }
    right. split; reflexivity.
  - eexists _, lv, m.
    split; [rewrite app_assoc; reflexivity|]. split; [reflexivity|].
    split.
    { intros e0 Hin. unfold fetched, say, extracted in Hin.
      cbn [app In] in Hin.
      repeat (destruct Hin as [Hin|Hin]; try discriminate Hin). exact Hin. }
    match goal with
    | H : submit_order _ _ _ _ _ = _ |- _ => rename H into Hsub
    end.
    destruct lv.
    + exfalso. revert Hsub.
      unfold submit_order, call, try_except, bind, lift.
      destruct (place_order session _) as [e|order];
        cbv beta iota; [discriminate|].
      destruct (Py.getitem order "retCode") as [e|code];
        cbv beta iota; [discriminate|].
      destruct (Py.eq_zero code);
        [ destruct (format_trade_details _ _ _ _ _ _ _ _)
        | destruct (Py.getitem order "retMsg") ];
        cbv beta iota; discriminate.
    + left. split; [reflexivity|]. revert Hsub.
      unfold submit_order, call, try_except, bind, lift.
      destruct (place_order session _) as [e|order];
        cbv beta iota; [discriminate|].
      destruct (Py.getitem order "retCode") as [e|code];
        cbv beta iota; [discriminate|].
      destruct (Py.eq_zero code);
        [ destruct (format_trade_details _ _ _ _ _ _ _ _)
        | destruct (Py.getitem order "retMsg") ];
        cbv beta iota; try discriminate.
      intros Heq. inversion Heq. eauto.
    + right. split; [reflexivity|]. reflexivity.
Qed.

Lemma handler_returns session raw_text :
  snd (handle_bot_response float_of_str session raw_text) = ok tt.
Proof.
  rewrite handle_by_body.
  destruct (handle_body _ _ _) as [t [e|[]]]; reflexivity.
Qed.

Lemma listen_trace inbox :
  listen float_of_str inbox =
  (flat_map (fun '(session, raw_text) =>
               Print (MsgBotResponse raw_text)
                 :: fst (handle_bot_response float_of_str session raw_text))
     inbox,
   ok tt).
Proof.
  induction inbox as [|[session raw_text] rest IH]; [reflexivity|].
  cbn [listen flat_map]. rewrite IH.
  unfold bot_message_handler, emit. step_bind.
  pose proof (handler_returns session raw_text) as Hret.
  destruct (handle_bot_response float_of_str session raw_text) as [t r].
  cbn [snd] in Hret. subst r. cbn [fst snd app]. step_bind.
  cbn [fst snd]. reflexivity.
Qed.

(** X25.  The listener sends at most one order per message it is handed:
    over any inbox the calls to [place_order] do not outnumber the
    messages. *)
Theorem orders_do_not_outnumber_messages inbox :
  (count_place_order (fst (listen float_of_str inbox)) <= List.length inbox)%nat.
Proof.
  rewrite listen_trace. cbn [fst].
  induction inbox as [|[session raw_text] rest IH]; [cbn; lia|].
  cbn [flat_map List.length]. rewrite count_place_order_app.
  pose proof (handle_places_once float_of_str session raw_text) as H.
  unfold count_place_order in *. cbn [filter is_place_order] in *. lia.
Qed.

End RunFacts.

(* ================================================================= *)
(** ** The codes the client signs in with *)

Section CodeFacts.

Import Auth.









End CodeFacts.

(* ================================================================= *)
(** ** What a call depends on *)

Section DependenceFacts.

Import Auth.

(** X27.  The equity read from the wallet has no part in the order: with
    the same signal, step size and wallet balance, two values of the equity
    lead to the same calls to the exchange.  The equity is only reported. *)
Theorem equity_does_not_affect_the_order
  session sg step equity equity' balance :
  exchange_calls (fst (size_and_place session sg step equity balance))
  = exchange_calls (fst (size_and_place session sg step equity' balance)).
Proof.
  destruct (position_size balance (price sg) step) as [e|q] eqn:Hq.
  { now rewrite !(size_and_place_failure _ _ _ _ _ _ Hq). }
  destruct (PyFloat.gt_zero q) eqn:Hz.
  - rewrite !(size_and_place_order _ _ _ _ _ _ Hq Hz).
    destruct (submit_order_says session sg q equity balance)
      as (lv & m & ->).
    destruct (submit_order_says session sg q equity' balance)
      as (lv' & m' & ->).
    reflexivity.
  - now rewrite !(size_and_place_insufficient _ _ _ _ _ _ Hq Hz).
Qed.

Lemma before_wait_request client g :
  In SendCodeRequest (fst (fst (before_wait client g))) ->
  connect client = ok tt /\
  is_user_authorized client = ok false /\
  otp_request_sent g = false /\
  (otp_request_sent (snd (fst (before_wait client g))) = true <->
   send_code_request client = ok tt).
Proof.
  unfold before_wait, login_failed, say.
  destruct (connect client) as [e|[]].
  { cbn [fst snd app In]. intros H.
    repeat (destruct H as [H|H]; try discriminate H). contradiction. }
  destruct (is_user_authorized client) as [e|[|]].
  { cbn [fst snd app In]. intros H.
    repeat (destruct H as [H|H]; try discriminate H). contradiction. }
  { cbn [fst snd app In]. intros H.
    repeat (destruct H as [H|H]; try discriminate H). contradiction. }
  destruct (otp_request_sent g) eqn:Es; cbn [negb].
  { cbn [fst snd app In]. intros H.
    repeat (destruct H as [H|H]; try discriminate H). contradiction. }
  intros _. repeat split; try reflexivity.
  - destruct (send_code_request client) as [e|[]]; [|reflexivity].
    destruct e; cbn [fst snd]; rewrite Es; discriminate.
  - intros ->. reflexivity.
Qed.

(** X28.  [telegram_login] asks Telegram for a code only when the client
    connected, reported the account not authorized, and no earlier request
    had gone through; the request flag is set afterwards exactly when the
    request returned without raising. *)
Theorem code_is_requested_only_when_unauthorized_and_unsent client g :
  In SendCodeRequest (fst (fst (telegram_login client g))) ->
  connect client = ok tt /\
  is_user_authorized client = ok false /\
  otp_request_sent g = false /\
  (otp_request_sent (snd (fst (telegram_login client g))) = true <->
   send_code_request client = ok tt).
Proof.
  unfold telegram_login.
  pose proof (before_wait_request client g) as Hb.
  destruct (before_wait client g) as [[t g'] p]. cbn [fst snd] in Hb.
  destruct p as [success|]; [exact Hb|].
  destruct (login_event g'); [|exact Hb].
  pose proof (after_wait_quiet client g') as (Hc & _ & Hf).
  destruct (after_wait client g') as [[t' g''] b]. cbn [fst snd] in *.
  intros H. apply in_app_or in H as [H|H].
  - rewrite Hf. now apply Hb.
  - exfalso. unfold count_send_code in Hc.
    assert (Hin : In SendCodeRequest (filter is_send_code t'))
      by (apply filter_In; now split).
    destruct (filter is_send_code t'); [contradiction|discriminate Hc].
Qed.

End DependenceFacts.

(* ================================================================= *)
(** ** The further properties on concrete inputs *)

Section MoreExamples.

Import Sample Cases.
Local Open Scope Z_scope.

Example scenario_calls :
  exchange_calls
    (fst (handle_bot_response Decimal.float_of_decimal
            (scenario "1000" 0 "OK") btc_text))
  = [GetInstrumentsInfo; GetWalletBalance; PlaceOrder btc_order].
Proof. vm_compute. reflexivity. Qed.

Lemma placed_order_is_a_sized_limit_buy_witness :
  exists sg instruments step ab equity balance,
    parse_signal Decimal.float_of_decimal (bot_message_of btc_text) = ok sg /\
    get_instruments_info (scenario "1000" 0 "OK") = ok instruments /\
    step_size_of Decimal.float_of_decimal instruments (symbol sg) = ok step /\
    get_wallet_balance (scenario "1000" 0 "OK") = ok ab /\
    read_snapshot Decimal.float_of_decimal ab = ok (equity, balance) /\
    position_size balance (price sg) step = ok (op_qty btc_order) /\
    PyFloat.gt_zero (op_qty btc_order) = true /\
    btc_order = {| op_category := "linear";
                   op_symbol := symbol sg;
                   op_side := "Buy";
                   op_order_type := "Limit";
                   op_qty := op_qty btc_order;
                   op_price := price sg;
                   op_time_in_force := "GTC";
                   op_stopLoss := stop_loss_price sg;
                   op_takeProfit := take_profit_price sg |}.
Proof.
  apply (placed_order_is_a_sized_limit_buy Decimal.float_of_decimal
           (scenario "1000" 0 "OK") btc_text btc_order).
  vm_compute. do 7 right. left. reflexivity.
Defined.

Lemma parsed_signal_reads_the_last_lines_witness :
  (exists part,
      last_line (PyStr.split PyStr.newline (bot_message_of btc_text))
        "Symbol:" part /\
      symbol btc_signal = field_text part "Symbol:") /\
  PyFloat.truthy (price btc_signal) = true.
Proof.
  pose proof (parsed_signal_reads_the_last_lines Decimal.float_of_decimal
                (bot_message_of btc_text) btc_signal
                ltac:(vm_compute; reflexivity)) as H.
  split; [exact (proj1 H)|].
  exact (proj1 (proj2 (proj2 (proj2 (proj2 (proj2 H)))))).
Defined.

Lemma unlabelled_lines_are_ignored_witness :
  parse_signal Decimal.float_of_decimal (String.concat nl chatty_lines)
  = parse_signal Decimal.float_of_decimal
      (String.concat nl (filter labelled chatty_lines)).
Proof.
  apply (unlabelled_lines_are_ignored Decimal.float_of_decimal chatty_lines).
  repeat constructor.
Defined.

Example chatty_lines_parsed :
  filter labelled chatty_lines
  = ["Symbol: BTCUSDT"; "Price: 50000"; "Stop Loss: 49000";
     "Take Profit: 52000"] /\
  parse_signal Decimal.float_of_decimal (String.concat nl chatty_lines)
  = ok btc_signal.
Proof. split; vm_compute; reflexivity. Qed.

Lemma well_formed_signal_is_parsed_witness :
  parse_signal Decimal.float_of_decimal
    (signal_text "BTCUSDT" "50000" "49000" "52000")
  = ok {| symbol := PyStr.strip "BTCUSDT"; price := dec "50000";
          stop_loss_price := dec "49000"; take_profit_price := dec "52000" |}.
Proof.
  apply (well_formed_signal_is_parsed Decimal.float_of_decimal
           "BTCUSDT" "50000" "49000" "52000");
    try reflexivity; try discriminate; vm_compute; reflexivity.
Defined.

Lemma step_size_is_that_of_the_first_match_witness :
  step_size_of Decimal.float_of_decimal instruments "BTCUSDT" =
  (lot <- Py.getitem (instrument "BTCUSDT" "0.001") "lotSizeFilter" ;;
   step <- Py.getitem lot "qtyStep" ;;
   py_float Decimal.float_of_decimal step)%result.
Proof.
  apply (step_size_is_that_of_the_first_match Decimal.float_of_decimal
           instruments "BTCUSDT"
           [instrument "ETHUSDT" "0.01"] (instrument "BTCUSDT" "0.001")
           [instrument "XYZUSDT" "0.001"]); reflexivity.
Defined.

Lemma unknown_symbol_is_an_error_witness :
  get_step_size Decimal.float_of_decimal (scenario "1000" 0 "OK") "DOGEUSDT" =
  ([GetInstrumentsInfo;
    Log ERROR (MsgStepSizeError
                 (ValueError ("Symbol " ++ "DOGEUSDT"
                              ++ " not found in instruments")))],
   raise (ValueError ("Symbol " ++ "DOGEUSDT" ++ " not found in instruments"))).
Proof.
  apply (unknown_symbol_is_an_error Decimal.float_of_decimal
           (scenario "1000" 0 "OK") instruments "DOGEUSDT"
           [instrument "ETHUSDT" "0.01"; instrument "BTCUSDT" "0.001";
            instrument "XYZUSDT" "0.001"]); reflexivity.
Defined.

Lemma step_size_failure_stops_the_handler_witness :
  handle_bot_response Decimal.float_of_decimal
    (scenario "1000" 0 "OK") doge_text =
  (say INFO (extracted doge_signal)
   ++ [GetInstrumentsInfo;
       Log ERROR (MsgStepSizeError
                    (ValueError "Symbol DOGEUSDT not found in instruments"))]
   ++ say ERROR (MsgHandlerError
                   (ValueError "Symbol DOGEUSDT not found in instruments")),
   ok tt).
Proof.
  apply (step_size_failure_stops_the_handler Decimal.float_of_decimal
           (scenario "1000" 0 "OK") doge_text doge_signal);
    vm_compute; reflexivity.
Defined.

Lemma usdt_record_comes_from_the_response_witness :
  is_usdt (usdt "1000") = true /\
  exists l account,
    wallet_list_of (wallet (accounts_list "1000")) = ok (PList l) /\
    In account l /\ holds_record account (usdt "1000").
Proof.
  apply (usdt_record_comes_from_the_response
           (wallet (accounts_list "1000")) (usdt "1000")).
  reflexivity.
Defined.

Lemma zero_step_size_is_a_handled_error_witness :
  handle_bot_response Decimal.float_of_decimal zero_step_exchange btc_text =
  (fetched btc_signal (wallet (accounts_list "1000")) (dec "1000") (dec "1000")
   ++ say ERROR (MsgHandlerError ZeroDivisionError), ok tt).
Proof.
  apply (zero_step_size_is_a_handled_error Decimal.float_of_decimal
           zero_step_exchange btc_text btc_signal zero_step_instruments
           (dec "0") (wallet (accounts_list "1000")) (dec "1000") (dec "1000"));
    vm_compute; reflexivity.
Defined.

Lemma nan_price_fails_at_sizing_witness :
  handle_bot_response float_of_literal (scenario "1000" 0 "OK") nan_text =
  (fetched nan_signal (wallet (accounts_list "1000")) (dec "1000") (dec "1000")
   ++ say ERROR (MsgHandlerError
                   (ValueError "cannot convert float NaN to integer")),
   ok tt).
Proof.
  apply (nan_price_fails_at_sizing float_of_literal
           (scenario "1000" 0 "OK") nan_text nan_signal instruments
           (dec "0.001") (wallet (accounts_list "1000"))
           (dec "1000") (dec "1000"));
    vm_compute; reflexivity.
Defined.

Lemma missing_wallet_balance_is_read_as_zero_witness :
  handle_bot_response Decimal.float_of_decimal
    exchange_without_balance btc_text =
  (fetched btc_signal wallet_without_balance (dec "1000") (S754_zero false)
   ++ say ERROR MsgInsufficientBalance, ok tt).
Proof.
  refine (proj2 (missing_wallet_balance_is_read_as_zero
                   Decimal.float_of_decimal
                   exchange_without_balance btc_text btc_signal instruments
                   (dec "0.001") wallet_without_balance usdt_without_balance
                   (dec "1000") (S754_zero false) _ _ _ _ _ _ _ _ _ _));
    try (vm_compute; reflexivity); vm_compute; discriminate.
Defined.

Lemma accepted_order_is_reported_by_its_result_witness :
  submit_order
    (exchange (accounts_list "1000") (ok (PDict answer_with_null_result)))
    btc_signal (dec "0.02") (dec "1000") (dec "1000") =
  (PlaceOrder btc_order
     :: say ERROR
          (MsgOrderException (AttributeError "object has no attribute 'get'")),
   ok tt).
Proof.
  apply (proj2 (accepted_order_is_reported_by_its_result
                  (exchange (accounts_list "1000")
                     (ok (PDict answer_with_null_result)))
                  btc_signal (dec "0.02") (dec "1000") (dec "1000")
                  answer_with_null_result (PInt 0)
                  eq_refl eq_refl eq_refl) PNone);
    reflexivity.
Defined.

Lemma failed_sign_in_clears_the_otp_witness :
  (exists e, Auth.sign_in client_bad_code (PStr "12345") = raise e) /\
  exists t',
    Auth.telegram_login client_ok code_requested
      = (t', code_requested, Auth.AtWait) /\
    client_calls t' = [Connect; IsUserAuthorized].
Proof.
  destruct (failed_sign_in_clears_the_otp client_bad_code otp_delivered
              ([SignIn (PStr "12345")] ++ say ERROR (MsgInvalidOtp (PStr "12345")))
              code_requested eq_refl eq_refl) as (H1 & H2 & H3).
  split; [exact H1|].
  exact (H3 client_ok eq_refl eq_refl eq_refl).
Defined.

Lemma quantity_is_positive_exactly_from_one_step_witness :
  exists q,
    position_size (dec "1000") (dec "50000") (dec "0.001") = ok q /\
    (PyFloat.gt_zero q = true <-> 1 <= 20).
Proof.
  apply (quantity_is_positive_exactly_from_one_step
           (dec "1000") (dec "50000") (dec "0.001") 20);
    vm_compute; reflexivity.
Defined.

Lemma negative_price_places_no_order_witness :
  no_place_order
    (fst (handle_bot_response Decimal.float_of_decimal
            (scenario "1000" 0 "OK") negative_text)).
Proof.
  apply (negative_price_places_no_order Decimal.float_of_decimal
           (scenario "1000" 0 "OK") negative_text negative_signal instruments
           (dec "0.001") (wallet (accounts_list "1000"))
           (dec "1000") (dec "1000"));
    vm_compute; reflexivity.
Defined.


Lemma code_is_requested_only_when_unauthorized_and_unsent_witness :
  Auth.connect client_ok = ok tt /\
  Auth.is_user_authorized client_ok = ok false /\
  Auth.otp_request_sent Auth.initial = false /\
  (Auth.otp_request_sent
     (snd (fst (Auth.telegram_login client_ok Auth.initial))) = true <->
   Auth.send_code_request client_ok = ok tt).
Proof.
  apply (code_is_requested_only_when_unauthorized_and_unsent
           client_ok Auth.initial).
  vm_compute. do 8 right. left. reflexivity.
Defined.

(** What the handler does with the price below zero: the quantity is -0.02
    and the balance is reported insufficient. *)
Example negative_price_outcome :
  position_size (dec "1000") (dec "-50000") (dec "0.001") = ok (dec "-0.02") /\
  handle_bot_response Decimal.float_of_decimal
    (scenario "1000" 0 "OK") negative_text =
  (fetched negative_signal (wallet (accounts_list "1000"))
     (dec "1000") (dec "1000")
   ++ say ERROR MsgInsufficientBalance, ok tt).
Proof. split; vm_compute; reflexivity. Qed.

(** The start-up checks on an environment that sets every variable, and on
    one that leaves two out. *)
Example startup_checks_values :
  Startup.startup_checks int_of_digits full_env = ok 12345 /\
  Startup.startup_checks int_of_digits
    (fun name => if String.eqb name "API_HASH" then None
                 else if String.eqb name "API_KEY" then Some ""
                 else full_env name)
  = raise (ValueError
             "Missing required environment variables: API_KEY, API_HASH").
Proof. split; vm_compute; reflexivity. Qed.

End MoreExamples.
